(** * ETL FIDC: a shallow embedding of the extraction pipeline

    The development follows the Python sources module by module:
    - [PyStr]         the [str] methods the sources call;
    - [Py]            exceptions and results;
    - [PyFloat]       binary64 numbers and the builtin [float(str)];
    - [XmlParser]     src/extractors/xml_parser.py;
    - [Pandas]        the part of pandas tables that the sources use;
    - [DataCleaner]   src/transformers/data_cleaner.py;
    - [DiffGenerator] src/validators/diff_generator.py;
    - [ApiClient]     src/extractors/api_client.py (the retry session);
    - [EtlService]    src/services/etl_service.py.
    The modules [Reference], [ReferenceTables] and [ReferenceRetry] hold the
    notions of the specification that the properties are stated with. The
    definitions come first, the properties after them.

    Text is a [string] whose characters stand for the code points 0..255.
    Floats are IEEE binary64 values, taken from the specification of floating
    point arithmetic of the standard library ([SpecFloat], precision 53,
    maximal exponent 1024). *)

From Stdlib Require Import ZArith NArith List String Ascii Bool Lia.
From Stdlib Require Import Floats.SpecFloat.
From stdpp Require Import base option list strings pretty gmap.

Set Warnings "-register-all".

Local Open Scope string_scope.
Local Open Scope list_scope.

(* ===================================================================== *)
(** ** Python strings *)
(* ===================================================================== *)

Module PyStr.

Definition chars (s : string) : list ascii := list_ascii_of_string s.
Definition str (l : list ascii) : string := string_of_list_ascii l.

Definition code (c : ascii) : N := N_of_ascii c.

(** ['0' <= c <= '9'], the test of [Py_ISDIGIT]. *)
Definition is_ascii_digit (c : ascii) : bool :=
  ((48 <=? code c) && (code c <=? 57))%N.

(** [str.isdigit] on one character: the ASCII digits and, in the range
    0..255, the superscripts two, three and one. *)
Definition isdigit (c : ascii) : bool :=
  is_ascii_digit c
  || (code c =? 178)%N || (code c =? 179)%N || (code c =? 185)%N.

(** Characters removed by [str.strip()]: the code points for which
    [str.isspace] holds. *)
Definition isspace (c : ascii) : bool :=
  ((9 <=? code c) && (code c <=? 13))%N
  || ((28 <=? code c) && (code c <=? 32))%N
  || (code c =? 133)%N || (code c =? 160)%N.

Fixpoint lstrip_by (p : ascii -> bool) (l : list ascii) : list ascii :=
  match l with
  | c :: r => if p c then lstrip_by p r else l
  | [] => []
  end.

Definition strip_by (p : ascii -> bool) (l : list ascii) : list ascii :=
  rev (lstrip_by p (rev (lstrip_by p l))).

(** [s.strip()] *)
Definition strip (s : string) : string := str (strip_by isspace (chars s)).

(** [s.replace(a, b)] for one-character [a]; [b] is any text. *)
Fixpoint replace_chars (a : ascii) (b : list ascii) (l : list ascii)
  : list ascii :=
  match l with
  | c :: r =>
      if Ascii.eqb c a then b ++ replace_chars a b r
      else c :: replace_chars a b r
  | [] => []
  end.

Definition replace (a : ascii) (b : string) (s : string) : string :=
  str (replace_chars a (chars b) (chars s)).

(** [prefix.startswith] read the other way round: [startswith p l] is
    [l.startswith(p)]. *)
Fixpoint startswith_chars (p l : list ascii) : bool :=
  match p, l with
  | [], _ => true
  | a :: p', b :: l' => Ascii.eqb a b && startswith_chars p' l'
  | _ :: _, [] => false
  end.

Definition startswith (s p : string) : bool :=
  startswith_chars (chars p) (chars s).

(** [x in s] for strings. *)
Fixpoint contains_chars (x l : list ascii) : bool :=
  startswith_chars x l
  || match l with
     | _ :: r => contains_chars x r
     | [] => false
     end.

Definition contains (x s : string) : bool :=
  contains_chars (chars x) (chars s).

(** [s.split(sep)] for a one-character separator. *)
Fixpoint split_chars (sep : ascii) (l : list ascii) : list (list ascii) :=
  match l with
  | [] => [[]]
  | c :: r =>
      if Ascii.eqb c sep then [] :: split_chars sep r
      else match split_chars sep r with
           | w :: ws => (c :: w) :: ws
           | [] => [[c]]
           end
  end.

Definition split (sep : ascii) (s : string) : list string :=
  map str (split_chars sep (chars s)).

(** [s[:n]] *)
Definition slice_to (n : nat) (l : list ascii) : list ascii := firstn n l.

(** [s.zfill(width)]: zeros go after a leading sign. *)
Definition zfill_chars (width : nat) (l : list ascii) : list ascii :=
  let pad := repeat "0"%char (width - length l) in
  match l with
  | c :: r =>
      if Ascii.eqb c "+" || Ascii.eqb c "-" then c :: pad ++ r
      else pad ++ l
  | [] => pad
  end.

End PyStr.

(* ===================================================================== *)
(** ** Python exceptions and results *)
(* ===================================================================== *)

Module Py.

(** The exception classes that occur in the modelled code. *)
Inductive exn : Type :=
| ValueError
| AttributeError
| KeyError
| TypeError
| ZeroDivisionError
| OtherError (msg : string).

(** The outcome of evaluating an expression: a value or a raised exception. *)
Inductive result (A : Type) : Type :=
| Ok (a : A)
| Raise (e : exn).
Arguments Ok {A} a.
Arguments Raise {A} e.

Definition bind {A B} (r : result A) (k : A -> result B) : result B :=
  match r with
  | Ok a => k a
  | Raise e => Raise e
  end.

(** [try: r  except handled: h]; other exceptions propagate. *)
Definition try_except {A} (r : result A) (handled : exn -> bool)
  (h : result A) : result A :=
  match r with
  | Ok a => Ok a
  | Raise e => if handled e then h else Raise e
  end.

Definition raises {A} (r : result A) : bool :=
  match r with Ok _ => false | Raise _ => true end.

(** [str(e)] for an exception [e]; the class name stands for the text. *)
Definition exn_str (e : exn) : string :=
  match e with
  | ValueError => "ValueError"
  | AttributeError => "AttributeError"
  | KeyError => "KeyError"
  | TypeError => "TypeError"
  | ZeroDivisionError => "float division by zero"
  | OtherError msg => msg
  end.

End Py.

(* ===================================================================== *)
(** ** Python floats *)
(* ===================================================================== *)

Module PyFloat.
Import PyStr Py.

Definition prec : Z := 53.
Definition emax : Z := 1024.

(** A Python [float] is a binary64 number. *)
Definition float : Type := spec_float.

Definition nan : float := S754_nan.
Definition inf : float := S754_infinity false.
Definition zero : float := S754_zero false.
Definition one : float := S754_finite false 4503599627370496 (-52).

Definition div : float -> float -> float := SFdiv prec emax.
Definition mul : float -> float -> float := SFmul prec emax.
Definition sub : float -> float -> float := SFsub prec emax.
Definition add : float -> float -> float := SFadd prec emax.
Definition neg : float -> float := SFopp.

Definition eqb : float -> float -> bool := SFeqb.
Definition ltb : float -> float -> bool := SFltb.
Definition leb : float -> float -> bool := SFleb.
Definition gtb (x y : float) : bool := SFltb y x.
(** [x != y] *)
Definition neb (x y : float) : bool := negb (SFeqb x y).

Definition is_nan (x : float) : bool :=
  match x with S754_nan => true | _ => false end.

(** [float(n)] for an integer [n] (round to nearest even). *)
Definition of_Z (n : Z) : float := binary_normalize prec emax n 0 false.

(** [bool(x)], the truth value used by [not x] and [x or y]. *)
Definition truthy (x : float) : bool := neb x zero.

(** [a / b]: division by a zero raises. *)
Definition truediv (a b : float) : result float :=
  if eqb b zero then Raise ZeroDivisionError else Ok (div a b).

(** [max(a, b)]: the first argument is kept unless the second is greater. *)
Definition max (a b : float) : float := if gtb b a then b else a.

(** [min(a, b)]: the first argument is kept unless the second is smaller. *)
Definition min (a b : float) : float := if ltb b a then b else a.

(** *** [float(str)]

    The decimal number [m * 10^e] rounded to the nearest binary64 number,
    ties to even; too large a number gives an infinity. *)
Definition of_decimal (negative : bool) (m : N) (e : Z) : float :=
  match m with
  | N0 => S754_zero negative
  | Npos p =>
      match e with
      | Zneg k =>
          SFdiv prec emax (S754_finite negative p 0)
                (S754_finite false (Pos.pow 10 k) 0)
      | Zpos k => binary_round prec emax negative (p * Pos.pow 10 k) 0
      | Z0 => binary_round prec emax negative p 0
      end
  end.

Definition digit_value (c : ascii) : N := (code c - 48)%N.

(** The number written by a run of decimal digits. *)
Definition digits_value (ds : list ascii) : N :=
  fold_left (fun acc c => (10 * acc + digit_value c)%N) ds 0%N.

(** Longest prefix of characters satisfying [p], and the rest. *)
Fixpoint span (p : ascii -> bool) (l : list ascii)
  : list ascii * list ascii :=
  match l with
  | c :: r =>
      if p c then let '(a, b) := span p r in (c :: a, b) else ([], l)
  | [] => ([], [])
  end.

(** White space for [float]: [Py_ISSPACE], plus the two code points above
    127 that the conversion to ASCII turns into a blank. *)
Definition float_space (c : ascii) : bool :=
  ((9 <=? code c) && (code c <=? 13))%N
  || (code c =? 32)%N || (code c =? 133)%N || (code c =? 160)%N.

(** Underscores are dropped; each must sit between two digits. [prev] is
    the character before the current one. *)
Fixpoint drop_underscores (prev : option ascii) (l : list ascii)
  : option (list ascii) :=
  match l with
  | [] =>
      match prev with
      | Some p => if Ascii.eqb p "_" then None else Some []
      | None => Some []
      end
  | c :: r =>
      if Ascii.eqb c "_" then
        match prev with
        | Some p => if is_ascii_digit p then drop_underscores (Some c) r
                    else None
        | None => None
        end
      else
        let after_underscore :=
          match prev with Some p => Ascii.eqb p "_" | None => false end in
        if after_underscore && negb (is_ascii_digit c) then None
        else option_map (cons c) (drop_underscores (Some c) r)
  end.

Definition parse_sign (l : list ascii) : bool * list ascii :=
  match l with
  | c :: r =>
      if Ascii.eqb c "-" then (true, r)
      else if Ascii.eqb c "+" then (false, r)
      else (false, l)
  | [] => (false, [])
  end.

(** An exponent part [e[+-]digits]; when it is malformed nothing is read. *)
Definition parse_exponent (l : list ascii) : Z * list ascii :=
  match l with
  | c :: r =>
      if Ascii.eqb c "e" || Ascii.eqb c "E" then
        let '(s, r1) := parse_sign r in
        let '(ds, r2) := span is_ascii_digit r1 in
        match ds with
        | [] => (0%Z, l)
        | _ :: _ =>
            let v := Z.of_N (digits_value ds) in
            ((if s then - v else v)%Z, r2)
        end
      else (0%Z, l)
  | [] => (0%Z, [])
  end.

(** A decimal literal: digits, an optional point and digits, an optional
    exponent; at least one digit; nothing may follow. *)
Definition parse_decimal (l : list ascii) : option float :=
  let '(s, r0) := parse_sign l in
  let '(ip, r1) := span is_ascii_digit r0 in
  let '(fp, r2) :=
    match r1 with
    | c :: r => if Ascii.eqb c "." then span is_ascii_digit r else ([], r1)
    | [] => ([], [])
    end in
  match ip ++ fp with
  | [] => None
  | _ :: _ =>
      let '(e, r3) := parse_exponent r2 in
      match r3 with
      | [] => Some (of_decimal s (digits_value (ip ++ fp))
                               (e - Z.of_nat (length fp)))
      | _ :: _ => None
      end
  end.

Definition lower (c : ascii) : ascii :=
  if ((65 <=? code c) && (code c <=? 90))%N
  then ascii_of_N (code c + 32) else c.

(** [inf], [infinity] and [nan], with a sign, in any letter case. *)
Definition parse_inf_or_nan (l : list ascii) : option float :=
  let '(s, r) := parse_sign l in
  let w := str (map lower r) in
  if String.eqb w "inf" || String.eqb w "infinity"
  then Some (S754_infinity s)
  else if String.eqb w "nan" then Some nan
  else None.

(** [float(s)] for a string [s]: [ValueError] when [s] is not a number. *)
Definition float_of_str (s : string) : result float :=
  let body := strip_by float_space (chars s) in
  match drop_underscores None body with
  | None => Raise ValueError
  | Some l =>
      match parse_decimal l with
      | Some x => Ok x
      | None =>
          match parse_inf_or_nan l with
          | Some x => Ok x
          | None => Raise ValueError
          end
      end
  end.

End PyFloat.

(* ===================================================================== *)
(** ** src/extractors/xml_parser.py *)
(* ===================================================================== *)

Module XmlParser.
Import PyStr Py PyFloat.

(** [limpar_tag]: the tag without its namespace, [tag.split('}')[-1]]. *)
Definition limpar_tag (tag : string) : string :=
  if contains "}" tag then List.last (split "}" tag) tag else tag.

(** [str(texto).replace('.', '').replace(',', '.')] *)
Definition texto_limpo (texto : string) : string :=
  replace "," "." (replace "." "" texto).

(** [converter_valor(texto)]; [None] stands for Python's [None].

    [not texto or not str(texto).strip()] gives the default; otherwise the
    points are removed, the comma becomes a point and [float] reads the
    result. [ValueError] and [AttributeError] are caught. *)
Definition converter_valor (texto : option string) : result float :=
  match texto with
  | None => Ok zero
  | Some t =>
      if String.eqb t "" || String.eqb (strip t) "" then Ok zero
      else
        try_except (float_of_str (texto_limpo t))
          (fun e => match e with
                    | ValueError | AttributeError => true
                    | _ => false
                    end)
          (Ok zero)
  end.

(** *** Element trees

    An element of [xml.etree.ElementTree]: its tag, its text ([None] when
    the element has none) and its children. *)
Inductive element : Type :=
| Element (tag : string) (text : option string) (children : list element).

Definition tag (e : element) : string :=
  match e with Element t _ _ => t end.
Definition text (e : element) : option string :=
  match e with Element _ t _ => t end.
Definition children (e : element) : list element :=
  match e with Element _ _ cs => cs end.

(** [e.iter()]: the element and all its descendants, in document order. *)
Fixpoint iter (e : element) : list element :=
  match e with
  | Element _ _ cs =>
      e :: (fix iter_all (l : list element) : list element :=
              match l with
              | [] => []
              | c :: r => iter c ++ iter_all r
              end) cs
  end.

(** The proper descendants of [e], in document order. *)
Definition descendants (e : element) : list element := List.tl (iter e).

Definition has_tag (t : string) (e : element) : bool := String.eqb (tag e) t.

(** [root.find('.//' + caminho)] for a path made of tag names separated by
    ['/'], as all the paths of the parser are: the descendants named like
    the first segment, then for each further segment the children with that
    name; the first element reached, if any. The wildcards, predicates and
    parent steps of ElementPath are not modelled. *)
Definition find (root : element) (caminho : string) : option element :=
  match split "/" caminho with
  | [] => None
  | t :: rest =>
      List.hd_error
        (fold_left
           (fun elems seg =>
              flat_map (fun e => List.filter (has_tag seg) (children e)) elems)
           rest
           (List.filter (has_tag t) (descendants root)))
  end.

(** *** Field lookup *)

(** A value of the dynamically typed fields. *)
Inductive value : Type :=
| VStr (s : string)
| VFloat (x : float)
| VInt (n : Z)
| VNone.

(** [any(x in caminho for x in ['DT_', 'NR_', ...])] *)
Definition campo_texto (caminho : string) : bool :=
  existsb (fun x => contains x caminho)
    ["DT_"; "NR_"; "CD_"; "FDO_"; "CLASS_"; "COTST_"; "TP_"].

(** ['/' in caminho or any(caminho.startswith(x) for x in ['VL_', ...])] *)
Definition campo_numerico (caminho : string) : bool :=
  contains "/" caminho
  || existsb (fun x => startswith caminho x) ["VL_"; "QT_"; "PR_"; "TX_"].

(** [buscar_valor_xml(root, caminho)] *)
Definition buscar_valor_xml (root : element) (caminho : string) : value :=
  let elemento := find root caminho in
  let ausente :=
    if campo_texto caminho then VStr ""
    else if campo_numerico caminho then VFloat zero
    else VStr "" in
  match elemento with
  | Some (Element _ (Some elemento_text) _) =>
      if String.eqb elemento_text "" then ausente
      else
        let texto := strip elemento_text in
        if campo_texto caminho then VStr texto
        else
          match converter_valor (Some elemento_text) with
          | Ok x => VFloat x
          | Raise _ => VStr texto
          end
  | _ => ausente
  end.

(** *** The record of a fund *)

(** A [FIDCData] object is its attribute dictionary. *)
Abbreviation FIDCData := (gmap string value).

(** [FIDCData()]: the declared fields with their defaults. *)
Definition FIDCData_defaults : list (string * value) :=
  [
   ("cnpj_fundo", VStr "");
   ("cnpj_administrador", VStr "");
   ("data_competencia", VStr "");
   ("tipo_condominio", VStr "");
   ("fundo_exclusivo", VStr "");
   ("classe_unica", VStr "");
   ("cotista_vinculado", VStr "");
   ("ativo_total", VFloat zero);
   ("disponibilidades", VFloat zero);
   ("carteira_total", VFloat zero);
   ("outros_ativos_total", VFloat zero);
   ("outros_ativos_curto_prazo", VFloat zero);
   ("outros_ativos_longo_prazo", VFloat zero);
   ("creditos_adquiridos", VFloat zero);
   ("cred_vencidos_adimplentes", VFloat zero);
   ("cred_vencidos_inadimplentes", VFloat zero);
   ("cred_total_venc_inadimpl", VFloat zero);
   ("cred_inadimplencia", VFloat zero);
   ("cred_performados", VFloat zero);
   ("cred_vencidos_pendentes", VFloat zero);
   ("cred_emp_recuperacao", VFloat zero);
   ("cred_receita_publica", VFloat zero);
   ("cred_acao_judicial", VFloat zero);
   ("cred_constituicao_juridica", VFloat zero);
   ("cred_provisao_reducao", VFloat zero);
   ("dicred_total", VFloat zero);
   ("dicred_cedente", VFloat zero);
   ("dicred_venc_inadimpl", VFloat zero);
   ("dicred_total_venc_inad", VFloat zero);
   ("dicred_inadimplencia", VFloat zero);
   ("dicred_performados", VFloat zero);
   ("dicred_venc_pendentes", VFloat zero);
   ("dicred_emp_recuperacao", VFloat zero);
   ("dicred_receita_publica", VFloat zero);
   ("dicred_acao_judicial", VFloat zero);
   ("dicred_provisao_reducao", VFloat zero);
   ("valores_mobiliarios_total", VFloat zero);
   ("debentures", VFloat zero);
   ("cri", VFloat zero);
   ("notas_promissorias_comerciais", VFloat zero);
   ("letras_financeiras", VFloat zero);
   ("cotas_fif", VFloat zero);
   ("outros_direitos_creditorios", VFloat zero);
   ("titulos_publicos_federais", VFloat zero);
   ("cdb", VFloat zero);
   ("aplicacoes_compromissadas", VFloat zero);
   ("ativos_financeiros_rf", VFloat zero);
   ("cotas_fidc", VFloat zero);
   ("derivativos_total", VFloat zero);
   ("termo_comprador", VFloat zero);
   ("opcoes_titular", VFloat zero);
   ("futuros_ajuste_positivo", VFloat zero);
   ("swap_a_receber", VFloat zero);
   ("cobertura_prestada", VFloat zero);
   ("depositos_margem", VFloat zero);
   ("carteira_segmentada_total", VFloat zero);
   ("segmt_industrial", VFloat zero);
   ("segmt_mercado_imobiliario", VFloat zero);
   ("segmt_agronegocio", VFloat zero);
   ("segmt_cartao_credito", VFloat zero);
   ("segmt_acao_judicial", VFloat zero);
   ("segmt_propriedade_intelectual", VFloat zero);
   ("segmt_comercial_total", VFloat zero);
   ("segmt_comercio", VFloat zero);
   ("segmt_comercio_varejo", VFloat zero);
   ("segmt_arrend_mercantil", VFloat zero);
   ("segmt_servicos_total", VFloat zero);
   ("segmt_servicos_gerais", VFloat zero);
   ("segmt_servicos_publicos", VFloat zero);
   ("segmt_servicos_educacao", VFloat zero);
   ("segmt_servicos_entretenimento", VFloat zero);
   ("segmt_financeiro_total", VFloat zero);
   ("segmt_financ_credito_pessoa", VFloat zero);
   ("segmt_financ_consignado", VFloat zero);
   ("segmt_financ_corporativo", VFloat zero);
   ("segmt_financ_middle_market", VFloat zero);
   ("segmt_financ_veiculos", VFloat zero);
   ("segmt_financ_imob_empresarial", VFloat zero);
   ("segmt_financ_imob_residencial", VFloat zero);
   ("segmt_financ_outros", VFloat zero);
   ("segmt_factoring_total", VFloat zero);
   ("segmt_factoring_pessoa", VFloat zero);
   ("segmt_factoring_corporativo", VFloat zero);
   ("segmt_setor_publico_total", VFloat zero);
   ("segmt_precatorios", VFloat zero);
   ("segmt_creditos_tributarios", VFloat zero);
   ("segmt_royalties", VFloat zero);
   ("segmt_setor_publico_outros", VFloat zero);
   ("inadimplencia_total", VFloat zero);
   ("indice_npl_decimal", VFloat zero);
   ("indice_npl_percentual", VFloat zero);
   ("taxa_liquidez_percentual", VFloat zero);
   ("concentracao_credito_percentual", VFloat zero);
   ("status", VStr "PENDENTE");
   ("data_referencia_doc", VStr "");
   ("id_documento", VStr "");
   ("mensagem_erro", VNone)
  ].

Definition FIDCData_new : FIDCData := list_to_map FIDCData_defaults.

(** The numeric fields and their paths, in the order of the assignments
    [dados.<field> = buscar_valor_xml(root, '<path>')]. *)
Definition campos_numericos : list (string * string) :=
  [
   ("ativo_total", "VL_SOM_APLIC_ATIVO");
   ("disponibilidades", "VL_DISPONIB");
   ("carteira_total", "VL_CARTEIRA");
   ("outros_ativos_total", "VL_SOM_OUTROS_ATIVOS");
   ("outros_ativos_curto_prazo", "OUTROS_ATIVOS/VL_OUTRO_VL_RECEB_CURPRZ");
   ("outros_ativos_longo_prazo", "OUTROS_ATIVOS/VL_OUTRO_VL_RECEB_LPRAZO");
   ("creditos_adquiridos", "CRED_EXISTE/VL_SOM_DICRED_AQUIS");
   ("cred_vencidos_adimplentes", "CRED_EXISTE/VL_CRED_EXISTE_VENC_ADIMPL");
   ("cred_vencidos_inadimplentes", "CRED_EXISTE/VL_CRED_EXISTE_VENC_INAD");
   ("cred_total_venc_inadimpl", "CRED_EXISTE/VL_CRED_TOTAL_VENC_INAD");
   ("cred_inadimplencia", "CRED_EXISTE/VL_CRED_EXISTE_INAD");
   ("cred_performados", "CRED_EXISTE/VL_CRED_REFER_DICRED_PERFO");
   ("cred_vencidos_pendentes", "CRED_EXISTE/VL_CRED_VENC_PEND");
   ("cred_emp_recuperacao", "CRED_EXISTE/VL_CRED_ORIGEM_EMP_PROC_RECUP");
   ("cred_receita_publica", "CRED_EXISTE/VL_DECOR_RECEIT_PUBLIC");
   ("cred_acao_judicial", "CRED_EXISTE/VL_CRED_ACAO_JUDIC");
   ("cred_constituicao_juridica", "CRED_EXISTE/VL_CRED_CONST_JUR_FATRISC");
   ("cred_provisao_reducao", "CRED_EXISTE/VL_PROVIS_REDUC_RECUP");
   ("dicred_total", "DICRED/VL_DICRED");
   ("dicred_cedente", "DICRED/VL_DICRED_CEDENT");
   ("dicred_venc_inadimpl", "DICRED/VL_DICRED_EXISTE_VENC_INAD");
   ("dicred_total_venc_inad", "DICRED/VL_DICRED_TOTAL_VENC_INAD");
   ("dicred_inadimplencia", "DICRED/VL_DICRED_EXISTE_INAD");
   ("dicred_performados", "DICRED/VL_DICRED_REFER_DICRED_PERFO");
   ("dicred_venc_pendentes", "DICRED/VL_DICRED_VENC_PEND");
   ("dicred_emp_recuperacao", "DICRED/VL_DICRED_ORIGEM_EMP_PROC_RECUP");
   ("dicred_receita_publica", "DICRED/VL_DICRED_RECEIT_PUBLIC");
   ("dicred_acao_judicial", "DICRED/VL_DICRED_ACAO_JUDIC");
   ("dicred_provisao_reducao", "DICRED/VL_DICRED_PROVIS_REDUC_RECUP");
   ("valores_mobiliarios_total", "VALORES_MOB/VL_SOM_VALORES_MOB");
   ("debentures", "VALORES_MOB/VL_DEBT");
   ("cri", "VALORES_MOB/VL_CRI");
   ("notas_promissorias_comerciais", "VALORES_MOB/VL_NP_COMERC");
   ("letras_financeiras", "VALORES_MOB/VL_LETRA_FINANC");
   ("cotas_fif", "VALORES_MOB/VL_CLS_COTA_FIF");
   ("outros_direitos_creditorios", "VALORES_MOB/VL_OUTRO_DICRED");
   ("titulos_publicos_federais", "VL_TITPUB_FED");
   ("cdb", "VL_CDB");
   ("aplicacoes_compromissadas", "VL_APLIC_OPER_COMPSS");
   ("ativos_financeiros_rf", "VL_ATIV_FINANC_RF");
   ("cotas_fidc", "VL_COTA_FIDC");
   ("derivativos_total", "MERC_DERIVATIVO/VL_SOM_MERC_DERIVATIVO");
   ("termo_comprador", "MERC_DERIVATIVO/VL_MERC_TERMO_POS_COMPRD");
   ("opcoes_titular", "MERC_DERIVATIVO/VL_MERC_OP_POS_TITUL");
   ("futuros_ajuste_positivo", "MERC_DERIVATIVO/VL_MERC_FUT_AJUST_POSIT");
   ("swap_a_receber", "MERC_DERIVATIVO/VL_DIFER_SWAP_RECEB");
   ("cobertura_prestada", "MERC_DERIVATIVO/VL_COBERT_PREST");
   ("depositos_margem", "MERC_DERIVATIVO/VL_DEPOS_MARGEM");
   ("carteira_segmentada_total", "CART_SEGMT/VL_SOM_CART_SEGMT");
   ("segmt_industrial", "CART_SEGMT/VL_IND");
   ("segmt_mercado_imobiliario", "CART_SEGMT/VL_MERC_IMOBIL");
   ("segmt_agronegocio", "CART_SEGMT/VL_AGRONEG");
   ("segmt_cartao_credito", "CART_SEGMT/VL_CART_CRED");
   ("segmt_acao_judicial", "CART_SEGMT/VL_ACAO_JUDIC");
   ("segmt_propriedade_intelectual", "CART_SEGMT/VL_PROPRD_MARCA_PATENT");
   ("segmt_comercial_total", "SEGMT_COMERC/VL_SOM_SEGMT_COMERC");
   ("segmt_comercio", "SEGMT_COMERC/VL_COMERC");
   ("segmt_comercio_varejo", "SEGMT_COMERC/VL_COMERC_VARJ");
   ("segmt_arrend_mercantil", "SEGMT_COMERC/VL_ARREND_MERCNT");
   ("segmt_servicos_total", "SEGMT_SERV/VL_SOM_SEGMT_SERV");
   ("segmt_servicos_gerais", "SEGMT_SERV/VL_SERV");
   ("segmt_servicos_publicos", "SEGMT_SERV/VL_SERV_PUBLIC");
   ("segmt_servicos_educacao", "SEGMT_SERV/VL_SERV_EDUC");
   ("segmt_servicos_entretenimento", "SEGMT_SERV/VL_SERV_ENTRETEN");
   ("segmt_financeiro_total", "SEGMT_FINANC/VL_SOM_SEGMT_FINANC");
   ("segmt_financ_credito_pessoa", "SEGMT_FINANC/VL_FINANC_CRED_PESSOA");
   ("segmt_financ_consignado", "SEGMT_FINANC/VL_FINANC_CRED_PESSOA_CONSIG");
   ("segmt_financ_corporativo", "SEGMT_FINANC/VL_FINANC_CRED_CORPOR");
   ("segmt_financ_middle_market", "SEGMT_FINANC/VL_FINANC_MMARKET");
   ("segmt_financ_veiculos", "SEGMT_FINANC/VL_FINANC_VEICL");
   ("segmt_financ_imob_empresarial", "SEGMT_FINANC/VL_FINANC_IMOBIL_EMPSRL");
   ("segmt_financ_imob_residencial", "SEGMT_FINANC/VL_FINANC_IMOBIL_RESID");
   ("segmt_financ_outros", "SEGMT_FINANC/VL_FINANC_OUTRO");
   ("segmt_factoring_total", "SEGMT_FACT/VL_SOM_SEGMT_FACT");
   ("segmt_factoring_pessoa", "SEGMT_FACT/VL_FACT_PESSOA");
   ("segmt_factoring_corporativo", "SEGMT_FACT/VL_FACT_CORPOR");
   ("segmt_setor_publico_total", "SEGMT_SETOR_PUBLIC/VL_SOM_SEGMT_SETOR_PUBLIC");
   ("segmt_precatorios", "SEGMT_SETOR_PUBLIC/VL_SETOR_PUBLIC_PRECAT");
   ("segmt_creditos_tributarios", "SEGMT_SETOR_PUBLIC/VL_SETOR_PUBLIC_CRED_TRIBUT");
   ("segmt_royalties", "SEGMT_SETOR_PUBLIC/VL_SETOR_PUBLIC_ROYA");
   ("segmt_setor_publico_outros", "SEGMT_SETOR_PUBLIC/VL_SETOR_PUBLIC_OUTRO")
  ].

Definition upper_char (c : ascii) : ascii :=
  if ((97 <=? code c) && (code c <=? 122))%N
  then ascii_of_N (code c - 32) else c.

(** [k.upper()] on code points below 128. *)
Definition upper (k : string) : string := str (map upper_char (chars k)).

(** [to_dict]: [{k.upper(): v for k, v in self.__dict__.items()}] *)
Definition to_dict (d : FIDCData) : gmap string value :=
  list_to_map (map (fun kv => (upper (fst kv), snd kv)) (map_to_list d)).

Section Parse.

(** [str(x)] for a float [x] is not computed by the model. *)
Variable float_str : float -> string.

(** [str(v)] *)
Definition py_str (v : value) : string :=
  match v with
  | VStr s => s
  | VFloat x => float_str x
  | VInt n => pretty n
  | VNone => "None"
  end.

(** [a or b] on strings. *)
Definition str_or (a b : string) : string :=
  if String.eqb a "" then b else a.

(** [float(v or 0)] *)
Definition float_or_0 (v : value) : result float :=
  match v with
  | VFloat x => if truthy x then Ok x else Ok (of_Z 0)
  | VStr s => if String.eqb s "" then Ok (of_Z 0) else float_of_str s
  | VInt n => Ok (of_Z n)
  | VNone => Ok (of_Z 0)
  end.

(** Reading an attribute that was set. *)
Definition getattr (d : FIDCData) (a : string) : result value :=
  match d !! a with
  | Some v => Ok v
  | None => Raise AttributeError
  end.

Notation "'let!' x ':=' e 'in' k" := (bind e (fun x => k))
  (at level 10, x name, e at level 100, k at level 200).

(** Section 1 of [parse], the identification. *)
Definition identificacao (root : element) (cnpj_fallback : string)
  (dados : FIDCData) : FIDCData :=
  let dados := <["cnpj_fundo" :=
      VStr (str_or (py_str (buscar_valor_xml root "NR_CNPJ_FUNDO"))
                   cnpj_fallback)]> dados in
  let dados := <["cnpj_administrador" :=
      VStr (py_str (buscar_valor_xml root "NR_CNPJ_ADM"))]> dados in
  let dados := <["data_competencia" :=
      VStr (py_str (buscar_valor_xml root "DT_COMPT"))]> dados in
  let dados := <["tipo_condominio" :=
      VStr (py_str (buscar_valor_xml root "TP_CONDOMINIO"))]> dados in
  let dados := <["fundo_exclusivo" :=
      VStr (py_str (buscar_valor_xml root "FDO_EXCL"))]> dados in
  let dados := <["classe_unica" :=
      VStr (py_str (buscar_valor_xml root "CLASS_UNICA"))]> dados in
  <["cotista_vinculado" :=
      VStr (py_str (buscar_valor_xml root "COTST_VINCUL"))]> dados.

(** Sections 2 to 8 of [parse]: one assignment per numeric field. *)
Definition campos (root : element) (dados : FIDCData) : FIDCData :=
  fold_left
    (fun d campo => <[fst campo := buscar_valor_xml root (snd campo)]> d)
    campos_numericos dados.

(** Section 9 of [parse], the indicators. *)
Definition indicadores (dados : FIDCData) : result FIDCData :=
  let! v := getattr dados "cred_inadimplencia" in
  let! inadimpl_cred := float_or_0 v in
  let! v := getattr dados "dicred_inadimplencia" in
  let! inadimpl_dicred := float_or_0 v in
  let inadimplencia_total := max inadimpl_cred inadimpl_dicred in
  let dados := <["inadimplencia_total" := VFloat inadimplencia_total]> dados in
  let! v := getattr dados "creditos_adquiridos" in
  let! carteira_credito := float_or_0 v in
  let dados := <["carteira_bruta" := VFloat carteira_credito]> dados in
  let! dados :=
    if gtb carteira_credito zero && gtb inadimplencia_total zero then
      let! q := truediv inadimplencia_total carteira_credito in
      let npl_percent := mul q (of_Z 100) in
      let! npl_decimal := truediv npl_percent (of_Z 100) in
      let dados :=
        <["indice_npl_decimal" := VFloat (min npl_decimal one)]> dados in
      Ok (<["indice_npl_percentual" := VFloat npl_percent]> dados)
    else
      let dados := <["indice_npl_decimal" := VFloat zero]> dados in
      Ok (<["indice_npl_percentual" := VFloat zero]> dados) in
  let! v := getattr dados "ativo_total" in
  let! ativo_total := float_or_0 v in
  let! v := getattr dados "disponibilidades" in
  let! disponibilidades := float_or_0 v in
  let! dados :=
    if gtb ativo_total zero then
      let! q := truediv disponibilidades ativo_total in
      let percentual := mul q (of_Z 100) in
      let dados := <["taxa_liquidez_percentual" := VFloat percentual]> dados in
      let! decimal := truediv percentual (of_Z 100) in
      Ok (<["taxa_liquidez_decimal" := VFloat decimal]> dados)
    else
      let dados := <["taxa_liquidez_percentual" := VFloat zero]> dados in
      Ok (<["taxa_liquidez_decimal" := VFloat zero]> dados) in
  let! dados :=
    if gtb ativo_total zero then
      let! q := truediv carteira_credito ativo_total in
      let percentual := mul q (of_Z 100) in
      let dados :=
        <["concentracao_credito_percentual" := VFloat percentual]> dados in
      let! decimal := truediv percentual (of_Z 100) in
      Ok (<["concentracao_credito_decimal" := VFloat decimal]> dados)
    else
      let dados :=
        <["concentracao_credito_percentual" := VFloat zero]> dados in
      Ok (<["concentracao_credito_decimal" := VFloat zero]> dados) in
  Ok (<["status" := VStr "SUCESSO"]> dados).

(** The second [try] block of [parse]. *)
Definition extrair (root : element) (cnpj_fallback : string)
  : result FIDCData :=
  indicadores (campos root (identificacao root cnpj_fallback FIDCData_new)).

(** The content handed to [parse], seen through [ET.fromstring]: a text that
    is not well-formed XML (with the parser's complaint), or the root
    element of the document. *)
Inductive xml_content : Type :=
| Malformed (erro : string)
| Document (root : element).

(** The prefix of the extraction error message; the code points 231 and
    227 are the c-cedilla and the a-tilde. *)
Definition erro_extracao : string :=
  String.append "Erro Extra"
    (String (ascii_of_nat 231) (String (ascii_of_nat 227) "o: ")).

(** [FIDCXMLParser.parse(xml_content, cnpj_fallback)] *)
Definition parse (content : xml_content) (cnpj_fallback : string)
  : bool * option FIDCData * option string :=
  match content with
  | Malformed erro => (false, None, Some (String.append "Erro XML: " erro))
  | Document root =>
      match extrair root cnpj_fallback with
      | Ok dados => (true, Some dados, None)
      | Raise e => (false, None, Some (String.append erro_extracao (exn_str e)))
      end
  end.

End Parse.

End XmlParser.

(* ===================================================================== *)
(** ** Reference notions used to state the properties *)
(* ===================================================================== *)

Module Reference.
Import PyStr Py PyFloat XmlParser.

(** The groups that follow the leading digits of a Brazilian number:
    [(.DDD)*,DD]. *)
Fixpoint br_groups (l : list ascii) : bool :=
  match l with
  | sep :: r =>
      if Ascii.eqb sep "," then
        match r with
        | [d1; d2] => is_ascii_digit d1 && is_ascii_digit d2
        | _ => false
        end
      else if Ascii.eqb sep "." then
        match r with
        | d1 :: d2 :: d3 :: r' =>
            is_ascii_digit d1 && is_ascii_digit d2 && is_ascii_digit d3
            && br_groups r'
        | _ => false
        end
      else false
  | [] => false
  end.

(** The Brazilian numeric format [D{1,3}(.D{3})*,DD]. *)
Definition br_format (s : string) : bool :=
  let '(h, r) := span is_ascii_digit (chars s) in
  (1 <=? length h)%nat && (length h <=? 3)%nat && br_groups r.

(** [float(x or 0)] on a float: a zero of either sign becomes [0.0]. *)
Definition or_zero (x : float) : float := if truthy x then x else zero.

(** Equality of floats as numbers, or both not a number. *)
Definition same_number (x y : float) : Prop :=
  eqb x y = true \/ (is_nan x = true /\ is_nan y = true).

(** The consolidated delinquency of the specification: the larger of the
    two measurements. *)
Definition consolidatedDelinquency (creditExisting receivable : float)
  : float :=
  max creditExisting receivable.

(** The NPL percentage of the specification. *)
Definition nplPercentage (delinquency acquiredReceivables : float) : float :=
  if gtb acquiredReceivables zero && gtb delinquency zero
  then mul (div delinquency acquiredReceivables) (of_Z 100)
  else zero.

(** The NPL decimal of the specification. *)
Definition nplDecimal (delinquency acquiredReceivables : float) : float :=
  if gtb acquiredReceivables zero && gtb delinquency zero
  then min (div (nplPercentage delinquency acquiredReceivables) (of_Z 100))
           one
  else zero.

(** The two replacements of the conversion rule, on characters. *)
Definition limpar (l : list ascii) : list ascii :=
  replace_chars "," ["."%char] (replace_chars "." [] l).

(** The number of hundredths that a Brazilian number denotes: its digits
    read in order, the last two being the decimals. *)
Definition br_cents (s : string) : N :=
  digits_value (List.filter is_ascii_digit (chars s)).

(** The float that a Brazilian number is expected to give: the binary64
    number nearest to [br_cents s / 100]. *)
Definition br_expected (s : string) : float :=
  of_decimal false (br_cents s) (-2).

(** The text that a lookup finds: the text of the first element at the
    path, when there is one and it is not empty. *)
Definition texto_do_elemento (root : element) (caminho : string)
  : option string :=
  match find root caminho with
  | Some (Element _ (Some t) _) => if String.eqb t "" then None else Some t
  | _ => None
  end.

(** The trimmed text at a path, [""] when there is none. *)
Definition texto_extraido (root : element) (caminho : string) : string :=
  match texto_do_elemento root caminho with
  | Some t => strip t
  | None => ""
  end.

(** The numeric conversion rule in the words of the specification: remove
    every point, replace the comma by a point, parse as a float; 0.0 on
    failure or absence. *)
Definition numericConvert (texto : option string) : float :=
  match texto with
  | Some t =>
      match float_of_str (texto_limpo t) with
      | Ok x => x
      | Raise _ => zero
      end
  | None => zero
  end.

Definition prefixos_texto : list string :=
  ["DT_"; "NR_"; "CD_"; "FDO_"; "CLASS_"; "COTST_"; "TP_"].

(** A path recognised as textual by prefix match. *)
Definition textual_by_prefix (caminho : string) : bool :=
  existsb (fun x => startswith caminho x) prefixos_texto.

(** The typing policy as the specification words it: textual paths give the
    trimmed text, every other path the numeric conversion. *)
Definition typing_policy (root : element) (caminho : string) : value :=
  if textual_by_prefix caminho then VStr (texto_extraido root caminho)
  else VFloat (numericConvert (texto_do_elemento root caminho)).

(** The typing policy of the code: a path is textual when one of the
    markers occurs anywhere in it; a path that is not textual has the
    numeric default only when it contains ['/'] or starts with [VL_], [QT_],
    [PR_] or [TX_], and the empty string otherwise. *)
Definition typing_policy_amended (root : element) (caminho : string)
  : value :=
  if campo_texto caminho then VStr (texto_extraido root caminho)
  else
    match texto_do_elemento root caminho with
    | Some t => VFloat (numericConvert (Some t))
    | None => if campo_numerico caminho then VFloat zero else VStr ""
    end.

(** The paths that [parse] looks up. *)
Definition caminhos_do_parser : list string :=
  ["NR_CNPJ_FUNDO"; "NR_CNPJ_ADM"; "DT_COMPT"; "TP_CONDOMINIO"; "FDO_EXCL";
   "CLASS_UNICA"; "COTST_VINCUL"] ++ map snd campos_numericos.

(** A fund identifier in normal form: exactly 14 decimal digits. *)
Definition is_cnpj14 (s : string) : bool :=
  (length (chars s) =? 14)%nat && forallb is_ascii_digit (chars s).

(** A small filing with the given texts for the fund identifier, the
    acquired receivables and the two delinquency measurements. *)
Definition filing (cnpj aquis cred dicred : string) : element :=
  Element "DOC_ARQ" None
    [ Element "CAB_INFORM" None
        [ Element "NR_CNPJ_FUNDO" (Some cnpj) [];
          Element "DT_COMPT" (Some "11/2025") [] ];
      Element "LISTA_INFORM" None
        [ Element "CRED_EXISTE" None
            [ Element "VL_SOM_DICRED_AQUIS" (Some aquis) [];
              Element "VL_CRED_EXISTE_INAD" (Some cred) [] ];
          Element "DICRED" None
            [ Element "VL_DICRED_EXISTE_INAD" (Some dicred) [] ] ] ].

(** The attribute [a] of a successful [parse]. *)
Definition campo (r : bool * option FIDCData * option string) (a : string)
  : option value :=
  match r with
  | (true, Some dados, _) => dados !! a
  | _ => None
  end.

End Reference.

(* ===================================================================== *)
(** ** Tables *)
(* ===================================================================== *)

Module Pandas.
Import PyStr Py PyFloat XmlParser.

(** A column of a [DataFrame] with its dtype: 64-bit floats, 64-bit
    integers, or Python objects (text and anything else). *)
Inductive column : Type :=
| Float64 (v : list float)
| Int64 (v : list Z)
| Object (v : list value).

(** A table: the row labels and the columns by name. *)
Record DataFrame : Type := {
  index : list value;
  columns : gmap string column
}.

(** A numeric scalar read from a table. *)
Inductive num : Type :=
| NFloat (x : float)
| NInt (n : Z).

(** [pd.api.types.is_numeric_dtype] and the dtypes under [np.number]. *)
Definition is_numeric_dtype (c : column) : bool :=
  match c with
  | Float64 _ | Int64 _ => true
  | Object _ => false
  end.

(** [df[col] = c] *)
Definition set_column (df : DataFrame) (col : string) (c : column)
  : DataFrame :=
  {| index := index df; columns := <[col := c]> (columns df) |}.

(** The cells of a column as Python values. *)
Definition cells (c : column) : list value :=
  match c with
  | Float64 v => map VFloat v
  | Int64 v => map VInt v
  | Object v => v
  end.

(** The scalar at a position of a numeric column. *)
Definition cell (c : column) (i : nat) : option num :=
  match c with
  | Float64 v => option_map NFloat (nth_error v i)
  | Int64 v => option_map NInt (nth_error v i)
  | Object _ => None
  end.

(** [df.set_index(col)]: the cells of the column become the labels. *)
Definition set_index (df : DataFrame) (col : string) : DataFrame :=
  match columns df !! col with
  | Some c => {| index := cells c; columns := delete col (columns df) |}
  | None => df
  end.

#[global] Instance spec_float_eq_dec : EqDecision spec_float.
Proof. solve_decision. Defined.
#[global] Instance value_eq_dec : EqDecision value.
Proof. solve_decision. Defined.

(** The positions of the rows that carry a label. *)
Fixpoint positions_from (n : nat) (idx : list value) (label : value)
  : list nat :=
  match idx with
  | [] => []
  | l :: r =>
      if decide (l = label) then n :: positions_from (S n) r label
      else positions_from (S n) r label
  end.

Definition positions (idx : list value) (label : value) : list nat :=
  positions_from 0 idx label.

(** [df.loc[label, col]] read as a scalar: a label that is carried by
    several rows gives a Series, whose truth value in a condition raises
    [ValueError]. *)
Definition loc (df : DataFrame) (label : value) (col : string)
  : result num :=
  match columns df !! col with
  | None => Raise KeyError
  | Some c =>
      match positions (index df) label with
      | [] => Raise KeyError
      | [i] =>
          match cell c i with
          | Some v => Ok v
          | None => Raise TypeError
          end
      | _ :: _ :: _ => Raise ValueError
      end
  end.

(** [pd.isna] on a scalar. *)
Definition isna (v : num) : bool :=
  match v with
  | NFloat x => is_nan x
  | NInt _ => false
  end.

(** 64-bit integers wrap around. *)
Definition wrap64 (n : Z) : Z :=
  ((n + 2 ^ 63) mod 2 ^ 64 - 2 ^ 63)%Z.

(** [b - a] on scalars: integers stay integers, a float makes a float. *)
Definition num_sub (b a : num) : num :=
  match b, a with
  | NFloat x, NFloat y => NFloat (sub x y)
  | NInt n, NInt m => NInt (wrap64 (n - m))
  | NFloat x, NInt m => NFloat (sub x (of_Z m))
  | NInt n, NFloat y => NFloat (sub (of_Z n) y)
  end.

(** [-a] *)
Definition num_neg (a : num) : num :=
  match a with
  | NFloat x => NFloat (neg x)
  | NInt n => NInt (wrap64 (- n))
  end.

(** [a != 0] *)
Definition num_nonzero (a : num) : bool :=
  match a with
  | NFloat x => neb x zero
  | NInt n => negb (n =? 0)%Z
  end.

End Pandas.

(* ===================================================================== *)
(** ** src/transformers/data_cleaner.py *)
(* ===================================================================== *)

Module DataCleaner.
Import PyStr Py PyFloat XmlParser Pandas.

(** [clean_cnpj(cnpj_str)]:
    [''.join(filter(str.isdigit, cnpj_str))[:14].zfill(14)] *)
Definition clean_cnpj (cnpj_str : string) : string :=
  let cleaned := List.filter isdigit (chars cnpj_str) in
  str (zfill_chars 14 (slice_to 14 cleaned)).

(** A cell that the pattern [^\s*-\s*$] matches: a single dash among white
    space. *)
Definition only_dash (s : string) : bool :=
  match lstrip_by isspace (chars s) with
  | c :: r => Ascii.eqb c "-" && forallb isspace r
  | [] => false
  end.

Section ConvertNumericColumns.

(** Two operations of pandas on columns of objects are not computed by the
    model: [astype(str)] on a cell and [pd.to_numeric(errors='coerce')] on
    a column of strings. *)
Variable astype_str : value -> string.
Variable to_numeric_strings : list string -> column.

(** [pd.to_numeric(series, errors='coerce')]: a numeric series is returned
    as it is. *)
Definition to_numeric (c : column) : column :=
  match c with
  | Float64 v => Float64 v
  | Int64 v => Int64 v
  | Object v => to_numeric_strings (map astype_str v)
  end.

(** The body of the loop of [convert_numeric_columns] for one name. *)
Definition convert_column (replace_dash : bool) (df_copy : DataFrame)
  (col : string) : DataFrame :=
  match columns df_copy !! col with
  | Some c =>
      if is_numeric_dtype c then set_column df_copy col (to_numeric c)
      else
        let strs := map astype_str (cells c) in
        let strs :=
          if replace_dash
          then map (fun s => if only_dash s then "0" else s) strs
          else strs in
        set_column df_copy col (to_numeric_strings strs)
  | None => df_copy
  end.

(** [convert_numeric_columns(df, columns, replace_dash)] *)
Definition convert_numeric_columns (df : DataFrame) (cols : list string)
  (replace_dash : bool) : DataFrame :=
  fold_left (convert_column replace_dash) cols df.

End ConvertNumericColumns.

End DataCleaner.

(* ===================================================================== *)
(** ** src/validators/diff_generator.py *)
(* ===================================================================== *)

Module DiffGenerator.
Import PyStr Py PyFloat XmlParser Pandas.

(** A row of the report: [CNPJ_FUNDO], [COLUNA], [DIFERENCA]. *)
Record diff_record : Type := {
  CNPJ_FUNDO : value;
  COLUNA : string;
  DIFERENCA : num
}.

(** [list(set(a) & set(b))]: the labels of both, each once. The order of
    a Python set is not specified; the model keeps the order of [a], and
    the properties below do not depend on it. Labels are compared as
    values of the same kind (an identifier is a text). *)
Definition common_labels (a b : list value) : list value :=
  remove_dups (List.filter (fun l => bool_decide (l ∈ b)) a).

(** [select_dtypes(include=np.number).columns] *)
Definition numeric_cols (df : DataFrame) : list string :=
  map fst (List.filter (fun kc => is_numeric_dtype (snd kc))
             (map_to_list (columns df))).

Definition common_cols (a b : list string) : list string :=
  remove_dups (List.filter (fun c => bool_decide (c ∈ b)) a).

(** The body of the two nested loops for one identifier and one column:
    the record to append, if any. *)
Definition diff_cell (df_v1 df_v2 : DataFrame) (cnpj : value) (col : string)
  : result (option diff_record) :=
  bind (loc df_v1 cnpj col) (fun val_v1 =>
  bind (loc df_v2 cnpj col) (fun val_v2 =>
    if isna val_v1 && isna val_v2 then Ok None
    else
      let diff :=
        if isna val_v1 then val_v2
        else if isna val_v2 then num_neg val_v1
        else num_sub val_v2 val_v1 in
      if num_nonzero diff
      then Ok (Some {| CNPJ_FUNDO := cnpj; COLUNA := col;
                       DIFERENCA := diff |})
      else Ok None)).

(** The loops, over the pairs in the order [for cnpj ...: for col ...]. *)
Fixpoint collect (df_v1 df_v2 : DataFrame) (pairs : list (value * string))
  : result (list diff_record) :=
  match pairs with
  | [] => Ok []
  | (cnpj, col) :: rest =>
      bind (diff_cell df_v1 df_v2 cnpj col) (fun r =>
      bind (collect df_v1 df_v2 rest) (fun rs =>
        Ok (match r with Some x => x :: rs | None => rs end)))
  end.

(** [DiffGenerator.generate_diff_report(df_v1, df_v2)], without the
    optional export; the report is the list of its rows. *)
Definition generate_diff_report (df_v1 df_v2 : DataFrame)
  : result (list diff_record) :=
  let df_v1_indexed := set_index df_v1 "CNPJ_FUNDO" in
  let df_v2_indexed := set_index df_v2 "CNPJ_FUNDO" in
  let common_cnpjs :=
    common_labels (index df_v1_indexed) (index df_v2_indexed) in
  match common_cnpjs with
  | [] => Ok []
  | _ :: _ =>
      let common_numeric_cols :=
        common_cols (numeric_cols df_v1_indexed)
                    (numeric_cols df_v2_indexed) in
      match common_numeric_cols with
      | [] => Ok []
      | _ :: _ =>
          collect df_v1_indexed df_v2_indexed
            (list_prod common_cnpjs common_numeric_cols)
      end
  end.

End DiffGenerator.

(* ===================================================================== *)
(** ** Reference notions for tables *)
(* ===================================================================== *)

Module ReferenceTables.
Import PyStr Py PyFloat XmlParser Pandas DiffGenerator.

(** The delta of the specification for one identifier and one field:
    nothing when both values are missing, [v2] when only [v1] is missing,
    [-v1] when only [v2] is missing, [v2 - v1] otherwise. *)
Definition delta (v1 v2 : num) : option num :=
  match isna v1, isna v2 with
  | true, true => None
  | true, false => Some v2
  | false, true => Some (num_neg v1)
  | false, false => Some (num_sub v2 v1)
  end.

(** A column is numeric-typed in a table. *)
Definition numeric_in (df : DataFrame) (col : string) : Prop :=
  exists c, columns df !! col = Some c /\ is_numeric_dtype c = true.

(** The length of a column. *)
Definition column_length (c : column) : nat :=
  match c with
  | Float64 v => length v
  | Int64 v => length v
  | Object v => length v
  end.

(** A table keyed by its identifiers: each label once, and every column as
    long as the index. *)
Definition keyed (df : DataFrame) : Prop :=
  NoDup (index df)
  /\ forall col c, columns df !! col = Some c ->
                   column_length c = length (index df).

(** The machine float 3.15e-10. *)
Definition float_3_15e_10 : float :=
  Eval vm_compute in
    match float_of_str "3.15e-10" with Ok x => x | Raise _ => nan end.

(** A table with one numeric field [VALOR] for the identifiers given. *)
Definition tabela (rows : list (string * float)) : DataFrame :=
  {| index := map (fun i => VInt (Z.of_nat i)) (seq 0 (length rows));
     columns := {[ "CNPJ_FUNDO" := Object (map (fun r => VStr (fst r)) rows);
                   "VALOR" := Float64 (map snd rows) ]} |}.

(** A table that carries the identifiers given and no numeric field. *)
Definition sem_valor (ids : list string) : DataFrame :=
  {| index := map (fun i => VInt (Z.of_nat i)) (seq 0 (length ids));
     columns := {[ "CNPJ_FUNDO" := Object (map VStr ids) ]} |}.

End ReferenceTables.

(* ===================================================================== *)
(** ** src/extractors/api_client.py: the retry session *)
(* ===================================================================== *)

Module ApiClient.
Import PyStr Py PyFloat.

(** The fields of [urllib3.util.retry.Retry] that the client sets; the
    other fields keep the defaults of the library ([status] and [other]
    unset, GET among the allowed methods, [raise_on_status] and
    [respect_retry_after_header] true). *)
Record Retry : Type := {
  total : Z;
  read : Z;
  connect : Z;
  backoff_factor : Z;
  status_forcelist : list Z
}.

(** A session of [requests]: the retry strategy mounted on its adapters. *)
Record Session : Type := { max_retries : Retry }.

(** [B3ApiClient._create_retry_session(retries, backoff_factor,
    status_forcelist)] *)
Definition _create_retry_session (retries : Z) (backoff_factor : Z)
  (status_forcelist : list Z) : Session :=
  let retry :=
    {| total := retries; read := retries; connect := retries;
       backoff_factor := backoff_factor;
       status_forcelist := status_forcelist |} in
  {| max_retries := retry |}.

(** The session of the client: the defaults of the parameters. *)
Definition session : Session :=
  _create_retry_session 3 1 [429; 500; 502; 503; 504]%Z.

(** *** The retry loop of the library

    [Retry] belongs to urllib3, not to this repository; what follows
    restates its documented behaviour for a GET request. One attempt ends
    in a connection failure (connect timeouts included), a read failure
    (read timeouts included) or a response with its status and whether it
    carries a [Retry-After] header. *)
Inductive attempt : Type :=
| ConnectError
| ReadError
| Response (status : Z) (has_retry_after : bool).

(** [Retry.is_retry] for GET. *)
Definition is_retry (r : Retry) (status : Z) (has_retry_after : bool)
  : bool :=
  bool_decide (status ∈ status_forcelist r)
  || (negb (total r =? 0)%Z && has_retry_after
      && bool_decide (status ∈ [413; 429; 503]%Z)).

(** [Retry.is_exhausted]: some counter fell below zero. *)
Definition is_exhausted (r : Retry) : bool :=
  (total r <? 0)%Z || (connect r <? 0)%Z || (read r <? 0)%Z.

(** [Retry.increment]: one more failed attempt; [None] is
    [MaxRetryError]. *)
Definition increment (r : Retry) (a : attempt) : option Retry :=
  let r' :=
    {| total := total r - 1;
       connect := match a with ConnectError => connect r - 1
                             | _ => connect r end;
       read := match a with ReadError => read r - 1 | _ => read r end;
       backoff_factor := backoff_factor r;
       status_forcelist := status_forcelist r |} in
  if is_exhausted r' then None else Some r'.

(** [Retry.get_backoff_time] after [n] consecutive failures, in seconds:
    nothing after the first, then the factor times [2^(n-1)], at most
    120. *)
Definition backoff_time (r : Retry) (n : nat) : Z :=
  if (n <=? 1)%nat then 0%Z
  else Z.min 120 (backoff_factor r * 2 ^ (Z.of_nat n - 1))%Z.

(** What [session.get] gives: the response that is returned, or the
    exception raised when the retries are exhausted. *)
Inductive outcome : Type :=
| Returned (status : Z)
| Exhausted.

(** The result of a request: its outcome, the number of attempts made and
    the pauses between them: a backoff time, or [None] for the pause that a
    [Retry-After] header asks for. *)
Record request : Type := {
  result_of : outcome;
  attempts : nat;
  sleeps : list (option Z)
}.

(** [Retry.sleep] after the failed attempt [a], the [n]-th in a row. *)
Definition pause (r : Retry) (a : attempt) (n : nat) : option Z :=
  match a with
  | Response _ true => None
  | _ => Some (backoff_time r n)
  end.

(** [HTTPConnectionPool.urlopen]: the [i]-th attempt meets
    [transport i]. *)
Fixpoint urlopen (fuel : nat) (r : Retry) (transport : nat -> attempt)
  (i : nat) (slept : list (option Z)) : request :=
  let retry_or_fail (a : attempt) (fuel' : nat) :=
    match increment r a with
    | None => {| result_of := Exhausted; attempts := S i; sleeps := slept |}
    | Some r' =>
        urlopen fuel' r' transport (S i)
          (slept ++ [pause r' a (S i)])
    end in
  match fuel with
  | O => {| result_of := Exhausted; attempts := i; sleeps := slept |}
  | S fuel' =>
      match transport i with
      | Response status has_retry_after =>
          if is_retry r status has_retry_after
          then retry_or_fail (transport i) fuel'
          else {| result_of := Returned status; attempts := S i;
                  sleeps := slept |}
      | a => retry_or_fail a fuel'
      end
  end.

(** [session.get(url, ...)]: the total can only be decremented
    [total + 1] times before the retries are exhausted. *)
Definition get (s : Session) (transport : nat -> attempt) : request :=
  urlopen (Z.to_nat (total (max_retries s)) + 1) (max_retries s)
    transport 0 [].

(** [resp.raise_for_status()] passes: the status is below 400. *)
Definition status_ok (status : Z) : bool := (status <? 400)%Z.

(** The request of [buscar_documentos] and of [baixar_xml] succeeds: a
    response came back and [raise_for_status] let it through. Otherwise
    the [except] branch reports the failure of the step. *)
Definition request_succeeds (q : request) : bool :=
  match result_of q with
  | Returned status => status_ok status
  | Exhausted => false
  end.

End ApiClient.

(* ===================================================================== *)
(** ** src/services/etl_service.py *)
(* ===================================================================== *)

Module EtlService.
Import PyStr Py PyFloat XmlParser.

(** What a step of the client returns: [(True, payload, None)] or
    [(False, None, erro)]. *)
Inductive retorno (A : Type) : Type :=
| Sucesso (payload : A)
| Falha (erro : string).
Arguments Sucesso {A} payload.
Arguments Falha {A} erro.

(** A row of the results: a dictionary. *)
Abbreviation row := (gmap string value).

Definition erro_row (cnpj status : string) (mensagem : value) : row :=
  <["MENSAGEM_ERRO" := mensagem]>
    (<["STATUS" := VStr status]> {[ "CNPJ_FUNDO" := VStr cnpj ]}).

(** The statuses of a row that reports a failure. *)
Definition status_de_erro : list string :=
  ["ERRO_BUSCA"; "SEM_INFORME_MENSAL"; "ERRO_SELECAO"; "ERRO_DOWNLOAD";
   "ERRO_PARSE"; "ERRO_INESPERADO"].

(** [settings.DELAY_ENTRE_REQUISICOES] *)
Definition DELAY_ENTRE_REQUISICOES : Z := 2.

Section Service.

(** The client and the clock are the environment of the service: a state
    of the world (cache, remote registry, time) that every call may read
    and change. Each step of the client returns its tuple or raises. *)
Variable World : Type.
Variable Docs : Type.
Variable buscar_documentos :
  string -> World -> result (retorno Docs) * World.
Variable filtrar_informe_mensal :
  Docs -> World -> result (retorno Docs) * World.
Variable selecionar_documento_mais_recente :
  Docs -> World -> result (retorno (gmap string value)) * World.
Variable baixar_xml :
  value -> World -> result (retorno xml_content) * World.
Variable sleep : Z -> World -> World.
Variable float_str : float -> string.

(** The steps after the download: parse and add the metadata. *)
Definition passo_parse (cnpj : string) (doc : gmap string value)
  (doc_id : value) (xml : xml_content) : result row :=
  match parse float_str xml cnpj with
  | (false, _, erro) =>
      Ok (erro_row cnpj "ERRO_PARSE"
            (match erro with Some e => VStr e | None => VNone end))
  | (true, Some fidc_data, _) =>
      let dados_dict := to_dict fidc_data in
      let dados_dict :=
        <["DATA_REFERENCIA_DOC" :=
            default (VStr "") (doc !! "dataReferencia")]> dados_dict in
      Ok (<["ID_DOCUMENTO" :=
              VStr (py_str float_str (default (VStr "") (doc !! "id")))]>
            dados_dict)
  | (true, None, _) => Raise AttributeError
  end.

(** The body of the [try] of [process_single_cnpj]. *)
Definition passos (cnpj : string) (w : World) : result row * World :=
  match buscar_documentos cnpj w with
  | (Raise e, w) => (Raise e, w)
  | (Ok (Falha erro), w) => (Ok (erro_row cnpj "ERRO_BUSCA" (VStr erro)), w)
  | (Ok (Sucesso df_docs), w) =>
  match filtrar_informe_mensal df_docs w with
  | (Raise e, w) => (Raise e, w)
  | (Ok (Falha erro), w) =>
      (Ok (erro_row cnpj "SEM_INFORME_MENSAL" (VStr erro)), w)
  | (Ok (Sucesso df_mensal), w) =>
  match selecionar_documento_mais_recente df_mensal w with
  | (Raise e, w) => (Raise e, w)
  | (Ok (Falha erro), w) =>
      (Ok (erro_row cnpj "ERRO_SELECAO" (VStr erro)), w)
  | (Ok (Sucesso doc), w) =>
  match doc !! "id" with
  | None => (Raise KeyError, w)
  | Some doc_id =>
  match baixar_xml doc_id w with
  | (Raise e, w) => (Raise e, w)
  | (Ok (Falha erro), w) =>
      (Ok (erro_row cnpj "ERRO_DOWNLOAD" (VStr erro)), w)
  | (Ok (Sucesso xml_content), w) =>
      (passo_parse cnpj doc doc_id xml_content, w)
  end end end end end.

(** [FIDCETLService.process_single_cnpj(cnpj)] *)
Definition process_single_cnpj (cnpj : string) (w : World) : row * World :=
  match passos cnpj w with
  | (Ok r, w) => (r, w)
  | (Raise e, w) =>
      (erro_row cnpj "ERRO_INESPERADO" (VStr (exn_str e)), w)
  end.

(** The loop of [process_batch]: [i] is the position of the head of
    [cnpjs] in the batch of [n] identifiers. *)
Fixpoint processar (n i : nat) (cnpjs : list string) (w : World)
  : list row * World :=
  match cnpjs with
  | [] => ([], w)
  | cnpj :: rest =>
      let '(resultado, w) := process_single_cnpj cnpj w in
      let w := if (Z.of_nat i <? Z.of_nat n - 1)%Z
               then sleep DELAY_ENTRE_REQUISICOES w else w in
      let '(resultados, w) := processar n (S i) rest w in
      (resultado :: resultados, w)
  end.

(** The columns of [pd.DataFrame(resultados)]: the keys of the rows. *)
Definition has_column (resultados : list row) (col : string) : bool :=
  existsb (fun r => bool_decide (is_Some (r !! col))) resultados.

(** [FIDCETLService.process_batch(cnpjs)]; the table is the list of its
    rows. [df['STATUS']] raises [KeyError] when the table has no such
    column. *)
Definition process_batch (cnpjs : list string) (w : World)
  : result (list row) * World :=
  let '(resultados, w) := processar (length cnpjs) 0 cnpjs w in
  if has_column resultados "STATUS" then (Ok resultados, w)
  else (Raise KeyError, w).

End Service.

End EtlService.

(* ===================================================================== *)
(** ** Reference notions for the retry policy *)
(* ===================================================================== *)

Module ReferenceRetry.
Import ApiClient.

(** A failed attempt that the strategy always retries: a connection
    failure, a read failure or timeout, a status of the force list. *)
Definition retried (r : Retry) (a : attempt) : Prop :=
  match a with
  | ConnectError | ReadError => True
  | Response status _ => (status ∈ status_forcelist r)
  end.

(** A response that is returned at once, whatever the counters. *)
Definition returned_at_once (r : Retry) (status : Z) (has_retry_after : bool)
  : Prop :=
  (status ∉ status_forcelist r)
  /\ (has_retry_after = false \/ (status ∉ [413; 429; 503]%Z)).

(** The transport of the specification's example: HTTP 503 on the first
    [n] attempts, then 200. *)
Definition fails_then_succeeds (n : nat) (i : nat) : attempt :=
  if (i <? n)%nat then Response 503 false else Response 200 false.

End ReferenceRetry.

(* ===================================================================== *)
(** ** Reference notions for the snapshot of a filing *)
(* ===================================================================== *)

Module ReferenceSnapshot.
Import PyStr Py PyFloat XmlParser Reference.

(** A float that is a number with its sign bit clear: [0.0], a positive
    finite number or the positive infinity. *)
Definition is_nonneg (x : float) : bool :=
  match x with
  | S754_zero false | S754_infinity false | S754_finite false _ _ => true
  | _ => false
  end.

(** A ratio in percent, as the parser computes the liquidity and the
    concentration: [part / whole * 100] when the whole is positive, else
    0.0. *)
Definition ratioPercentage (part whole : float) : float :=
  if gtb whole zero then mul (div part whole) (of_Z 100) else zero.

(** Its decimal form: the percentage divided by 100. *)
Definition ratioDecimal (part whole : float) : float :=
  if gtb whole zero then div (ratioPercentage part whole) (of_Z 100)
  else zero.

(** The attributes that section 9 of [parse] assigns, in order, from the
    amounts read in the filing. *)
Definition atributos_indicadores (cred dicred aquis ativo disp : float)
  : list (string * value) :=
  let total := max (or_zero cred) (or_zero dicred) in
  [ ("inadimplencia_total", VFloat total);
    ("carteira_bruta", VFloat (or_zero aquis));
    ("indice_npl_decimal", VFloat (nplDecimal total (or_zero aquis)));
    ("indice_npl_percentual", VFloat (nplPercentage total (or_zero aquis)));
    ("taxa_liquidez_percentual",
       VFloat (ratioPercentage (or_zero disp) (or_zero ativo)));
    ("taxa_liquidez_decimal",
       VFloat (ratioDecimal (or_zero disp) (or_zero ativo)));
    ("concentracao_credito_percentual",
       VFloat (ratioPercentage (or_zero aquis) (or_zero ativo)));
    ("concentracao_credito_decimal",
       VFloat (ratioDecimal (or_zero aquis) (or_zero ativo)));
    ("status", VStr "SUCESSO") ].

(** A run of attribute assignments. *)
Definition setattrs (d : FIDCData) (l : list (string * value)) : FIDCData :=
  fold_left (fun d kv => <[fst kv := snd kv]> d) l d.

(** The amount at a path of a filing, by the conversion rule. *)
Definition valor (root : element) (caminho : string) : float :=
  numericConvert (texto_do_elemento root caminho).

(** The text fields of the identification, after the fund identifier. *)
Definition campos_identificacao : list (string * string) :=
  [ ("cnpj_administrador", "NR_CNPJ_ADM");
    ("data_competencia", "DT_COMPT");
    ("tipo_condominio", "TP_CONDOMINIO");
    ("fundo_exclusivo", "FDO_EXCL");
    ("classe_unica", "CLASS_UNICA");
    ("cotista_vinculado", "COTST_VINCUL") ].

End ReferenceSnapshot.

(* ===================================================================== *)
(** ** src/transformers/data_cleaner.py, the converter of one text *)
(* ===================================================================== *)

Module DataCleanerText.
Import PyStr Py PyFloat XmlParser.

(** [convert_pt_br_to_float(value)]; [None] stands for Python's [None].

    [not value or not str(value).strip()] gives the default, and so does a
    text that is a dash once trimmed; otherwise the points are removed from
    the trimmed text, the comma becomes a point and [float] reads the
    result. [ValueError] and [AttributeError] are caught. *)
Definition convert_pt_br_to_float (value : option string) : result float :=
  match value with
  | None => Ok zero
  | Some v =>
      if String.eqb v "" || String.eqb (strip v) "" then Ok zero
      else
        let value_str := strip v in
        if String.eqb value_str "-" then Ok zero
        else
          try_except (float_of_str (texto_limpo value_str))
            (fun e => match e with
                      | ValueError | AttributeError => true
                      | _ => false
                      end)
            (Ok zero)
  end.

End DataCleanerText.

(* ===================================================================== *)
(** ** Reference notions for the rows of the results *)
(* ===================================================================== *)

Module ReferenceRows.
Import PyStr Py PyFloat XmlParser Reference ReferenceSnapshot EtlService.

(** The attributes of a snapshot that [parse] returns: the declared fields
    of [FIDCData] and the three that section 9 adds. *)
Definition atributos : list string :=
  map fst FIDCData_defaults
  ++ ["carteira_bruta"; "taxa_liquidez_decimal";
      "concentracao_credito_decimal"].

(** A row of the results for an identifier: it reports a success, or a
    failure with the identifier of the input, the status of the step that
    failed and a message. *)
Definition row_ok (cnpj : string) (r : row) : Prop :=
  r !! "STATUS" = Some (VStr "SUCESSO")
  \/ exists status mensagem,
       In status status_de_erro /\ r = erro_row cnpj status mensagem.

End ReferenceRows.

(* ===================================================================== *)
(** ** src/validators/data_validator.py *)
(* ===================================================================== *)

Module DataValidator.
Import PyStr Py PyFloat XmlParser Pandas EtlService.

(** [x == 0] on a cell of a column of objects: a text or [None] is not
    equal to zero. *)
Definition cell_eq_0 (v : value) : bool :=
  match v with
  | VFloat x => eqb x zero
  | VInt n => (n =? 0)%Z
  | VStr _ | VNone => false
  end.

(** [x > 0] on a cell of a column of objects: a text or [None] cannot be
    compared with a number. *)
Definition cell_gt_0 (v : value) : result bool :=
  match v with
  | VFloat x => Ok (gtb x zero)
  | VInt n => Ok (0 <? n)%Z
  | VStr _ | VNone => Raise TypeError
  end.

(** The results of a loop, or its first exception. *)
Fixpoint sequence {A} (l : list (result A)) : result (list A) :=
  match l with
  | [] => Ok []
  | r :: rest =>
      bind r (fun a => bind (sequence rest) (fun l' => Ok (a :: l')))
  end.

(** [series == 0] *)
Definition eq_0 (c : column) : list bool :=
  match c with
  | Float64 v => map (fun x => eqb x zero) v
  | Int64 v => map (fun n => (n =? 0)%Z) v
  | Object v => map cell_eq_0 v
  end.

(** [series > 0] *)
Definition gt_0 (c : column) : result (list bool) :=
  match c with
  | Float64 v => Ok (map (fun x => gtb x zero) v)
  | Int64 v => Ok (map (fun n => (0 <? n)%Z) v)
  | Object v => sequence (map cell_gt_0 v)
  end.

(** [a & b] on two series of booleans of one table. *)
Definition series_and (a b : list bool) : list bool := zip_with andb a b.

(** A table with its three flags of quality assurance. The flags are kept
    beside the rows: a row holds text and numbers only. *)
Record validado : Type := {
  linhas : list row;
  ATIVO_ZERO_FLAG : list bool;
  CARTEIRA_BRUTA_ZERO_COM_INAD_FLAG : list bool;
  SEM_POSICAO_FLAG : list bool
}.

(** [df[mask]] on a list of rows or of flags. *)
Fixpoint mask_filter {A} (mask : list bool) (l : list A) : list A :=
  match mask, l with
  | m :: mask', x :: l' =>
      if m then x :: mask_filter mask' l' else mask_filter mask' l'
  | _, _ => []
  end.

(** [df[existing_cols].any(axis=1)] on a table that has the three flags. *)
Definition has_issues (v : validado) : list bool :=
  zip_with orb (ATIVO_ZERO_FLAG v)
    (zip_with orb (CARTEIRA_BRUTA_ZERO_COM_INAD_FLAG v)
       (SEM_POSICAO_FLAG v)).

(** [FIDCValidator.filter_qa_issues(df)] on a table that has the three
    flags. *)
Definition filter_qa_issues (v : validado) : validado :=
  let m := has_issues v in
  {| linhas := mask_filter m (linhas v);
     ATIVO_ZERO_FLAG := mask_filter m (ATIVO_ZERO_FLAG v);
     CARTEIRA_BRUTA_ZERO_COM_INAD_FLAG :=
       mask_filter m (CARTEIRA_BRUTA_ZERO_COM_INAD_FLAG v);
     SEM_POSICAO_FLAG := mask_filter m (SEM_POSICAO_FLAG v) |}.

Section Validator.

(** The table is the one that [pd.DataFrame(resultados)] builds from the
    rows of a batch: its columns are the keys of the rows, and a row that
    lacks a key has a missing value there. The dtype that pandas infers for
    a column is not computed by the model: [infer_column] stands for it, on
    the cells of the column, missing ones included. *)
Variable infer_column : list (option value) -> column.

(** [df[col]]: [KeyError] when no row has the key. *)
Definition coluna (df : list row) (col : string) : result column :=
  if has_column df col
  then Ok (infer_column (map (fun r => r !! col) df))
  else Raise KeyError.

(** [validate_ativo_zero(df)]: [df['ATIVO_TOTAL'] == 0] *)
Definition validate_ativo_zero (df : list row) : result (list bool) :=
  bind (coluna df "ATIVO_TOTAL") (fun ativo => Ok (eq_0 ativo)).

(** [validate_carteira_bruta_zero_com_inad(df)]:
    [(df['CARTEIRA_BRUTA'] == 0) & (df['INADIMPLENCIA_TOTAL'] > 0)] *)
Definition validate_carteira_bruta_zero_com_inad (df : list row)
  : result (list bool) :=
  bind (coluna df "CARTEIRA_BRUTA") (fun carteira =>
  bind (coluna df "INADIMPLENCIA_TOTAL") (fun inad =>
  bind (gt_0 inad) (fun positivo =>
    Ok (series_and (eq_0 carteira) positivo)))).

(** [validate_sem_posicao(df)]:
    [(df['CARTEIRA_TOTAL'] == 0) & (df['ATIVO_TOTAL'] > 0)] *)
Definition validate_sem_posicao (df : list row) : result (list bool) :=
  bind (coluna df "CARTEIRA_TOTAL") (fun carteira =>
  bind (coluna df "ATIVO_TOTAL") (fun ativo =>
  bind (gt_0 ativo) (fun positivo =>
    Ok (series_and (eq_0 carteira) positivo)))).

(** [FIDCValidator.apply_all_validations(df)] *)
Definition apply_all_validations (df : list row) : result validado :=
  bind (validate_ativo_zero df) (fun f1 =>
  bind (validate_carteira_bruta_zero_com_inad df) (fun f2 =>
  bind (validate_sem_posicao df) (fun f3 =>
    Ok {| linhas := df;
          ATIVO_ZERO_FLAG := f1;
          CARTEIRA_BRUTA_ZERO_COM_INAD_FLAG := f2;
          SEM_POSICAO_FLAG := f3 |}))).

End Validator.

End DataValidator.

(* ===================================================================== *)
(** ** src/services/etl_service.py: extraction, then validation *)
(* ===================================================================== *)

Module EtlValidation.
Import PyStr Py PyFloat XmlParser Pandas EtlService DataValidator.

(** [df.empty]: no row, or no column. *)
Definition df_empty (df : list row) : bool :=
  forallb (fun r => bool_decide (r = ∅)) df.

Section Service.

Variable World : Type.
Variable Docs : Type.
Variable buscar_documentos :
  string -> World -> result (retorno Docs) * World.
Variable filtrar_informe_mensal :
  Docs -> World -> result (retorno Docs) * World.
Variable selecionar_documento_mais_recente :
  Docs -> World -> result (retorno (gmap string value)) * World.
Variable baixar_xml :
  value -> World -> result (retorno xml_content) * World.
Variable sleep : Z -> World -> World.
Variable float_str : float -> string.
Variable infer_column : list (option value) -> column.

(** [FIDCETLService.process_and_validate(cnpjs)]: the validated table, or
    the table as it is when it is empty or has no status. *)
Definition process_and_validate (cnpjs : list string) (w : World)
  : result (validado + list row) * World :=
  match process_batch World Docs buscar_documentos filtrar_informe_mensal
          selecionar_documento_mais_recente baixar_xml sleep float_str
          cnpjs w with
  | (Raise e, w) => (Raise e, w)
  | (Ok df, w) =>
      if negb (df_empty df) && has_column df "STATUS"
      then (bind (apply_all_validations infer_column df)
              (fun df_validado => Ok (inl df_validado)), w)
      else (Ok (inr df), w)
  end.

End Service.

End EtlValidation.

(* ===================================================================== *)
(** ** Reference notions for the validated table *)
(* ===================================================================== *)

Module ReferenceValidation.
Import PyStr Py PyFloat XmlParser Pandas EtlService DataValidator Reference.

(** A cell of a column of amounts: a float, or nothing. *)
Definition amount_cell (c : option value) : Prop :=
  match c with
  | None | Some (VFloat _) => True
  | Some _ => False
  end.

(** The amount of such a cell in a column of floats: a missing cell is
    not a number. *)
Definition amount (c : option value) : float :=
  match c with
  | Some (VFloat x) => x
  | _ => nan
  end.

(** What pandas does with a column of amounts: it is a column of floats,
    the missing cells not a number. *)
Definition infers_amounts (infer_column : list (option value) -> column)
  : Prop :=
  forall cells,
    Forall amount_cell cells ->
    infer_column cells = Float64 (map amount cells).

(** An inference that agrees with pandas on the columns of amounts and
    keeps any other column as objects. *)
Definition infer_simple (cells : list (option value)) : column :=
  if forallb (fun c => match c with
                       | None | Some (VFloat _) => true
                       | Some _ => false
                       end) cells
  then Float64 (map amount cells)
  else Object (map (default (VFloat nan)) cells).

(** The row of an identifier that was extracted. *)
Definition sucesso (r : row) : bool :=
  bool_decide (r !! "STATUS" = Some (VStr "SUCESSO")).

(** The three flags of a row, from its amounts. *)
Definition flags_of (r : row) : bool * bool * bool :=
  (eqb (amount (r !! "ATIVO_TOTAL")) zero,
   eqb (amount (r !! "CARTEIRA_BRUTA")) zero
   && gtb (amount (r !! "INADIMPLENCIA_TOTAL")) zero,
   eqb (amount (r !! "CARTEIRA_TOTAL")) zero
   && gtb (amount (r !! "ATIVO_TOTAL")) zero).

(** The columns that the validations read. *)
Definition colunas_validadas : list string :=
  ["ATIVO_TOTAL"; "CARTEIRA_BRUTA"; "INADIMPLENCIA_TOTAL"; "CARTEIRA_TOTAL"].

(** A row as the validations see it: the report of a failure, without
    amounts, or the row of a snapshot, with its four amounts. *)
Definition row_amounts (r : row) : Prop :=
  (sucesso r = false
   /\ Forall (fun col => r !! col = None) colunas_validadas)
  \/ (sucesso r = true
      /\ Forall (fun col => exists x, r !! col = Some (VFloat x))
           colunas_validadas).

(** A client for the examples: the search fails for the identifier
    "00000000000000" and finds a document for any other, whose filing is
    the one given. *)
Definition cliente_buscar (cnpj : string) (w : unit)
  : result (retorno unit) * unit :=
  if String.eqb cnpj "00000000000000"
  then (Ok (Falha "Nenhum documento encontrado"), w)
  else (Ok (Sucesso tt), w).

Definition cliente_selecionar (_ : unit) (w : unit)
  : result (retorno (gmap string value)) * unit :=
  (Ok (Sucesso {[ "id" := VInt 7 ]}), w).

Definition cliente_baixar (root : element) (_ : value) (w : unit)
  : result (retorno xml_content) * unit :=
  (Ok (Sucesso (Document root)), w).

(** The [i]-th flag of each kind. *)
Definition flags_at (v : validado) (i : nat) : option (bool * bool * bool) :=
  match ATIVO_ZERO_FLAG v !! i,
        CARTEIRA_BRUTA_ZERO_COM_INAD_FLAG v !! i,
        SEM_POSICAO_FLAG v !! i with
  | Some a, Some b, Some c => Some (a, b, c)
  | _, _, _ => None
  end.

End ReferenceValidation.

(* ===================================================================== *)
(** ** src/utils/cache_manager.py *)
(* ===================================================================== *)

Module CacheManager.
Import PyStr Py.

(** [str.isalnum] on one character, for the code points 0..255: the ASCII
    letters and digits, and the letters and numbers of Latin-1. *)
Definition isalnum (c : ascii) : bool :=
  let n := code c in
  ((48 <=? n) && (n <=? 57) || (65 <=? n) && (n <=? 90)
   || (97 <=? n) && (n <=? 122)
   || (n =? 170) || (178 <=? n) && (n <=? 179) || (n =? 181)
   || (185 <=? n) && (n <=? 186) || (188 <=? n) && (n <=? 190)
   || (192 <=? n) && (n <=? 214) || (216 <=? n) && (n <=? 246)
   || (248 <=? n) && (n <=? 255))%N.

(** [c if c.isalnum() or c in ('-', '_') else '_'] *)
Definition safe_char (c : ascii) : ascii :=
  if isalnum c || Ascii.eqb c "-" || Ascii.eqb c "_" then c else "_"%char.

(** [_get_file_path(key)]: the name of the file of a key in the cache
    directory, without the directory and the suffix [.pickle]. *)
Definition _get_file_path (key : string) : string :=
  str (map safe_char (chars key)).

Section Cache.

(** The objects that are cached. *)
Variable A : Type.

(** A file of the cache directory: the time of its last modification and
    the object that [pickle.load] reads in it, if it reads one. Times are
    seconds. *)
Record file : Type := { mtime : Z; conteudo : option A }.

(** The cache directory: its files by name. *)
Definition disk : Type := gmap string file.

(** [CacheManager.get(key, max_age_seconds)] at the time [agora]: a file
    that does not exist, is too old or cannot be read gives [None]. *)
Definition get (d : disk) (agora : Z) (key : string)
  (max_age_seconds : option Z) : option A :=
  match d !! _get_file_path key with
  | None => None
  | Some f =>
      match max_age_seconds with
      | Some m => if (agora - mtime f >? m)%Z then None else conteudo f
      | None => conteudo f
      end
  end.

(** What happens when a file is written: it is written; or it is opened,
    and so emptied, and the object cannot be dumped in it; or it cannot be
    opened. The two failures are logged and nothing is raised. *)
Inductive escrita : Type := Gravado | Truncado | Recusado.

(** [CacheManager.set(key, value)] at the time [agora]. *)
Definition set (d : disk) (agora : Z) (key : string) (value : A)
  (io : escrita) : disk :=
  match io with
  | Gravado =>
      <[_get_file_path key := {| mtime := agora; conteudo := Some value |}]> d
  | Truncado =>
      <[_get_file_path key := {| mtime := agora; conteudo := None |}]> d
  | Recusado => d
  end.

(** [CacheManager.delete(key)]; [removido] tells whether [os.remove]
    succeeds. *)
Definition delete (d : disk) (key : string) (removido : bool) : disk :=
  match d !! _get_file_path key with
  | Some _ => if removido then base.delete (_get_file_path key) d else d
  | None => d
  end.

End Cache.

End CacheManager.

(* ===================================================================== *)
(** ** src/extractors/api_client.py: the two cached requests *)
(* ===================================================================== *)

Module ApiClientCache.
Import PyStr Py PyFloat XmlParser EtlService CacheManager.

(** A document of the listing: a JSON object. *)
Abbreviation documento := (gmap string value).

(** What the client caches: the table of the documents of a fund, or the
    decoded content of a document. *)
Inductive payload : Type :=
| PDocs (data : list documento)
| PXml (content : string).

(** The outcome of a call: the tuple returned, the cache directory after
    it and the number of requests sent. *)
Record chamada : Type := {
  retornado : retorno payload;
  cache : disk payload;
  requests : nat
}.

(** [B3ApiClient.buscar_documentos(cnpj)] at the time [agora]. [resposta]
    is what the request gives when it is sent: the list under [data] in
    the JSON body, or the exception raised by the session, by
    [raise_for_status] or by the decoding. The table, if any, is written
    at the time [agora_escrita]. *)
Definition buscar_documentos (d : disk payload) (agora : Z) (cnpj : string)
  (resposta : result (list documento)) (agora_escrita : Z) (io : escrita)
  : chamada :=
  let cache_key := String.append "docs_" cnpj in
  match get payload d agora cache_key (Some 86400%Z) with
  | Some cached_data =>
      {| retornado := Sucesso cached_data; cache := d; requests := 0 |}
  | None =>
      match resposta with
      | Raise e =>
          {| retornado := Falha (String.append "Erro busca: " (exn_str e));
             cache := d; requests := 1 |}
      | Ok [] =>
          {| retornado := Falha "Nenhum documento encontrado";
             cache := d; requests := 1 |}
      | Ok data =>
          {| retornado := Sucesso (PDocs data);
             cache := set payload d agora_escrita cache_key (PDocs data) io;
             requests := 1 |}
      end
  end.

(** [B3ApiClient.baixar_xml(doc_id)]; [doc_id] is the identifier as the
    f-string formats it, and [resposta] the content decoded from Base64, or
    the exception raised on the way. *)
Definition baixar_xml (d : disk payload) (agora : Z) (doc_id : string)
  (resposta : result string) (agora_escrita : Z) (io : escrita)
  : chamada :=
  let cache_key := String.append "xml_" doc_id in
  match get payload d agora cache_key None with
  | Some cached_content =>
      {| retornado := Sucesso cached_content; cache := d; requests := 0 |}
  | None =>
      match resposta with
      | Raise e =>
          {| retornado :=
               Falha (String.append "Erro download: " (exn_str e));
             cache := d; requests := 1 |}
      | Ok xml_content =>
          {| retornado := Sucesso (PXml xml_content);
             cache := set payload d agora_escrita cache_key
                        (PXml xml_content) io;
             requests := 1 |}
      end
  end.

End ApiClientCache.

(* ===================================================================== *)
(** ** Reference notions for the cache *)
(* ===================================================================== *)

Module ReferenceCache.
Import PyStr Py PyFloat XmlParser EtlService CacheManager ApiClientCache.

(** A character that a file name keeps. *)
Definition safe (c : ascii) : bool :=
  isalnum c || Ascii.eqb c "-" || Ascii.eqb c "_".

(** A cache directory in which the files of the listings hold listings
    and the files of the documents hold contents, when they hold
    anything. *)
Definition tipado (d : disk payload) : Prop :=
  forall nome f,
    d !! nome = Some f ->
    (startswith nome "docs_" = true ->
     match conteudo payload f with Some (PXml _) => False | _ => True end)
    /\ (startswith nome "xml_" = true ->
        match conteudo payload f with Some (PDocs _) => False | _ => True end).

End ReferenceCache.

(* ===================================================================== *)
(** ** src/extractors/api_client.py: the choice of the document *)
(* ===================================================================== *)

Module ApiClientDocs.
Import PyStr Py PyFloat XmlParser EtlService ApiClientCache EtlValidation.

(** The table of the documents is the list of its rows, as the table of
    the results is: its columns are the keys of the rows, a row that lacks
    a key has a missing value there, and [df.empty] is [df_empty]. *)

(** The message of a table without a valid date; the code point 225 is
    the a-acute. *)
Definition nenhuma_data_valida : string :=
  String.append "Nenhuma data v"
    (String (ascii_of_nat 225) "lida encontrada").

(** ["Informe Mensal"] in lower case. *)
Definition informe_mensal : string := "informe mensal".

Section Docs.

(** [astype(str)] on a cell that is not a text is not computed by the
    model; a text is itself and a missing value is ["nan"]. *)
Variable astype_str : value -> string.

(** [pd.to_datetime(s, format="%d/%m/%Y")] is not computed by the model:
    the day it reads, or [None] when it raises or gives [NaT]. *)
Variable to_datetime : string -> option Z.

Definition texto (c : option value) : string :=
  match c with
  | Some (VStr s) => s
  | Some v => astype_str v
  | None => "nan"
  end.

(** [df[col] = df[col].astype(str)] on one row. *)
Definition as_text (col : string) (doc : documento) : documento :=
  <[col := VStr (texto (doc !! col))]> doc.

(** [s.str.contains("Informe Mensal", case=False)] on one text. *)
Definition contains_informe_mensal (s : string) : bool :=
  contains_chars (chars informe_mensal) (map lower (chars s)).

(** The mask of [filtrar_informe_mensal] on one row whose two columns are
    texts. *)
Definition mensal_ativo (doc : documento) : bool :=
  contains_informe_mensal (texto (doc !! "tipoDocumento"))
  && String.eqb (upper (strip (texto (doc !! "situacaoDocumento")))) "A".

(** [B3ApiClient.filtrar_informe_mensal(df_docs)]; a column that the
    table lacks raises [KeyError], whose text is the name in quotes. *)
Definition filtrar_informe_mensal (df_docs : list documento)
  : retorno (list documento) :=
  if df_empty df_docs then Falha "DataFrame vazio"
  else if negb (has_column df_docs "tipoDocumento")
  then Falha "'tipoDocumento'"
  else if negb (has_column df_docs "situacaoDocumento")
  then Falha "'situacaoDocumento'"
  else
    let df_docs :=
      map (fun doc => as_text "situacaoDocumento"
                        (as_text "tipoDocumento" doc)) df_docs in
    match List.filter mensal_ativo df_docs with
    | [] => Falha "Nenhum Informe Mensal encontrado"
    | df_mensal => Sucesso df_mensal
    end.

(** [parse_data_ref(date_str)] *)
Definition parse_data_ref (date_str : string) : option Z :=
  if (String.length date_str =? 7)%nat
  then to_datetime (String.append "01/" date_str)
  else to_datetime date_str.

(** The rows with their parsed date, without those that have none
    ([dropna]). *)
Definition com_data (df_mensal : list documento)
  : list (Z * documento) :=
  omap (fun doc =>
          option_map (fun d => (d, doc))
            (parse_data_ref (texto (doc !! "dataReferencia"))))
       df_mensal.

(** The first row of [sort_values('dataRef_parsed', ascending=False)]: a
    row with the greatest date. The sort is not stable, so that which of
    several rows with the greatest date comes first is not specified; the
    model takes the first of them, and the properties below do not depend
    on it. *)
Fixpoint mais_recente (best : Z * documento) (rest : list (Z * documento))
  : Z * documento :=
  match rest with
  | [] => best
  | x :: rest' =>
      mais_recente (if (fst best <? fst x)%Z then x else best) rest'
  end.

(** [B3ApiClient.selecionar_documento_mais_recente(df_mensal)]. The
    returned dictionary has the added key [dataRef_parsed]; its timestamp
    stands as the number of its day. *)
Definition selecionar_documento_mais_recente (df_mensal : list documento)
  : retorno documento :=
  if df_empty df_mensal then Falha "DataFrame vazio"
  else if negb (has_column df_mensal "dataReferencia")
  then Falha "'dataReferencia'"
  else
    match com_data df_mensal with
    | [] => Falha nenhuma_data_valida
    | x :: rest =>
        let '(d, doc) := mais_recente x rest in
        Sucesso (<["dataRef_parsed" := VInt d]> doc)
    end.

End Docs.

End ApiClientDocs.

(* ===================================================================== *)
(** ** Reference notions for the diff report read both ways *)
(* ===================================================================== *)

Module ReferenceDiff.
Import PyStr Py PyFloat XmlParser Pandas DiffGenerator ReferenceTables.

(** A 64-bit integer. *)
Definition int64 (n : Z) : Prop := (- 2 ^ 63 <= n < 2 ^ 63)%Z.

(** The columns of integers of a table hold 64-bit integers. *)
Definition int64_cells (df : DataFrame) : Prop :=
  forall col v, columns df !! col = Some (Int64 v) -> Forall int64 v.

Definition num_int64 (v : num) : Prop :=
  match v with
  | NInt n => int64 n
  | NFloat _ => True
  end.

(** The record with the opposite difference. *)
Definition oposto (r : diff_record) : diff_record :=
  {| CNPJ_FUNDO := CNPJ_FUNDO r; COLUNA := COLUNA r;
     DIFERENCA := num_neg (DIFERENCA r) |}.

End ReferenceDiff.
(* ===================================================================== *)
(** * Properties *)
(* ===================================================================== *)

Section PyStrFacts.
Import PyStr.

Lemma str_chars s : str (chars s) = s.
Proof. apply string_of_list_ascii_of_string. Qed.

Lemma chars_str l : chars (str l) = l.
Proof. apply list_ascii_of_string_of_list_ascii. Qed.

Lemma lstrip_by_id p c l : p c = false -> lstrip_by p (c :: l) = c :: l.
Proof. intros H. simpl. now rewrite H. Qed.

(** Stripping leaves a text alone when neither end is strippable. *)
Lemma strip_by_id p a m z :
  p a = false -> p z = false ->
  strip_by p (a :: m ++ [z]) = a :: m ++ [z].
Proof.
  intros Ha Hz. unfold strip_by.
  rewrite (lstrip_by_id p a _ Ha).
  replace (rev (a :: m ++ [z])) with (z :: rev (a :: m)).
  - rewrite (lstrip_by_id p z _ Hz).
    change (z :: rev (a :: m)) with ([z] ++ rev (a :: m)).
    rewrite rev_app_distr, rev_involutive. reflexivity.
  - change (a :: m ++ [z]) with ((a :: m) ++ [z]).
    rewrite rev_app_distr. reflexivity.
Qed.

End PyStrFacts.

Section PyFloatFacts.
Import PyStr Py PyFloat.

Lemma digit_not_separator c :
  is_ascii_digit c = true ->
  Ascii.eqb c "." = false /\ Ascii.eqb c "," = false /\
  Ascii.eqb c "_" = false /\ Ascii.eqb c "-" = false /\
  Ascii.eqb c "+" = false /\ float_space c = false /\ isspace c = false.
Proof.
  destruct c as [[] [] [] [] [] [] [] []]; vm_compute; intros H;
    try discriminate H; repeat split.
Qed.

Lemma span_app p ds r :
  Forall (fun c => p c = true) ds ->
  match r with c :: _ => p c = false | [] => True end ->
  span p (ds ++ r) = (ds, r).
Proof.
  intros Hds Hr. induction Hds as [|c ds Hc _ IH]; simpl.
  - destruct r as [|c r]; [reflexivity|]. simpl. now rewrite Hr.
  - now rewrite Hc, IH.
Qed.

Lemma span_spec p l a b :
  span p l = (a, b) ->
  l = a ++ b /\ Forall (fun c => p c = true) a /\
  match b with c :: _ => p c = false | [] => True end.
Proof.
  revert a b. induction l as [|c l IH]; simpl; intros a b H.
  - inversion H; subst. repeat split; constructor.
  - destruct (p c) eqn:Hc.
    + destruct (span p l) as [a' b'] eqn:Hs. inversion H; subst.
      destruct (IH _ _ eq_refl) as (-> & Ha & Hb).
      repeat split; [constructor|]; assumption.
    + inversion H; subst. repeat split; [constructor | assumption].
Qed.

Lemma drop_underscores_id l :
  Forall (fun c => Ascii.eqb c "_" = false) l ->
  forall prev,
    match prev with Some p => Ascii.eqb p "_" = false | None => True end ->
    drop_underscores prev l = Some l.
Proof.
  induction 1 as [|c l Hc _ IH]; intros prev Hprev; simpl.
  - destruct prev as [p|]; [now rewrite Hprev | reflexivity].
  - rewrite Hc.
    replace (match prev with Some p => Ascii.eqb p "_" | None => false end)
      with false by (destruct prev; [now rewrite Hprev | reflexivity]).
    simpl. now rewrite (IH (Some c) Hc).
Qed.

(** [float] reads a run of digits, a point and two digits as the number of
    hundredths they spell. *)
Lemma float_of_str_hundredths a ds d1 d2 :
  Forall (fun c => is_ascii_digit c = true) (a :: ds) ->
  is_ascii_digit d1 = true -> is_ascii_digit d2 = true ->
  float_of_str (str (a :: ds ++ ["."%char; d1; d2]))
  = Ok (of_decimal false (digits_value (a :: ds ++ [d1; d2])) (-2)).
Proof.
  intros Hds H1 H2. unfold float_of_str. rewrite chars_str.
  pose proof (Forall_inv Hds) as Ha.
  replace (a :: ds ++ ["."%char; d1; d2])
    with (a :: (ds ++ ["."%char; d1]) ++ [d2])
    by (now rewrite <- app_assoc).
  rewrite strip_by_id
    by (now apply digit_not_separator).
  replace (a :: (ds ++ ["."%char; d1]) ++ [d2])
    with ((a :: ds) ++ ["."%char; d1; d2])
    by (simpl; now rewrite <- app_assoc).
  rewrite drop_underscores_id; [|
    apply Forall_app; split;
    [ eapply Forall_impl; [exact Hds|]; intros c Hc;
      now apply digit_not_separator
    | repeat constructor; now apply digit_not_separator ] | exact I ].
  unfold parse_decimal.
  replace (parse_sign ((a :: ds) ++ ["."%char; d1; d2]))
    with (false, (a :: ds) ++ ["."%char; d1; d2]).
  2:{ simpl. destruct (digit_not_separator a Ha) as (_ & _ & _ & -> & -> & _).
      reflexivity. }
  rewrite (span_app is_ascii_digit (a :: ds) ["."%char; d1; d2] Hds eq_refl).
  change (Ascii.eqb "." ".") with true. cbv iota.
  replace (span is_ascii_digit [d1; d2]) with ([d1; d2], @nil ascii)
    by (simpl; now rewrite H1, H2).
  destruct ds; reflexivity.
Qed.

(** The rounding agrees with the usual binary64 values of 0.1, of
    1234567.89 and of the smallest positive number, and overflows to an
    infinity. *)
Example of_decimal_samples :
  of_decimal false 1 (-1) = S754_finite false 7205759403792794 (-56)
  /\ of_decimal false 123456789 (-2)
     = S754_finite false 5302428712241725 (-32)
  /\ float_of_str "4.9e-324" = Ok (S754_finite false 1 (-1074))
  /\ float_of_str "1e400" = Ok inf
  /\ float_of_str "-inf" = Ok (S754_infinity true)
  /\ float_of_str " 1_000.5e-1 " = float_of_str "100.05"
  /\ float_of_str "1__0" = Raise ValueError.
Proof. repeat split; vm_compute; reflexivity. Qed.

End PyFloatFacts.

(* ===================================================================== *)
(** ** The numeric conversion rule *)
(* ===================================================================== *)

Section ConverterValor.
Import PyStr Py PyFloat XmlParser Reference.

Lemma limpar_digits ds r :
  Forall (fun c => is_ascii_digit c = true) ds ->
  limpar (ds ++ r) = ds ++ limpar r.
Proof.
  unfold limpar. induction 1 as [|c ds Hc _ IH]; [reflexivity|].
  destruct (digit_not_separator c Hc) as (Hp & Hv & _).
  simpl. rewrite Hp. simpl. rewrite Hv. now rewrite IH.
Qed.

Lemma filter_digits ds r :
  Forall (fun c => is_ascii_digit c = true) ds ->
  List.filter is_ascii_digit (ds ++ r) = ds ++ List.filter is_ascii_digit r.
Proof.
  induction 1 as [|c ds Hc _ IH]; [reflexivity|].
  simpl. now rewrite Hc, IH.
Qed.

(** What the replacements and the digit filter make of [(.DDD)*,DD]. *)
Lemma br_groups_limpar n : forall g,
  (length g <= n)%nat -> br_groups g = true ->
  exists ds d1 d2,
    limpar g = ds ++ ["."%char; d1; d2]
    /\ List.filter is_ascii_digit g = ds ++ [d1; d2]
    /\ Forall (fun c => is_ascii_digit c = true) ds
    /\ is_ascii_digit d1 = true /\ is_ascii_digit d2 = true.
Proof.
  induction n as [|n IH]; intros g Hlen Hg.
  - destruct g; [discriminate Hg | simpl in Hlen; lia].
  - destruct g as [|sep r]; [discriminate Hg|]. simpl in Hg.
    destruct (Ascii.eqb sep ",") eqn:Hcomma.
    + apply Ascii.eqb_eq in Hcomma. subst sep.
      destruct r as [|d1 [|d2 [|x r]]]; try discriminate Hg.
      apply andb_prop in Hg. destruct Hg as [H1 H2].
      exists [], d1, d2.
      destruct (digit_not_separator d1 H1) as (Hp1 & Hv1 & _).
      destruct (digit_not_separator d2 H2) as (Hp2 & Hv2 & _).
      unfold limpar. simpl. rewrite Hp1, Hp2. simpl. rewrite Hv1, Hv2, H1, H2.
      repeat split; constructor.
    + destruct (Ascii.eqb sep ".") eqn:Hpoint; [|discriminate Hg].
      apply Ascii.eqb_eq in Hpoint. subst sep.
      destruct r as [|d1 [|d2 [|d3 r]]]; try discriminate Hg.
      apply andb_prop in Hg. destruct Hg as [Hg Hr].
      apply andb_prop in Hg. destruct Hg as [Hg H3].
      apply andb_prop in Hg. destruct Hg as [H1 H2].
      destruct (IH r ltac:(simpl in Hlen; lia) Hr)
        as (ds & e1 & e2 & Hl & Hf & Hds & He1 & He2).
      exists (d1 :: d2 :: d3 :: ds), e1, e2.
      assert (Hd : Forall (fun c => is_ascii_digit c = true) [d1; d2; d3])
        by (repeat constructor; assumption).
      change ("."%char :: d1 :: d2 :: d3 :: r)
        with ("."%char :: [d1; d2; d3] ++ r).
      repeat split; try assumption.
      * change (limpar ("."%char :: [d1; d2; d3] ++ r))
          with (limpar ([d1; d2; d3] ++ r)).
        rewrite (limpar_digits _ _ Hd), Hl. reflexivity.
      * change (List.filter is_ascii_digit ("."%char :: [d1; d2; d3] ++ r))
          with (List.filter is_ascii_digit ([d1; d2; d3] ++ r)).
        rewrite (filter_digits _ _ Hd), Hf. reflexivity.
      * repeat constructor; assumption.
Qed.

Lemma lstrip_by_keeps p l c :
  In c l -> p c = false -> lstrip_by p l <> [].
Proof.
  induction l as [|x l IH]; intros Hin Hc; [destruct Hin|].
  simpl. destruct (p x) eqn:Hx; [|discriminate].
  destruct Hin as [->|Hin]; [congruence | now apply IH].
Qed.

Lemma strip_by_keeps p a l :
  p a = false -> strip_by p (a :: l) <> [].
Proof.
  intros Ha. unfold strip_by. rewrite (lstrip_by_id p a l Ha).
  intros H. apply (f_equal (@rev ascii)) in H.
  rewrite rev_involutive in H. simpl in H.
  revert H. apply (lstrip_by_keeps p _ a); [|exact Ha].
  apply in_or_app. right. now left.
Qed.

Lemma str_nonempty l : l <> [] -> String.eqb (str l) "" = false.
Proof. destruct l; [congruence | reflexivity]. Qed.

(** A Brazilian number is its leading digits followed by well-formed
    groups. *)
Lemma br_format_inv s :
  br_format s = true ->
  exists a h g,
    chars s = (a :: h) ++ g
    /\ Forall (fun c => is_ascii_digit c = true) (a :: h)
    /\ br_groups g = true.
Proof.
  unfold br_format. destruct (span is_ascii_digit (chars s)) as [h g] eqn:Hs.
  intros H. apply andb_prop in H. destruct H as [H Hg].
  apply andb_prop in H. destruct H as [Hlo _].
  destruct (span_spec _ _ _ _ Hs) as (Heq & Hh & _).
  destruct h as [|a h]; [discriminate Hlo|].
  exists a, h, g. auto.
Qed.

(** The conversion of a Brazilian number, step by step. *)
Lemma converter_valor_br s :
  br_format s = true -> converter_valor (Some s) = Ok (br_expected s).
Proof.
  intros Hs. destruct (br_format_inv s Hs) as (a & h & g & Hc & Hh & Hg).
  destruct (br_groups_limpar (length g) g (Nat.le_refl _) Hg)
    as (ds & d1 & d2 & Hl & Hf & Hds & H1 & H2).
  pose proof (Forall_inv Hh) as Ha.
  unfold converter_valor.
  assert (Hne : String.eqb s "" = false).
  { rewrite <- (str_chars s), Hc. reflexivity. }
  assert (Hst : String.eqb (strip s) "" = false).
  { unfold strip. rewrite Hc. apply str_nonempty.
    apply strip_by_keeps. now apply digit_not_separator. }
  rewrite Hne, Hst. cbn [orb].
  unfold texto_limpo, replace. rewrite chars_str.
  change (replace_chars "," (chars ".") (replace_chars "." (chars "") (chars s)))
    with (limpar (chars s)).
  rewrite Hc, (limpar_digits _ _ Hh), Hl.
  replace ((a :: h) ++ ds ++ ["."%char; d1; d2])
    with (a :: (h ++ ds) ++ ["."%char; d1; d2])
    by (simpl; now rewrite app_assoc).
  rewrite float_of_str_hundredths; try assumption.
  - unfold try_except, br_expected, br_cents.
    rewrite Hc, (filter_digits _ _ Hh), Hf.
    replace ((a :: h) ++ ds ++ [d1; d2]) with (a :: (h ++ ds) ++ [d1; d2])
      by (simpl; now rewrite app_assoc).
    reflexivity.
  - constructor; [exact Ha|]. apply Forall_app. split; [|exact Hds].
    exact (Forall_inv_tail Hh).
Qed.

Lemma float_of_str_raises s e : float_of_str s = Raise e -> e = ValueError.
Proof.
  unfold float_of_str.
  destruct (drop_underscores None _) as [l|]; [|congruence].
  destruct (parse_decimal l); [congruence|].
  destruct (parse_inf_or_nan l); congruence.
Qed.

Lemma converter_valor_ok t : exists x, converter_valor t = Ok x.
Proof.
  destruct t as [t|]; [|now exists zero]. unfold converter_valor.
  destruct (String.eqb t "" || String.eqb (strip t) ""); [now exists zero|].
  destruct (float_of_str (texto_limpo t)) as [x|e] eqn:E; [now exists x|].
  rewrite (float_of_str_raises _ _ E). now exists zero.
Qed.

(** C1. [converter_valor] on a Brazilian number [D{1,3}(.D{3})*,DD] gives
    the float nearest to the number written (the points dropped, the comma
    read as the decimal point); "1.234.567,89" gives 1234567.89; any text
    that is not blank gives what [float] reads in its cleaned form, and 0.0
    when [float] rejects it; the empty string and [None] give 0.0; no input
    makes it raise. *)
Theorem converter_valor_brazilian_format :
  (forall s, br_format s = true ->
     converter_valor (Some s) = Ok (br_expected s))
  /\ converter_valor (Some "1.234.567,89")
     = Ok (S754_finite false 5302428712241725 (-32))
  /\ (forall s, String.eqb s "" = false -> String.eqb (strip s) "" = false ->
        converter_valor (Some s)
        = Ok (match float_of_str (texto_limpo s) with
              | Ok x => x
              | Raise _ => zero
              end))
  /\ (forall s e, float_of_str (texto_limpo s) = Raise e ->
        converter_valor (Some s) = Ok zero)
  /\ converter_valor (Some "") = Ok zero
  /\ converter_valor None = Ok zero
  /\ (forall t, raises (converter_valor t) = false).
Proof.
  split; [exact converter_valor_br|].
  split; [reflexivity|].
  split.
  { intros s H1 H2. unfold converter_valor. rewrite H1, H2. cbn [orb].
    destruct (float_of_str (texto_limpo s)) as [x|e] eqn:E; [reflexivity|].
    now rewrite (float_of_str_raises _ _ E). }
  split.
  { intros s e E. unfold converter_valor.
    destruct (String.eqb s "" || String.eqb (strip s) ""); [reflexivity|].
    rewrite E, (float_of_str_raises _ _ E). reflexivity. }
  split; [reflexivity|]. split; [reflexivity|].
  intros t. destruct (converter_valor_ok t) as [x ->]. reflexivity.
Qed.

Lemma converter_valor_brazilian_format_witness :
  br_format "12.345,67" = true
  /\ converter_valor (Some "12.345,67") = Ok (br_expected "12.345,67").
Proof.
  split; [reflexivity|].
  apply (proj1 converter_valor_brazilian_format). reflexivity.
Defined.

End ConverterValor.

(* ===================================================================== *)
(** ** Floats *)
(* ===================================================================== *)

Section FloatFacts.
Import PyFloat.

Lemma compare_antisym (x y : float) :
  SFcompare x y = option_map CompOpp (SFcompare y x).
Proof.
  destruct x as [sx|sx| |sx mx ex], y as [sy|sy| |sy my ey]; simpl;
    try reflexivity;
    try (destruct sx; reflexivity); try (destruct sy; reflexivity);
    try (destruct sx, sy; reflexivity).
  destruct sx, sy; try reflexivity;
    rewrite (Z.compare_antisym ey ex);
    destruct (ey ?= ex)%Z; simpl; try reflexivity;
    rewrite (Pos.compare_cont_antisym my mx Eq); simpl;
    destruct (Pos.compare_cont Eq my mx); reflexivity.
Qed.

Lemma gtb_zero_not_zero x : gtb x zero = true -> eqb x zero = false.
Proof.
  unfold gtb, eqb, SFltb, SFeqb. rewrite (compare_antisym zero x).
  destruct (SFcompare x zero) as [[]|]; simpl; congruence.
Qed.

Lemma truediv_positive a b : gtb b zero = true -> truediv a b = Py.Ok (div a b).
Proof. intros H. unfold truediv. now rewrite (gtb_zero_not_zero b H). Qed.

Lemma truediv_100 a : truediv a (of_Z 100) = Py.Ok (div a (of_Z 100)).
Proof. reflexivity. Qed.

(** [min(a, 1.0)] is at most 1.0 unless it is not a number. *)
Lemma min_one_le a : is_nan (min a one) = true \/ leb (min a one) one = true.
Proof.
  unfold min, ltb, leb, SFltb, SFleb. rewrite (compare_antisym one a).
  destruct (SFcompare a one) as [[]|] eqn:E; simpl.
  - right. now rewrite E.
  - right. now rewrite E.
  - right. reflexivity.
  - left. destruct a as [s|s| |s m e]; try reflexivity; try discriminate E;
      destruct s; discriminate E.
Qed.

End FloatFacts.

Section ParseFacts.
Import PyStr Py PyFloat XmlParser Reference.
Variable float_str : float -> string.

Lemma find_app_last {A} (p : A -> bool) l c :
  List.find p (l ++ [c])
  = match List.find p l with
    | Some x => Some x
    | None => if p c then Some c else None
    end.
Proof.
  induction l as [|x l IH]; simpl; [reflexivity|].
  destruct (p x); [reflexivity | exact IH].
Qed.

(** Reading an attribute after a run of assignments: the last assignment to
    it counts. *)
Lemma fold_insert_lookup (f : string -> value) tbl : forall (d : gmap string value) a,
  fold_left (fun d c => <[fst c := f (snd c)]> d) tbl d !! a
  = match List.find (fun c => String.eqb (fst c) a) (rev tbl) with
    | Some c => Some (f (snd c))
    | None => d !! a
    end.
Proof.
  induction tbl as [|c tbl IH]; intros d a; simpl; [reflexivity|].
  rewrite IH, find_app_last.
  destruct (List.find _ (rev tbl)); [reflexivity|].
  destruct (String.eqb (fst c) a) eqn:E.
  - apply String.eqb_eq in E. subst a. apply lookup_insert_eq.
  - apply String.eqb_neq in E. now apply lookup_insert_ne.
Qed.

Lemma buscar_valor_xml_float root caminho :
  campo_texto caminho = false -> campo_numerico caminho = true ->
  exists x, buscar_valor_xml root caminho = VFloat x.
Proof.
  intros Ht Hn. unfold buscar_valor_xml. rewrite Ht, Hn.
  destruct (find root caminho) as [[t [tx|] cs]|]; try (now exists zero).
  destruct (String.eqb tx ""); [now exists zero|].
  destruct (converter_valor_ok (Some tx)) as [x ->]. now exists x.
Qed.

Lemma campos_attr root d a caminho :
  List.find (fun c => String.eqb (fst c) a) (rev campos_numericos)
  = Some (a, caminho) ->
  campos root d !! a = Some (buscar_valor_xml root caminho).
Proof.
  intros H. unfold campos.
  rewrite (fold_insert_lookup (buscar_valor_xml root)), H. reflexivity.
Qed.

Lemma campos_other root d a :
  List.find (fun c => String.eqb (fst c) a) (rev campos_numericos) = None ->
  campos root d !! a = d !! a.
Proof.
  intros H. unfold campos.
  rewrite (fold_insert_lookup (buscar_valor_xml root)), H. reflexivity.
Qed.

Lemma float_or_0_float x : float_or_0 (VFloat x) = Ok (or_zero x).
Proof. unfold float_or_0, or_zero. destruct (truthy x); reflexivity. Qed.

Lemma extrair_spec root fb :
  exists dados cred dicred aquis,
    buscar_valor_xml root "CRED_EXISTE/VL_CRED_EXISTE_INAD" = VFloat cred
    /\ buscar_valor_xml root "DICRED/VL_DICRED_EXISTE_INAD" = VFloat dicred
    /\ buscar_valor_xml root "CRED_EXISTE/VL_SOM_DICRED_AQUIS" = VFloat aquis
    /\ extrair float_str root fb = Ok dados
    /\ dados !! "cnpj_fundo"
       = Some (VStr (str_or (py_str float_str
                               (buscar_valor_xml root "NR_CNPJ_FUNDO")) fb))
    /\ dados !! "inadimplencia_total"
       = Some (VFloat (max (or_zero cred) (or_zero dicred)))
    /\ dados !! "indice_npl_percentual"
       = Some (VFloat (nplPercentage (max (or_zero cred) (or_zero dicred))
                                     (or_zero aquis)))
    /\ dados !! "indice_npl_decimal"
       = Some (VFloat (nplDecimal (max (or_zero cred) (or_zero dicred))
                                  (or_zero aquis)))
    /\ dados !! "status" = Some (VStr "SUCESSO").
Proof.
  destruct (buscar_valor_xml_float root "CRED_EXISTE/VL_CRED_EXISTE_INAD"
              eq_refl eq_refl) as [cred Hcred].
  destruct (buscar_valor_xml_float root "DICRED/VL_DICRED_EXISTE_INAD"
              eq_refl eq_refl) as [dicred Hdicred].
  destruct (buscar_valor_xml_float root "CRED_EXISTE/VL_SOM_DICRED_AQUIS"
              eq_refl eq_refl) as [aquis Haquis].
  destruct (buscar_valor_xml_float root "VL_SOM_APLIC_ATIVO"
              eq_refl eq_refl) as [ativo Hativo].
  destruct (buscar_valor_xml_float root "VL_DISPONIB"
              eq_refl eq_refl) as [disp Hdisp].
  set (d0 := identificacao float_str root fb FIDCData_new).
  assert (Hid : d0 !! "cnpj_fundo" = Some (VStr (str_or (py_str float_str
                               (buscar_valor_xml root "NR_CNPJ_FUNDO")) fb))).
  { unfold d0, identificacao. by simplify_map_eq. }
  set (d1 := campos root d0).
  assert (H1 : d1 !! "cred_inadimplencia" = Some (VFloat cred)).
  { unfold d1.
    rewrite (campos_attr root d0 "cred_inadimplencia" "CRED_EXISTE/VL_CRED_EXISTE_INAD" eq_refl).
    now rewrite Hcred. }
  assert (H2 : d1 !! "dicred_inadimplencia" = Some (VFloat dicred)).
  { unfold d1.
    rewrite (campos_attr root d0 "dicred_inadimplencia" "DICRED/VL_DICRED_EXISTE_INAD" eq_refl).
    now rewrite Hdicred. }
  assert (H3 : d1 !! "creditos_adquiridos" = Some (VFloat aquis)).
  { unfold d1.
    rewrite (campos_attr root d0 "creditos_adquiridos" "CRED_EXISTE/VL_SOM_DICRED_AQUIS" eq_refl).
    now rewrite Haquis. }
  assert (H4 : d1 !! "ativo_total" = Some (VFloat ativo)).
  { unfold d1.
    rewrite (campos_attr root d0 "ativo_total" "VL_SOM_APLIC_ATIVO" eq_refl).
    now rewrite Hativo. }
  assert (H5 : d1 !! "disponibilidades" = Some (VFloat disp)).
  { unfold d1.
    rewrite (campos_attr root d0 "disponibilidades" "VL_DISPONIB" eq_refl).
    now rewrite Hdisp. }
  assert (H6 : d1 !! "cnpj_fundo" = d0 !! "cnpj_fundo").
  { unfold d1. now rewrite (campos_other root d0 "cnpj_fundo" eq_refl). }
  rewrite Hid in H6.
  enough (exists dados,
    extrair float_str root fb = Ok dados
    /\ dados !! "cnpj_fundo"
       = Some (VStr (str_or (py_str float_str
                               (buscar_valor_xml root "NR_CNPJ_FUNDO")) fb))
    /\ dados !! "inadimplencia_total"
       = Some (VFloat (max (or_zero cred) (or_zero dicred)))
    /\ dados !! "indice_npl_percentual"
       = Some (VFloat (nplPercentage (max (or_zero cred) (or_zero dicred))
                                     (or_zero aquis)))
    /\ dados !! "indice_npl_decimal"
       = Some (VFloat (nplDecimal (max (or_zero cred) (or_zero dicred))
                                  (or_zero aquis)))
    /\ dados !! "status" = Some (VStr "SUCESSO")) as (dados & Hdados).
  { exists dados, cred, dicred, aquis. auto. }
  set (total := max (or_zero cred) (or_zero dicred)).
  unfold extrair. fold d0. fold d1. clearbody d1. clear d0 Hid.
  unfold indicadores, getattr.
  rewrite H1. cbn [bind]. rewrite float_or_0_float. cbn [bind].
  rewrite H2. cbn [bind]. rewrite float_or_0_float. cbn [bind].
  fold total.
  rewrite !lookup_insert_ne by done. rewrite H3. cbn [bind].
  rewrite float_or_0_float. cbn [bind].
  unfold nplDecimal, nplPercentage. fold total.
  destruct (gtb (or_zero aquis) zero && gtb total zero) eqn:Hnpl;
    [ apply andb_prop in Hnpl; destruct Hnpl as [Hq _];
      rewrite (truediv_positive total _ Hq); cbn [bind];
      rewrite truediv_100 |];
    cbn [bind];
    rewrite !lookup_insert_ne by done; rewrite H4; cbn [bind];
    rewrite float_or_0_float; cbn [bind];
    rewrite ?lookup_insert_ne by done; rewrite H5; cbn [bind];
    rewrite float_or_0_float; cbn [bind];
    (destruct (gtb (or_zero ativo) zero) eqn:Hat;
     [ rewrite !(truediv_positive _ _ Hat); cbn [bind];
       rewrite !truediv_100 |];
     cbn [bind];
     eexists; (split; [reflexivity|]);
     repeat split; rewrite ?lookup_insert_eq;
     rewrite ?lookup_insert_ne by done; rewrite ?lookup_insert_eq;
     first [assumption | reflexivity]).
Qed.

Lemma parse_document root fb :
  exists dados, parse float_str (Document root) fb = (true, Some dados, None).
Proof.
  destruct (extrair_spec root fb) as (dados & _ & _ & _ & _ & _ & _ & H & _).
  exists dados. unfold parse. now rewrite H.
Qed.
End ParseFacts.

(* ===================================================================== *)
(** ** The indicators *)
(* ===================================================================== *)

Section Indicadores.
Import PyStr Py PyFloat XmlParser Reference.

Lemma or_zero_cases x :
  or_zero x = match x with S754_zero _ => zero | _ => x end.
Proof. destruct x as [[]|[]| |[] m e]; reflexivity. Qed.

Lemma compare_or_zero_l x y : SFcompare (or_zero x) y = SFcompare x y.
Proof. rewrite or_zero_cases. destruct x as [[]|[]| |[] m e]; reflexivity. Qed.

Lemma compare_or_zero_r x y : SFcompare x (or_zero y) = SFcompare x y.
Proof.
  rewrite (compare_antisym x), compare_or_zero_l, <- compare_antisym.
  reflexivity.
Qed.

Lemma max_or_zero a b : max (or_zero a) (or_zero b) = or_zero (max a b).
Proof.
  unfold max, gtb, SFltb.
  rewrite compare_or_zero_l, compare_or_zero_r.
  destruct (SFcompare a b) as [[]|]; reflexivity.
Qed.

Lemma compare_refl x : is_nan x = false -> SFcompare x x = Some Eq.
Proof.
  destruct x as [s|s| |s m e]; simpl; intros H; try reflexivity;
    try discriminate H.
  - destruct s; reflexivity.
  - destruct s; rewrite Z.compare_refl, Pos.compare_cont_refl; reflexivity.
Qed.

Lemma compare_not_nan x y :
  is_nan x = false -> is_nan y = false -> SFcompare x y <> None.
Proof.
  destruct x as [sx|sx| |sx mx ex], y as [sy|sy| |sy my ey]; simpl;
    intros Hx Hy; congruence.
Qed.

Lemma same_number_or_zero x : same_number (or_zero x) x.
Proof.
  unfold same_number, eqb, SFeqb. rewrite compare_or_zero_l.
  destruct (is_nan x) eqn:E.
  - right. destruct x; try discriminate E. split; reflexivity.
  - left. rewrite (compare_refl x E). reflexivity.
Qed.

(** Python's [max] of two numbers bounds both and is one of them. *)
Lemma max_is_maximum a b :
  is_nan a = false -> is_nan b = false ->
  leb a (max a b) = true /\ leb b (max a b) = true
  /\ (max a b = a \/ max a b = b).
Proof.
  intros Ha Hb. unfold max, gtb, leb, SFltb, SFleb.
  pose proof (compare_not_nan a b Ha Hb) as Hab.
  pose proof (compare_antisym b a) as Hba.
  destruct (SFcompare a b) as [[]|] eqn:E; try congruence;
    rewrite ?E, ?Hba, ?(compare_refl a Ha), ?(compare_refl b Hb);
    cbn [option_map CompOpp]; auto.
Qed.

Lemma parse_ok_inv float_str content fb dados :
  parse float_str content fb = (true, Some dados, None) ->
  exists root, content = Document root
               /\ extrair float_str root fb = Ok dados.
Proof.
  destruct content as [erro|root]; unfold parse.
  - intros H. inversion H.
  - destruct (extrair float_str root fb) as [d|e] eqn:E.
    + intros H. injection H as ->. exists root. split; [reflexivity|exact E].
    + intros H. inversion H.
Qed.

(** [parse] succeeds exactly on well-formed content. *)
Lemma parse_malformed float_str erro fb :
  parse float_str (Malformed erro) fb
  = (false, None, Some (String.append "Erro XML: " erro)).
Proof. reflexivity. Qed.

(** C3. Every well-formed filing is parsed successfully, and its
    consolidated delinquency is the larger of the two reported measurements
    (a zero of either sign counting as 0.0): it equals their maximum as a
    number, and whenever both are numbers it bounds both and is one of
    them; with 50 and 30 reported it is 50, not their sum 80, and with 0
    and 0 it is 0. *)
Theorem inadimplencia_total_is_max :
  (forall float_str root fb,
     exists dados cred dicred total,
       parse float_str (Document root) fb = (true, Some dados, None)
       /\ buscar_valor_xml root "CRED_EXISTE/VL_CRED_EXISTE_INAD"
          = VFloat cred
       /\ buscar_valor_xml root "DICRED/VL_DICRED_EXISTE_INAD"
          = VFloat dicred
       /\ dados !! "inadimplencia_total" = Some (VFloat total)
       /\ total = or_zero (consolidatedDelinquency cred dicred)
       /\ same_number total (consolidatedDelinquency cred dicred)
       /\ (is_nan cred = false -> is_nan dicred = false ->
           leb cred total = true /\ leb dicred total = true
           /\ (eqb total cred = true \/ eqb total dicred = true)))
  /\ (forall float_str fb,
        campo (parse float_str
                 (Document (filing "1" "100,00" "50,00" "30,00")) fb)
          "inadimplencia_total" = Some (VFloat (of_Z 50)))
  /\ of_Z 50 <> add (of_Z 50) (of_Z 30)
  /\ (forall float_str fb,
        campo (parse float_str
                 (Document (filing "1" "100,00" "0,00" "0,00")) fb)
          "inadimplencia_total" = Some (VFloat zero))
  /\ consolidatedDelinquency (of_Z 50) (of_Z 30) = of_Z 50
  /\ consolidatedDelinquency zero zero = zero.
Proof.
  split.
  { intros float_str root fb.
    destruct (extrair_spec float_str root fb)
      as (dados & cred & dicred & aquis & Hc & Hd & _ & Hex & _ & Ht & _).
    exists dados, cred, dicred, (max (or_zero cred) (or_zero dicred)).
    unfold consolidatedDelinquency.
    split; [unfold parse; rewrite Hex; reflexivity|].
    split; [exact Hc|]. split; [exact Hd|].
    split; [exact Ht|]. split; [apply max_or_zero|].
    rewrite max_or_zero.
    split; [apply same_number_or_zero|].
    intros Hnc Hnd.
    destruct (max_is_maximum cred dicred Hnc Hnd) as (H1 & H2 & H3).
    unfold leb, eqb, SFleb, SFeqb in *.
    rewrite !compare_or_zero_r, !compare_or_zero_l.
    split; [exact H1|]. split; [exact H2|].
    destruct H3 as [-> | ->];
      [left; rewrite (compare_refl cred Hnc)
      |right; rewrite (compare_refl dicred Hnd)]; reflexivity. }
  split; [intros; vm_compute; reflexivity|].
  split; [vm_compute; discriminate|].
  split; [intros; vm_compute; reflexivity|].
  split; reflexivity.
Qed.

Lemma inadimplencia_total_is_max_witness :
  exists total,
    campo (parse (fun _ => "")
             (Document (filing "1" "100,00" "50,00" "30,00")) "")
      "inadimplencia_total" = Some (VFloat total)
    /\ leb (of_Z 50) total = true /\ leb (of_Z 30) total = true.
Proof.
  destruct (proj1 inadimplencia_total_is_max (fun _ => "")
              (filing "1" "100,00" "50,00" "30,00") "")
    as (dados & cred & dicred & total & Hp & Hc & Hd & Ht & _ & _ & Hmax).
  vm_compute in Hc. vm_compute in Hd.
  injection Hc as <-. injection Hd as <-.
  destruct (Hmax eq_refl eq_refl) as (H1 & H2 & _).
  exists total. rewrite Hp. unfold campo.
  split; [exact Ht|]. split; [exact H1 | exact H2].
Defined.

End Indicadores.

(* ===================================================================== *)
(** ** The typing policy of the field lookup *)
(* ===================================================================== *)

Section BuscarValor.
Import PyStr Py PyFloat XmlParser Reference.

Lemma lstrip_by_nil p l :
  lstrip_by p l = [] -> Forall (fun c => p c = true) l.
Proof.
  induction l as [|c l IH]; [constructor|]. cbn [lstrip_by].
  destruct (p c) eqn:Hc; [|discriminate]. intros H. constructor; auto.
Qed.

Lemma lstrip_by_Forall (q : ascii -> Prop) p l :
  Forall q l -> Forall q (lstrip_by p l).
Proof.
  induction 1 as [|c l Hc Hl IH]; [constructor|]. cbn [lstrip_by].
  destruct (p c); [exact IH | now constructor].
Qed.

Lemma lstrip_by_split p l :
  exists pre, l = pre ++ lstrip_by p l /\ Forall (fun c => p c = true) pre.
Proof.
  induction l as [|c l (pre & Hl & Hpre)]; [now exists []|].
  cbn [lstrip_by]. destruct (p c) eqn:Hc.
  - exists (c :: pre). split; [cbn; now rewrite <- Hl | now constructor].
  - now exists [].
Qed.

Lemma strip_by_Forall (q : ascii -> Prop) p l :
  Forall q l -> Forall q (strip_by p l).
Proof.
  intros H. unfold strip_by.
  apply Forall_rev, lstrip_by_Forall, Forall_rev, lstrip_by_Forall, H.
Qed.

(** A text that [strip] empties is made of white space only. *)
Lemma strip_by_nil p l :
  strip_by p l = [] -> Forall (fun c => p c = true) l.
Proof.
  unfold strip_by. intros H.
  apply (f_equal (@rev ascii)) in H. rewrite rev_involutive in H.
  cbn [rev] in H. apply lstrip_by_nil in H.
  apply Forall_rev in H. rewrite rev_involutive in H.
  destruct (lstrip_by_split p l) as (pre & Hl & Hpre).
  rewrite Hl. apply Forall_app. split; assumption.
Qed.

Lemma space_char c :
  isspace c = true ->
  Ascii.eqb c "." = false /\ Ascii.eqb c "," = false
  /\ Ascii.eqb c "_" = false /\ Ascii.eqb c "-" = false
  /\ Ascii.eqb c "+" = false /\ is_ascii_digit c = false
  /\ Ascii.eqb (lower c) "i" = false /\ Ascii.eqb (lower c) "n" = false.
Proof.
  destruct c as [[] [] [] [] [] [] [] []]; vm_compute; intros H;
    try discriminate H; repeat split.
Qed.

Lemma limpar_spaces l :
  Forall (fun c => isspace c = true) l -> limpar l = l.
Proof.
  unfold limpar. induction 1 as [|c l Hc _ IH]; [reflexivity|].
  destruct (space_char c Hc) as (Hp & Hv & _).
  cbn [replace_chars]. rewrite Hp. cbn [replace_chars]. rewrite Hv.
  now rewrite IH.
Qed.

(** [float] rejects a text made of white space only. *)
Lemma float_of_str_blank l :
  Forall (fun c => isspace c = true) l ->
  float_of_str (str l) = Raise ValueError.
Proof.
  intros Hl. unfold float_of_str. rewrite chars_str.
  pose proof (strip_by_Forall _ float_space l Hl) as Hb.
  destruct (strip_by float_space l) as [|c r]; [reflexivity|].
  pose proof (Forall_inv Hb) as Hc.
  destruct (space_char c Hc) as (Hp & _ & Hu & Hm & Hpl & Hd & Hi & Hn).
  rewrite drop_underscores_id; [| |exact I].
  2:{ eapply Forall_impl; [exact Hb|]. intros x Hx.
      now destruct (space_char x Hx) as (_ & _ & ? & _). }
  unfold parse_decimal, parse_sign. rewrite Hm, Hpl.
  cbn [span]. rewrite Hd, Hp. cbn [app].
  unfold parse_inf_or_nan, parse_sign. rewrite Hm, Hpl.
  cbn [map str string_of_list_ascii String.eqb]. rewrite Hi, Hn.
  reflexivity.
Qed.

(** The conversion of the code is the conversion rule of the
    specification. *)
Lemma converter_valor_numericConvert t :
  converter_valor t = Ok (numericConvert t).
Proof.
  destruct t as [t|]; [|reflexivity].
  unfold converter_valor, numericConvert.
  destruct (String.eqb t "") eqn:He.
  - apply String.eqb_eq in He. subst t. reflexivity.
  - destruct (String.eqb (strip t) "") eqn:Hs; cbn [orb].
    + apply String.eqb_eq in Hs. unfold strip in Hs.
      assert (Hn : strip_by isspace (chars t) = []).
      { rewrite <- (chars_str (strip_by isspace (chars t))), Hs.
        reflexivity. }
      apply strip_by_nil in Hn.
      unfold texto_limpo, replace. rewrite chars_str.
      change (replace_chars "," (chars ".")
                (replace_chars "." (chars "") (chars t)))
        with (limpar (chars t)).
      rewrite (limpar_spaces _ Hn), (float_of_str_blank _ Hn). reflexivity.
    + destruct (float_of_str (texto_limpo t)) as [x|e] eqn:E;
        [reflexivity|].
      now rewrite (float_of_str_raises _ _ E).
Qed.

Lemma buscar_valor_xml_amended root caminho :
  buscar_valor_xml root caminho = typing_policy_amended root caminho.
Proof.
  unfold buscar_valor_xml, typing_policy_amended, texto_extraido,
    texto_do_elemento.
  destruct (find root caminho) as [[tg [tx|] cs]|].
  - destruct (String.eqb tx "").
    + destruct (campo_texto caminho); reflexivity.
    + destruct (campo_texto caminho); [reflexivity|].
      now rewrite converter_valor_numericConvert.
  - destruct (campo_texto caminho); reflexivity.
  - destruct (campo_texto caminho); reflexivity.
Qed.

(** On the paths of the parser the two readings of "textual" coincide and
    every other path has the numeric default. *)
Lemma caminhos_do_parser_classified :
  forallb (fun p => Bool.eqb (textual_by_prefix p) (campo_texto p)
                    && (campo_texto p || campo_numerico p))
    caminhos_do_parser = true.
Proof. vm_compute. reflexivity. Qed.

(** C5, amended. Every lookup follows the typing policy of the code: a path
    that contains one of the markers DT_, NR_, CD_, FDO_, CLASS_, COTST_,
    TP_ anywhere gives the trimmed text of the element, "" when it is
    absent or empty; any other path gives the Brazilian numeric conversion
    of the text when there is one, and when there is none 0.0 if the path
    contains '/' or starts with VL_, QT_, PR_ or TX_, and "" otherwise. On
    every path that the parser looks up this is the policy of the
    specification: prefix match, numeric default 0.0. *)
Theorem buscar_valor_xml_typing_policy :
  (forall root caminho,
     buscar_valor_xml root caminho = typing_policy_amended root caminho)
  /\ (forall root caminho,
        In caminho caminhos_do_parser ->
        buscar_valor_xml root caminho = typing_policy root caminho).
Proof.
  split; [exact buscar_valor_xml_amended|].
  intros root caminho Hin. rewrite buscar_valor_xml_amended.
  pose proof caminhos_do_parser_classified as Hall.
  rewrite forallb_forall in Hall. specialize (Hall caminho Hin).
  apply andb_prop in Hall. destruct Hall as [Heq Hnum].
  apply Bool.eqb_prop in Heq.
  unfold typing_policy_amended, typing_policy. rewrite Heq.
  destruct (campo_texto caminho); [reflexivity|].
  cbn [orb] in Hnum. rewrite Hnum.
  destruct (texto_do_elemento root caminho); reflexivity.
Qed.

Lemma buscar_valor_xml_typing_policy_witness :
  In "CRED_EXISTE/VL_CRED_EXISTE_INAD" caminhos_do_parser
  /\ buscar_valor_xml (filing "1" "100,00" "50,00" "30,00")
       "CRED_EXISTE/VL_CRED_EXISTE_INAD"
     = typing_policy (filing "1" "100,00" "50,00" "30,00")
         "CRED_EXISTE/VL_CRED_EXISTE_INAD".
Proof.
  assert (H : In "CRED_EXISTE/VL_CRED_EXISTE_INAD" caminhos_do_parser).
  { vm_compute. tauto. }
  split; [exact H|].
  exact (proj2 buscar_valor_xml_typing_policy _ _ H).
Defined.

(** C5 as stated fails: a path with no marker, no '/' and none of the
    numeric prefixes has the default "" and not 0.0. *)
Lemma typing_policy_as_stated_fails :
  ~ (forall root caminho,
       buscar_valor_xml root caminho = typing_policy root caminho).
Proof.
  intros H. specialize (H (Element "DOC" None []) "FOO").
  vm_compute in H. discriminate H.
Qed.

(** A marker that is not at the start of the path makes the path textual
    all the same. *)
Example marker_inside_path :
  buscar_valor_xml (Element "DOC" None [Element "VL_CD_X" (Some "12,5") []])
    "VL_CD_X" = VStr "12,5"
  /\ textual_by_prefix "VL_CD_X" = false.
Proof. split; vm_compute; reflexivity. Qed.

End BuscarValor.

(* ===================================================================== *)
(** ** The fund identifier *)
(* ===================================================================== *)

Section CnpjFundo.
Import PyStr Py PyFloat XmlParser Reference DataCleaner.

Lemma buscar_valor_xml_texto root caminho :
  campo_texto caminho = true ->
  buscar_valor_xml root caminho = VStr (texto_extraido root caminho).
Proof.
  intros H. rewrite buscar_valor_xml_amended.
  unfold typing_policy_amended. now rewrite H.
Qed.

Lemma texto_extraido_absent root caminho :
  find root caminho = None -> texto_extraido root caminho = "".
Proof.
  intros H. unfold texto_extraido, texto_do_elemento. now rewrite H.
Qed.

(** What [parse] stores as the fund identifier. *)
Lemma parse_cnpj_fundo float_str root fb :
  exists dados,
    parse float_str (Document root) fb = (true, Some dados, None)
    /\ dados !! "cnpj_fundo"
       = Some (VStr (str_or (texto_extraido root "NR_CNPJ_FUNDO") fb)).
Proof.
  destruct (extrair_spec float_str root fb)
    as (dados & _ & _ & _ & _ & _ & _ & Hex & Hid & _).
  exists dados. split; [unfold parse; rewrite Hex; reflexivity|].
  rewrite Hid, (buscar_valor_xml_texto root "NR_CNPJ_FUNDO" eq_refl).
  reflexivity.
Qed.

(** C10. In the snapshot of a filing the fund identifier is the fallback of
    the caller, unchanged, when the element NR_CNPJ_FUNDO is absent or its
    extracted (trimmed) text is empty, and the extracted text, whatever the
    fallback, when that text is not empty. *)
Theorem cnpj_fundo_fallback :
  forall float_str root fb,
    exists dados,
      parse float_str (Document root) fb = (true, Some dados, None)
      /\ (find root "NR_CNPJ_FUNDO" = None ->
          dados !! "cnpj_fundo" = Some (VStr fb))
      /\ (texto_extraido root "NR_CNPJ_FUNDO" = "" ->
          dados !! "cnpj_fundo" = Some (VStr fb))
      /\ (texto_extraido root "NR_CNPJ_FUNDO" <> "" ->
          dados !! "cnpj_fundo"
          = Some (VStr (texto_extraido root "NR_CNPJ_FUNDO"))).
Proof.
  intros float_str root fb.
  destruct (parse_cnpj_fundo float_str root fb) as (dados & Hp & Hid).
  exists dados. split; [exact Hp|]. rewrite Hid. unfold str_or.
  split; [|split].
  - intros H. now rewrite (texto_extraido_absent _ _ H).
  - intros ->. reflexivity.
  - intros H. apply String.eqb_neq in H. now rewrite H.
Qed.

Lemma cnpj_fundo_fallback_witness :
  campo (parse (fun _ => "")
           (Document (filing " 51199121000145 " "1,00" "0,00" "0,00"))
           "00000000000191")
    "cnpj_fundo" = Some (VStr "51199121000145")
  /\ campo (parse (fun _ => "")
              (Document (filing "  " "1,00" "0,00" "0,00"))
              "00000000000191")
       "cnpj_fundo" = Some (VStr "00000000000191").
Proof.
  split.
  - destruct (cnpj_fundo_fallback (fun _ => "")
                (filing " 51199121000145 " "1,00" "0,00" "0,00")
                "00000000000191") as (dados & Hp & _ & _ & H).
    rewrite Hp. unfold campo. rewrite H; [|vm_compute; discriminate].
    vm_compute. reflexivity.
  - destruct (cnpj_fundo_fallback (fun _ => "")
                (filing "  " "1,00" "0,00" "0,00")
                "00000000000191") as (dados & Hp & _ & H & _).
    rewrite Hp. unfold campo. apply H. vm_compute. reflexivity.
Defined.

Lemma isdigit_not_sign c :
  isdigit c = true -> Ascii.eqb c "+" || Ascii.eqb c "-" = false.
Proof.
  destruct c as [[] [] [] [] [] [] [] []]; vm_compute; intros H;
    try discriminate H; reflexivity.
Qed.

Lemma ascii_isdigit c :
  (code c < 128)%N -> isdigit c = true -> is_ascii_digit c = true.
Proof.
  destruct c as [[] [] [] [] [] [] [] []]; vm_compute; intros H1 H2;
    try discriminate H1; try discriminate H2; reflexivity.
Qed.

Lemma zfill_digits width l :
  Forall (fun c => isdigit c = true) l ->
  zfill_chars width l = repeat "0"%char (width - length l) ++ l.
Proof.
  intros H. unfold zfill_chars. destruct l as [|c r]; [now rewrite app_nil_r|].
  now rewrite (isdigit_not_sign c (Forall_inv H)).
Qed.

Lemma filter_isdigit l :
  Forall (fun c => isdigit c = true) (List.filter isdigit l).
Proof.
  induction l as [|c l IH]; [constructor|]. cbn [List.filter].
  destruct (isdigit c) eqn:Hc; [constructor|]; assumption.
Qed.

Lemma filter_all (p : ascii -> bool) l :
  forallb p l = true -> List.filter p l = l.
Proof.
  induction l as [|c l IH]; [reflexivity|]. cbn [forallb List.filter].
  intros H. apply andb_prop in H. destruct H as [Hc Hl].
  now rewrite Hc, IH.
Qed.

Lemma In_firstn {A} (x : A) n : forall l, In x (firstn n l) -> In x l.
Proof.
  induction n as [|n IH]; intros [|y l]; cbn [firstn In]; try tauto.
  intros [H|H]; [now left | right; now apply IH].
Qed.

Lemma forallb_repeat (p : ascii -> bool) c n :
  p c = true -> forallb p (repeat c n) = true.
Proof. intros H. induction n; cbn [repeat forallb]; [|rewrite H]; auto. Qed.

Lemma clean_cnpj_chars s :
  let d := slice_to 14 (List.filter isdigit (chars s)) in
  chars (clean_cnpj s) = repeat "0"%char (14 - length d) ++ d
  /\ Forall (fun c => isdigit c = true) d /\ (length d <= 14)%nat.
Proof.
  intros d. unfold clean_cnpj. rewrite chars_str.
  assert (Hd : Forall (fun c => isdigit c = true) d).
  { unfold d, slice_to. apply Forall_take, filter_isdigit. }
  split; [now apply zfill_digits|]. split; [exact Hd|].
  unfold d, slice_to. apply firstn_le_length.
Qed.

(** C9, amended. [clean_cnpj] returns exactly 14 characters, all of them
    digits: the digits of its argument in order, cut after the first 14 and
    padded with zeros on the left; on a text of code points below 128 they
    are the decimal digits 0 to 9, and an identifier that already has 14
    decimal digits is returned as it is. The parser does not apply it: the
    fund identifier of a snapshot is the trimmed text of NR_CNPJ_FUNDO, or
    the fallback when that text is empty, as it stands. *)
Theorem clean_cnpj_14_digits :
  (forall s,
     length (chars (clean_cnpj s)) = 14%nat
     /\ forallb isdigit (chars (clean_cnpj s)) = true
     /\ chars (clean_cnpj s)
        = (let d := slice_to 14 (List.filter isdigit (chars s)) in
           repeat "0"%char (14 - length d) ++ d))
  /\ (forall s,
        Forall (fun c => (code c < 128)%N) (chars s) ->
        is_cnpj14 (clean_cnpj s) = true)
  /\ (forall s, is_cnpj14 s = true -> clean_cnpj s = s)
  /\ (forall float_str root fb,
        exists dados,
          parse float_str (Document root) fb = (true, Some dados, None)
          /\ dados !! "cnpj_fundo"
             = Some (VStr (str_or (texto_extraido root "NR_CNPJ_FUNDO")
                             fb))).
Proof.
  split; [|split; [|split]].
  - intros s. destruct (clean_cnpj_chars s) as (Hc & Hd & Hlen).
    cbv zeta in Hc. rewrite Hc. split; [|split; [|reflexivity]].
    + rewrite length_app, repeat_length. lia.
    + rewrite forallb_app, forallb_repeat by reflexivity.
      apply forallb_forall. intros c Hin.
      rewrite Forall_forall in Hd. apply Hd.
      now apply list_elem_of_In.
  - intros s Hs. destruct (clean_cnpj_chars s) as (Hc & Hd & Hlen).
    cbv zeta in Hc. unfold is_cnpj14. rewrite Hc.
    rewrite length_app, repeat_length.
    replace (14 - _ + _)%nat with 14%nat by lia. cbn [Nat.eqb andb].
    rewrite forallb_app, forallb_repeat by reflexivity.
    apply forallb_forall. intros c Hin. apply ascii_isdigit.
    + assert (Hin' : In c (chars s)).
      { unfold slice_to in Hin. apply In_firstn in Hin.
        now apply filter_In in Hin. }
      rewrite Forall_forall in Hs. apply Hs. now apply list_elem_of_In.
    + rewrite Forall_forall in Hd. apply Hd. now apply list_elem_of_In.
  - intros s H. unfold is_cnpj14 in H. apply andb_prop in H.
    destruct H as [Hlen Hdig]. apply Nat.eqb_eq in Hlen.
    unfold clean_cnpj.
    assert (Hall : forallb isdigit (chars s) = true).
    { apply forallb_forall. intros c Hin.
      rewrite forallb_forall in Hdig. unfold isdigit.
      now rewrite (Hdig c Hin). }
    rewrite (filter_all _ _ Hall). unfold slice_to.
    rewrite firstn_all2 by lia.
    rewrite zfill_digits.
    + rewrite Hlen. cbn [Nat.sub repeat app]. apply str_chars.
    + apply Forall_forall. intros c Hin.
      rewrite forallb_forall in Hall. apply Hall. now apply list_elem_of_In.
  - exact parse_cnpj_fundo.
Qed.

Lemma clean_cnpj_14_digits_witness :
  is_cnpj14 (clean_cnpj "51.199.121/0001-45") = true
  /\ clean_cnpj "51199121000145" = "51199121000145".
Proof.
  split.
  - apply (proj1 (proj2 clean_cnpj_14_digits)).
    repeat constructor.
  - apply (proj1 (proj2 (proj2 clean_cnpj_14_digits))).
    vm_compute. reflexivity.
Defined.

(** C9 as stated fails: the snapshot carries the identifier as the filing
    writes it. *)
Lemma cnpj_fundo_not_normalised :
  ~ (forall float_str root fb,
       exists s,
         campo (parse float_str (Document root) fb) "cnpj_fundo"
         = Some (VStr s)
         /\ is_cnpj14 s = true).
Proof.
  intros H.
  destruct (H (fun _ => "")
              (filing "51.199.121/0001-45" "1,00" "0,00" "0,00") "")
    as (s & Hs & H14).
  vm_compute in Hs. injection Hs as <-.
  vm_compute in H14. discriminate H14.
Qed.

(** C4, the failing case. The clamp [min(npl_percent / 100.0, 1.0)] lets a
    percentage that is not a number through: when the acquired receivables
    and the delinquency are both infinite (the text "inf", or a number too
    long for a float) the NPL decimal is not a number, hence not at most
    1.0. *)
Theorem npl_decimal_not_clamped_when_infinite :
  forall float_str fb,
    campo (parse float_str (Document (filing "1" "inf" "inf" "0,00")) fb)
      "indice_npl_decimal" = Some (VFloat nan)
    /\ leb nan one = false.
Proof. intros. split; vm_compute; reflexivity. Qed.

(** The NPL indices of every filing follow the formulas of the
    specification, and the decimal is at most 1.0 unless it is not a
    number. *)
Lemma npl_indices float_str root fb :
  exists dados cred dicred aquis,
    parse float_str (Document root) fb = (true, Some dados, None)
    /\ buscar_valor_xml root "CRED_EXISTE/VL_CRED_EXISTE_INAD" = VFloat cred
    /\ buscar_valor_xml root "DICRED/VL_DICRED_EXISTE_INAD" = VFloat dicred
    /\ buscar_valor_xml root "CRED_EXISTE/VL_SOM_DICRED_AQUIS" = VFloat aquis
    /\ let total := max (or_zero cred) (or_zero dicred) in
       dados !! "indice_npl_percentual"
       = Some (VFloat (nplPercentage total (or_zero aquis)))
       /\ dados !! "indice_npl_decimal"
          = Some (VFloat (nplDecimal total (or_zero aquis)))
       /\ (is_nan (nplDecimal total (or_zero aquis)) = true
           \/ leb (nplDecimal total (or_zero aquis)) one = true).
Proof.
  destruct (extrair_spec float_str root fb)
    as (dados & cred & dicred & aquis & Hc & Hd & Ha & Hex & _ & _
        & Hp & Hdec & _).
  exists dados, cred, dicred, aquis.
  split; [unfold parse; rewrite Hex; reflexivity|].
  split; [exact Hc|]. split; [exact Hd|]. split; [exact Ha|].
  cbv zeta. split; [exact Hp|]. split; [exact Hdec|].
  unfold nplDecimal.
  destruct (gtb (or_zero aquis) zero && gtb _ zero);
    [apply min_one_le | right; reflexivity].
Qed.

End CnpjFundo.

(* ===================================================================== *)
(** ** Normalisation of numeric columns *)
(* ===================================================================== *)

Section NumericColumns.
Import PyStr Py PyFloat XmlParser Pandas DataCleaner ReferenceTables.
Variable astype_str : value -> string.
Variable to_numeric_strings : list string -> column.

Lemma convert_column_keeps_floats replace_dash df col name v :
  columns df !! name = Some (Float64 v) ->
  columns (convert_column astype_str to_numeric_strings replace_dash df col)
    !! name = Some (Float64 v).
Proof.
  intros H. unfold convert_column.
  destruct (decide (col = name)) as [->|Hne].
  - rewrite H. cbn [is_numeric_dtype to_numeric set_column columns].
    apply lookup_insert_eq.
  - destruct (columns df !! col) as [c|]; [|exact H].
    destruct (is_numeric_dtype c); cbn [set_column columns];
      rewrite lookup_insert_ne by exact Hne; exact H.
Qed.

Lemma convert_column_index replace_dash df col :
  index (convert_column astype_str to_numeric_strings replace_dash df col)
  = index df.
Proof.
  unfold convert_column. destruct (columns df !! col) as [c|]; [|reflexivity].
  destruct (is_numeric_dtype c); reflexivity.
Qed.

Lemma convert_numeric_columns_float cols : forall replace_dash df name v,
  columns df !! name = Some (Float64 v) ->
  columns (convert_numeric_columns astype_str to_numeric_strings
             df cols replace_dash) !! name = Some (Float64 v)
  /\ index (convert_numeric_columns astype_str to_numeric_strings
              df cols replace_dash) = index df.
Proof.
  unfold convert_numeric_columns.
  induction cols as [|col cols IH]; intros replace_dash df name v H;
    cbn [fold_left]; [split; [exact H | reflexivity]|].
  destruct (IH replace_dash _ name v
              (convert_column_keeps_floats replace_dash df col name v H))
    as [H1 H2].
  split; [exact H1|]. rewrite H2. apply convert_column_index.
Qed.

End NumericColumns.

Section NumericColumnsClaim.
Import PyStr Py PyFloat XmlParser Pandas DataCleaner ReferenceTables.

(** C2. Whatever pandas does with text, a column that is already of machine
    floats comes out of [convert_numeric_columns] with the same values, in
    the same rows, with or without the dash replacement and whether or not
    it is among the columns to convert; so 3.15e-10 stays 3.15e-10, whereas
    the text conversion of the parser would read it as 3.15e-8. *)
Theorem convert_numeric_columns_keeps_floats :
  (forall astype_str to_numeric_strings df cols replace_dash name v,
     columns df !! name = Some (Float64 v) ->
     columns (convert_numeric_columns astype_str to_numeric_strings
                df cols replace_dash) !! name = Some (Float64 v)
     /\ index (convert_numeric_columns astype_str to_numeric_strings
                 df cols replace_dash) = index df)
  /\ converter_valor (Some "3.15e-10") <> Ok float_3_15e_10.
Proof.
  split.
  - intros. now apply convert_numeric_columns_float.
  - vm_compute. discriminate.
Qed.

Lemma convert_numeric_columns_keeps_floats_witness :
  columns (convert_numeric_columns (fun _ => "") (fun _ => Object [])
             {| index := [VInt 0];
                columns := {[ "CNPJ_FUNDO" := Object [VStr "51114682000102"];
                              "INDICE_NPL_DECIMAL"
                                := Float64 [float_3_15e_10] ]} |}
             ["INDICE_NPL_DECIMAL"; "CNPJ_FUNDO"] true)
    !! "INDICE_NPL_DECIMAL" = Some (Float64 [float_3_15e_10]).
Proof.
  apply (proj1 convert_numeric_columns_keeps_floats).
  vm_compute. reflexivity.
Defined.

End NumericColumnsClaim.

(* ===================================================================== *)
(** ** The diff report *)
(* ===================================================================== *)

Section DiffReport.
Import PyStr Py PyFloat XmlParser Pandas DiffGenerator ReferenceTables.

Lemma common_labels_In a b x :
  In x (common_labels a b) <-> In x a /\ In x b.
Proof.
  unfold common_labels.
  rewrite <- list_elem_of_In, elem_of_remove_dups, list_elem_of_In.
  rewrite filter_In, bool_decide_eq_true, list_elem_of_In. reflexivity.
Qed.

Lemma common_cols_In a b x :
  In x (common_cols a b) <-> In x a /\ In x b.
Proof.
  unfold common_cols.
  rewrite <- list_elem_of_In, elem_of_remove_dups, list_elem_of_In.
  rewrite filter_In, bool_decide_eq_true, list_elem_of_In. reflexivity.
Qed.

Lemma numeric_cols_In df col :
  In col (numeric_cols df) <-> numeric_in df col.
Proof.
  unfold numeric_cols, numeric_in. rewrite in_map_iff. split.
  - intros ([k c] & Hk & Hin). cbn [fst] in Hk. subst k.
    apply filter_In in Hin. destruct Hin as [Hin Hnum].
    apply list_elem_of_In, elem_of_map_to_list in Hin.
    exists c. split; assumption.
  - intros (c & Hc & Hnum). exists (col, c). split; [reflexivity|].
    apply filter_In. split; [|exact Hnum].
    now apply list_elem_of_In, elem_of_map_to_list.
Qed.

(** The body of the loops emits the record of the delta, when there is a
    delta and it is not zero. *)
Lemma diff_cell_some df_v1 df_v2 cnpj col r :
  diff_cell df_v1 df_v2 cnpj col = Ok (Some r) <->
  CNPJ_FUNDO r = cnpj /\ COLUNA r = col
  /\ exists v1 v2,
       loc df_v1 cnpj col = Ok v1 /\ loc df_v2 cnpj col = Ok v2
       /\ delta v1 v2 = Some (DIFERENCA r)
       /\ num_nonzero (DIFERENCA r) = true.
Proof.
  unfold diff_cell, delta. split.
  - destruct (loc df_v1 cnpj col) as [v1|e1]; cbn [bind]; [|discriminate].
    destruct (loc df_v2 cnpj col) as [v2|e2]; cbn [bind]; [|discriminate].
    destruct (isna v1) eqn:E1, (isna v2) eqn:E2; cbn [andb];
      try discriminate;
      match goal with
      | |- context [num_nonzero ?d] =>
          destruct (num_nonzero d) eqn:Hnz; [|discriminate]
      end;
      intros H; injection H as <-; cbn [CNPJ_FUNDO COLUNA DIFERENCA];
      (split; [reflexivity|]); (split; [reflexivity|]);
      exists v1, v2; rewrite E1, E2; auto.
  - intros (Hid & Hcol & v1 & v2 & H1 & H2 & Hd & Hnz).
    rewrite H1, H2. cbn [bind]. destruct r as [id c d].
    cbn [CNPJ_FUNDO COLUNA DIFERENCA] in *. subst id c.
    destruct (isna v1), (isna v2); cbn [andb]; try discriminate Hd;
      injection Hd as <-; rewrite Hnz; reflexivity.
Qed.

Lemma diff_cell_ok df_v1 df_v2 cnpj col v1 v2 :
  loc df_v1 cnpj col = Ok v1 -> loc df_v2 cnpj col = Ok v2 ->
  exists r, diff_cell df_v1 df_v2 cnpj col = Ok r.
Proof.
  intros H1 H2. unfold diff_cell. rewrite H1, H2. cbn [bind].
  destruct (isna v1 && isna v2); [eauto|].
  match goal with
  | |- context [num_nonzero ?d] => destruct (num_nonzero d)
  end; eauto.
Qed.

Lemma collect_In df_v1 df_v2 pairs : forall recs,
  collect df_v1 df_v2 pairs = Ok recs ->
  forall r, In r recs <->
            In (CNPJ_FUNDO r, COLUNA r) pairs
            /\ diff_cell df_v1 df_v2 (CNPJ_FUNDO r) (COLUNA r) = Ok (Some r).
Proof.
  induction pairs as [|[cnpj col] rest IH]; intros recs H r; cbn [collect] in H.
  - injection H as <-. cbn [In]. tauto.
  - destruct (diff_cell df_v1 df_v2 cnpj col) as [o|e] eqn:Hc;
      cbn [bind] in H; [|discriminate].
    destruct (collect df_v1 df_v2 rest) as [rs|e] eqn:Hr;
      cbn [bind] in H; [|discriminate].
    injection H as <-. specialize (IH rs eq_refl r). cbn [In].
    destruct o as [x|].
    + cbn [In]. rewrite IH. split.
      * intros [->|[Hin Hd]].
        -- pose proof (proj1 (diff_cell_some _ _ _ _ _) Hc) as (<- & <- & _).
           split; [now left | exact Hc].
        -- split; [now right | exact Hd].
      * intros [[Heq|Hin] Hd].
        -- injection Heq as E1 E2. rewrite <- E1, <- E2, Hc in Hd.
           injection Hd as ->. now left.
        -- right. split; assumption.
    + rewrite IH. split.
      * intros [Hin Hd]. split; [now right | exact Hd].
      * intros [[Heq|Hin] Hd]; [|split; assumption].
        injection Heq as E1 E2. rewrite <- E1, <- E2, Hc in Hd.
        discriminate Hd.
Qed.

Lemma collect_ok df_v1 df_v2 pairs :
  (forall cnpj col, In (cnpj, col) pairs ->
     exists r, diff_cell df_v1 df_v2 cnpj col = Ok r) ->
  exists recs, collect df_v1 df_v2 pairs = Ok recs.
Proof.
  induction pairs as [|[cnpj col] rest IH]; intros H; cbn [collect];
    [eauto|].
  destruct (H cnpj col (or_introl eq_refl)) as [r ->]. cbn [bind].
  destruct IH as [rs ->]; [|cbn [bind]; eauto].
  intros c k Hin. apply H. now right.
Qed.

Lemma positions_from_absent idx : forall n label,
  ~ In label idx -> positions_from n idx label = [].
Proof.
  induction idx as [|l r IH]; intros n label H; cbn [positions_from];
    [reflexivity|].
  destruct (decide (l = label)) as [->|_]; [exfalso; apply H; now left|].
  apply IH. intros Hin. apply H. now right.
Qed.

Lemma positions_from_unique idx : forall n label,
  NoDup idx -> In label idx ->
  exists k, positions_from n idx label = [n + k]%nat
            /\ (k < length idx)%nat.
Proof.
  induction idx as [|l r IH]; intros n label Hnd Hin; [destruct Hin|].
  apply NoDup_cons in Hnd. destruct Hnd as [Hl Hr].
  cbn [positions_from]. destruct (decide (l = label)) as [->|Hne].
  - exists 0%nat. rewrite positions_from_absent.
    + split; [now rewrite Nat.add_0_r | cbn; lia].
    + intros H. apply Hl. now apply list_elem_of_In.
  - destruct Hin as [Heq|Hin]; [contradiction|].
    destruct (IH (S n) label Hr Hin) as (k & Hk & Hlt).
    exists (S k). split; [rewrite Hk; f_equal; lia | cbn; lia].
Qed.

(** In a keyed table every label of the index and every numeric column
    give a scalar. *)
Lemma loc_keyed df label col :
  keyed df -> In label (index df) -> numeric_in df col ->
  exists v, loc df label col = Ok v.
Proof.
  intros [Hnd Hlen] Hin (c & Hc & Hnum). unfold loc. rewrite Hc.
  unfold positions.
  destruct (positions_from_unique (index df) 0 label Hnd Hin)
    as (k & -> & Hk).
  specialize (Hlen col c Hc). cbn [Nat.add].
  destruct c as [v|v|v]; [| |discriminate Hnum]; cbn [cell column_length] in *.
  - destruct (nth_error v k) as [x|] eqn:E; [cbn; eauto|].
    apply nth_error_None in E. lia.
  - destruct (nth_error v k) as [x|] eqn:E; [cbn; eauto|].
    apply nth_error_None in E. lia.
Qed.

Lemma generate_diff_report_In df_v1 df_v2 recs :
  generate_diff_report df_v1 df_v2 = Ok recs ->
  let t1 := set_index df_v1 "CNPJ_FUNDO" in
  let t2 := set_index df_v2 "CNPJ_FUNDO" in
  forall r,
    In r recs <->
    (In (CNPJ_FUNDO r) (index t1) /\ In (CNPJ_FUNDO r) (index t2))
    /\ (numeric_in t1 (COLUNA r) /\ numeric_in t2 (COLUNA r))
    /\ exists v1 v2,
         loc t1 (CNPJ_FUNDO r) (COLUNA r) = Ok v1
         /\ loc t2 (CNPJ_FUNDO r) (COLUNA r) = Ok v2
         /\ delta v1 v2 = Some (DIFERENCA r)
         /\ num_nonzero (DIFERENCA r) = true.
Proof.
  intros H t1 t2 r. unfold generate_diff_report in H. fold t1 t2 in H.
  rewrite <- common_labels_In, <- !numeric_cols_In, <- common_cols_In.
  destruct (common_labels (index t1) (index t2)) as [|l ls] eqn:Hl.
  { injection H as <-. cbn [In]. tauto. }
  destruct (common_cols (numeric_cols t1) (numeric_cols t2)) as [|c cs] eqn:Hc.
  { injection H as <-. cbn [In]. tauto. }
  rewrite (collect_In _ _ _ _ H r), in_prod_iff, diff_cell_some.
  split.
  - intros ((Ha & Hb) & _ & _ & Hv). auto.
  - intros (Ha & Hb & Hv). auto.
Qed.

Lemma generate_diff_report_keyed df_v1 df_v2 :
  keyed (set_index df_v1 "CNPJ_FUNDO") ->
  keyed (set_index df_v2 "CNPJ_FUNDO") ->
  exists recs, generate_diff_report df_v1 df_v2 = Ok recs.
Proof.
  intros K1 K2. unfold generate_diff_report.
  set (t1 := set_index df_v1 "CNPJ_FUNDO") in *.
  set (t2 := set_index df_v2 "CNPJ_FUNDO") in *.
  destruct (common_labels (index t1) (index t2)) as [|l ls] eqn:Hl;
    [eauto|].
  destruct (common_cols (numeric_cols t1) (numeric_cols t2)) as [|c cs] eqn:Hc;
    [eauto|].
  apply collect_ok. intros cnpj col Hin. apply in_prod_iff in Hin.
  destruct Hin as [Hid Hcol]. rewrite <- Hl in Hid. rewrite <- Hc in Hcol.
  apply common_labels_In in Hid. apply common_cols_In in Hcol.
  destruct Hid as [Hi1 Hi2]. destruct Hcol as [Hc1 Hc2].
  apply numeric_cols_In in Hc1. apply numeric_cols_In in Hc2.
  destruct (loc_keyed t1 cnpj col K1 Hi1 Hc1) as [v1 H1].
  destruct (loc_keyed t2 cnpj col K2 Hi2 Hc2) as [v2 H2].
  exact (diff_cell_ok _ _ _ _ _ _ H1 H2).
Qed.

Lemma positions_from_In idx : forall n label,
  In label idx -> positions_from n idx label <> [].
Proof.
  induction idx as [|l r IH]; intros n label Hin; [destruct Hin|].
  cbn [positions_from]. destruct (decide (l = label)) as [_|Hne];
    [discriminate|].
  destruct Hin as [Heq|Hin]; [contradiction|]. now apply IH.
Qed.

Lemma positions_from_lt idx : forall n label i,
  In i (positions_from n idx label) -> (i < n + length idx)%nat.
Proof.
  induction idx as [|l r IH]; intros n label i Hin; [destruct Hin|].
  cbn [positions_from] in Hin. cbn [length].
  destruct (decide (l = label)) as [_|_].
  - destruct Hin as [<-|Hin]; [lia|]. apply IH in Hin. lia.
  - apply IH in Hin. lia.
Qed.

(** In a table whose columns are as long as its index, reading a numeric
    column at a label of the index gives a scalar when one row carries the
    label, and [ValueError] when several do. *)
Lemma loc_aligned df label col :
  (forall k c, columns df !! k = Some c ->
               column_length c = length (index df)) ->
  In label (index df) -> numeric_in df col ->
  ((exists v, loc df label col = Ok v)
   /\ length (positions (index df) label) = 1%nat)
  \/ (loc df label col = Raise ValueError
      /\ (2 <= length (positions (index df) label))%nat).
Proof.
  intros Hlen Hin (c & Hc & Hnum). unfold loc. rewrite Hc.
  pose proof (positions_from_In (index df) 0 label Hin) as Hne.
  pose proof (positions_from_lt (index df) 0 label) as Hlt.
  unfold positions in *.
  destruct (positions_from 0 (index df) label) as [|i [|j rest]];
    [congruence| |right; split; [reflexivity|cbn [length]; lia]].
  left. split; [|reflexivity].
  specialize (Hlt i (or_introl eq_refl)). cbn [Nat.add] in Hlt.
  specialize (Hlen col c Hc).
  destruct c as [v|v|v]; [| |discriminate Hnum]; cbn [cell column_length] in *.
  - destruct (nth_error v i) as [x|] eqn:E; [cbn; eauto|].
    apply nth_error_None in E. lia.
  - destruct (nth_error v i) as [x|] eqn:E; [cbn; eauto|].
    apply nth_error_None in E. lia.
Qed.

Lemma diff_cell_aligned t1 t2 cnpj col :
  (forall k c, columns t1 !! k = Some c ->
               column_length c = length (index t1)) ->
  (forall k c, columns t2 !! k = Some c ->
               column_length c = length (index t2)) ->
  In cnpj (index t1) -> In cnpj (index t2) ->
  numeric_in t1 col -> numeric_in t2 col ->
  ((exists r, diff_cell t1 t2 cnpj col = Ok r)
   /\ length (positions (index t1) cnpj) = 1%nat
   /\ length (positions (index t2) cnpj) = 1%nat)
  \/ diff_cell t1 t2 cnpj col = Raise ValueError.
Proof.
  intros L1 L2 A1 A2 B1 B2.
  destruct (loc_aligned t1 cnpj col L1 A1 B1) as [[[v1 P1] N1]|[P1 _]];
    [|right; unfold diff_cell; now rewrite P1].
  destruct (loc_aligned t2 cnpj col L2 A2 B2) as [[[v2 P2] N2]|[P2 _]];
    [|right; unfold diff_cell; now rewrite P1, P2].
  left. split; [|split; assumption].
  exact (diff_cell_ok t1 t2 cnpj col v1 v2 P1 P2).
Qed.

(** The loops stop at the first cell that raises. *)
Lemma collect_raises df_v1 df_v2 e pairs :
  (forall cnpj col, In (cnpj, col) pairs ->
     (exists r, diff_cell df_v1 df_v2 cnpj col = Ok r)
     \/ diff_cell df_v1 df_v2 cnpj col = Raise e) ->
  (exists cnpj col, In (cnpj, col) pairs
                    /\ diff_cell df_v1 df_v2 cnpj col = Raise e) ->
  collect df_v1 df_v2 pairs = Raise e.
Proof.
  induction pairs as [|[cnpj col] rest IH]; intros Hall (c & k & Hin & Hr);
    [destruct Hin|].
  cbn [collect].
  destruct (Hall cnpj col (or_introl eq_refl)) as [[r Hok]|Hbad];
    [|now rewrite Hbad].
  rewrite Hok. cbn [bind].
  rewrite IH; [reflexivity| |].
  - intros c' k' Hin'. apply Hall. now right.
  - destruct Hin as [Heq|Hin]; [|eauto].
    injection Heq as <- <-. congruence.
Qed.

(** With columns as long as the index, the report is produced when every
    identifier carried by both tables is carried by one row of each, as
    far as a field is numeric-typed in both. *)
Lemma generate_diff_report_unrepeated df_v1 df_v2 :
  let t1 := set_index df_v1 "CNPJ_FUNDO" in
  let t2 := set_index df_v2 "CNPJ_FUNDO" in
  (forall k c, columns t1 !! k = Some c ->
               column_length c = length (index t1)) ->
  (forall k c, columns t2 !! k = Some c ->
               column_length c = length (index t2)) ->
  (forall label col,
     In label (index t1) -> In label (index t2) ->
     numeric_in t1 col -> numeric_in t2 col ->
     length (positions (index t1) label) = 1%nat
     /\ length (positions (index t2) label) = 1%nat) ->
  exists recs, generate_diff_report df_v1 df_v2 = Ok recs.
Proof.
  intros t1 t2 L1 L2 Hone. unfold generate_diff_report. fold t1 t2.
  destruct (common_labels (index t1) (index t2)) as [|l ls] eqn:Hl;
    [eauto|].
  destruct (common_cols (numeric_cols t1) (numeric_cols t2)) as [|c cs] eqn:Hc;
    [eauto|].
  apply collect_ok. intros cnpj col Hin. apply in_prod_iff in Hin.
  destruct Hin as [Hid Hcol]. rewrite <- Hl in Hid. rewrite <- Hc in Hcol.
  apply common_labels_In in Hid. apply common_cols_In in Hcol.
  destruct Hid as [Hi1 Hi2]. destruct Hcol as [Hc1 Hc2].
  apply numeric_cols_In in Hc1. apply numeric_cols_In in Hc2.
  destruct (Hone cnpj col Hi1 Hi2 Hc1 Hc2) as [N1 N2].
  destruct (loc_aligned t1 cnpj col L1 Hi1 Hc1) as [[[v1 P1] _]|[_ M1]];
    [|lia].
  destruct (loc_aligned t2 cnpj col L2 Hi2 Hc2) as [[[v2 P2] _]|[_ M2]];
    [|lia].
  exact (diff_cell_ok _ _ _ _ _ _ P1 P2).
Qed.

End DiffReport.

Section DiffReportClaim.
Import PyStr Py PyFloat XmlParser Pandas DiffGenerator ReferenceTables.

Lemma tabela_keyed id x :
  keyed (set_index (tabela [(id, x)]) "CNPJ_FUNDO").
Proof.
  assert (E : set_index (tabela [(id, x)]) "CNPJ_FUNDO"
              = {| index := [VStr id];
                   columns := {[ "VALOR" := Float64 [x] ]} |}).
  { unfold set_index, tabela. cbn [columns].
    rewrite lookup_insert_eq. cbn [cells map fst].
    f_equal; rewrite delete_insert_eq; now rewrite delete_singleton_ne. }
  rewrite E. split; cbn [index columns].
  - apply NoDup_singleton.
  - intros col c H. apply lookup_singleton_Some in H.
    destruct H as [_ <-]. reflexivity.
Qed.

Lemma set_index_tabela rows :
  set_index (tabela rows) "CNPJ_FUNDO"
  = {| index := map (fun r => VStr (fst r)) rows;
       columns := {[ "VALOR" := Float64 (map snd rows) ]} |}.
Proof.
  unfold set_index, tabela. cbn [columns].
  rewrite lookup_insert_eq. cbn [cells].
  f_equal; rewrite delete_insert_eq; now rewrite delete_singleton_ne.
Qed.

Lemma tabela_aligned rows k c :
  columns (set_index (tabela rows) "CNPJ_FUNDO") !! k = Some c ->
  column_length c = length (index (set_index (tabela rows) "CNPJ_FUNDO")).
Proof.
  rewrite set_index_tabela. cbn [columns index]. intros H.
  apply lookup_singleton_Some in H. destruct H as [_ <-].
  cbn [column_length]. now rewrite !length_map.
Qed.

Lemma tabela_numeric rows :
  numeric_in (set_index (tabela rows) "CNPJ_FUNDO") "VALOR".
Proof.
  rewrite set_index_tabela. exists (Float64 (map snd rows)).
  split; [apply lookup_singleton_eq|reflexivity].
Qed.

(** C8. The records of a report are exactly those of an identifier carried
    by both tables and a field numeric-typed in both whose delta exists and
    is not zero, the delta being [v2] when only [v1] is missing, [-v1] when
    only [v2] is missing, [v2 - v1] when neither is, and nothing when both
    are. The report is produced for every pair of tables keyed by their
    identifiers and, columns being as long as the index, whenever no
    identifier carried by both tables is carried by several rows of one of
    them; when one is, and a field is numeric-typed in both tables, the call
    raises [ValueError] and there is no report. The examples of the
    specification evaluate as stated, a missing value being a NaN cell; a
    table that does not carry the identifier, or the field, gives no
    record. *)
Theorem generate_diff_report_records :
  (forall df_v1 df_v2 recs,
     generate_diff_report df_v1 df_v2 = Ok recs ->
     forall r,
       In r recs <->
       (In (CNPJ_FUNDO r) (index (set_index df_v1 "CNPJ_FUNDO"))
        /\ In (CNPJ_FUNDO r) (index (set_index df_v2 "CNPJ_FUNDO")))
       /\ (numeric_in (set_index df_v1 "CNPJ_FUNDO") (COLUNA r)
           /\ numeric_in (set_index df_v2 "CNPJ_FUNDO") (COLUNA r))
       /\ exists v1 v2,
            loc (set_index df_v1 "CNPJ_FUNDO") (CNPJ_FUNDO r) (COLUNA r)
            = Ok v1
            /\ loc (set_index df_v2 "CNPJ_FUNDO") (CNPJ_FUNDO r) (COLUNA r)
               = Ok v2
            /\ delta v1 v2 = Some (DIFERENCA r)
            /\ num_nonzero (DIFERENCA r) = true)
  /\ (forall df_v1 df_v2,
        keyed (set_index df_v1 "CNPJ_FUNDO") ->
        keyed (set_index df_v2 "CNPJ_FUNDO") ->
        exists recs, generate_diff_report df_v1 df_v2 = Ok recs)
  /\ (forall df_v1 df_v2,
        let t1 := set_index df_v1 "CNPJ_FUNDO" in
        let t2 := set_index df_v2 "CNPJ_FUNDO" in
        (forall k c, columns t1 !! k = Some c ->
                     column_length c = length (index t1)) ->
        (forall k c, columns t2 !! k = Some c ->
                     column_length c = length (index t2)) ->
        ((forall label col,
            In label (index t1) -> In label (index t2) ->
            numeric_in t1 col -> numeric_in t2 col ->
            length (positions (index t1) label) = 1%nat
            /\ length (positions (index t2) label) = 1%nat) ->
         exists recs, generate_diff_report df_v1 df_v2 = Ok recs)
        /\ (forall label col,
              In label (index t1) -> In label (index t2) ->
              numeric_in t1 col -> numeric_in t2 col ->
              (2 <= length (positions (index t1) label)
               \/ 2 <= length (positions (index t2) label))%nat ->
              generate_diff_report df_v1 df_v2 = Raise ValueError))
  /\ generate_diff_report (tabela [("A", of_Z 10)]) (tabela [("A", of_Z 12)])
     = Ok [{| CNPJ_FUNDO := VStr "A"; COLUNA := "VALOR";
              DIFERENCA := NFloat (of_Z 2) |}]
  /\ generate_diff_report (tabela [("A", of_Z 10)]) (tabela [("A", nan)])
     = Ok [{| CNPJ_FUNDO := VStr "A"; COLUNA := "VALOR";
              DIFERENCA := NFloat (of_Z (-10)) |}]
  /\ generate_diff_report (tabela [("A", nan)]) (tabela [("A", of_Z 5)])
     = Ok [{| CNPJ_FUNDO := VStr "A"; COLUNA := "VALOR";
              DIFERENCA := NFloat (of_Z 5) |}]
  /\ generate_diff_report (tabela [("A", nan)]) (tabela [("A", nan)]) = Ok []
  /\ generate_diff_report (tabela [("A", of_Z 10)]) (tabela [("A", of_Z 10)])
     = Ok []
  /\ generate_diff_report (tabela [("A", of_Z 10)]) (tabela [("B", of_Z 12)])
     = Ok []
  /\ generate_diff_report (tabela [("A", of_Z 10)]) (tabela []) = Ok []
  /\ generate_diff_report (tabela [("A", of_Z 10)]) (sem_valor ["A"]) = Ok [].
Proof.
  split; [exact generate_diff_report_In|].
  split; [exact generate_diff_report_keyed|].
  split; [|repeat split; vm_compute; reflexivity].
  intros df_v1 df_v2 t1 t2 L1 L2. split.
  { intros Hone.
    exact (generate_diff_report_unrepeated df_v1 df_v2 L1 L2 Hone). }
  intros label col Hi1 Hi2 Hc1 Hc2 Hdup. unfold generate_diff_report.
  fold t1 t2.
  assert (Hl : In label (common_labels (index t1) (index t2)))
    by now apply common_labels_In.
  assert (Hc : In col (common_cols (numeric_cols t1) (numeric_cols t2)))
    by (apply common_cols_In; split; now apply numeric_cols_In).
  destruct (common_labels (index t1) (index t2)) as [|l ls] eqn:El;
    [destruct Hl|].
  destruct (common_cols (numeric_cols t1) (numeric_cols t2)) as [|c cs] eqn:Ec;
    [destruct Hc|].
  rewrite <- El, <- Ec in *.
  apply collect_raises.
  - intros cnpj k Hin. apply in_prod_iff in Hin. destruct Hin as [Ha Hb].
    apply common_labels_In in Ha. apply common_cols_In in Hb.
    destruct Ha as [A1 A2]. destruct Hb as [B1 B2].
    apply numeric_cols_In in B1. apply numeric_cols_In in B2.
    destruct (diff_cell_aligned t1 t2 cnpj k L1 L2 A1 A2 B1 B2)
      as [[H _]|H]; [now left|now right].
  - exists label, col. split; [now apply in_prod_iff|].
    destruct (diff_cell_aligned t1 t2 label col L1 L2 Hi1 Hi2 Hc1 Hc2)
      as [(_ & N1 & N2)|H]; [lia|exact H].
Qed.

Lemma generate_diff_report_records_witness :
  (In (VStr "A")
      (index (set_index (tabela [("A", of_Z 10)]) "CNPJ_FUNDO"))
   /\ numeric_in (set_index (tabela [("A", of_Z 12)]) "CNPJ_FUNDO") "VALOR")
  /\ (exists recs,
        generate_diff_report (tabela [("A", of_Z 10)])
          (tabela [("A", of_Z 12)]) = Ok recs)
  /\ (exists recs,
        generate_diff_report
          (tabela [("A", of_Z 10); ("A", of_Z 20); ("B", of_Z 1)])
          (tabela [("B", of_Z 3)]) = Ok recs)
  /\ generate_diff_report
       (tabela [("A", of_Z 1); ("B", of_Z 2); ("A", of_Z 3)])
       (tabela [("A", of_Z 5)]) = Raise ValueError.
Proof.
  pose (r := {| CNPJ_FUNDO := VStr "A"; COLUNA := "VALOR";
                DIFERENCA := NFloat (of_Z 2) |}).
  pose proof (proj1 generate_diff_report_records
                (tabela [("A", of_Z 10)]) (tabela [("A", of_Z 12)]) [r]
                ltac:(vm_compute; reflexivity) r) as H.
  destruct (proj1 H (or_introl eq_refl)) as ((H1 & _) & (_ & H2) & _).
  split; [split; [exact H1 | exact H2]|].
  split.
  { apply (proj1 (proj2 generate_diff_report_records));
      apply tabela_keyed. }
  split.
  - apply (proj1 (proj1 (proj2 (proj2 generate_diff_report_records))
                    (tabela [("A", of_Z 10); ("A", of_Z 20); ("B", of_Z 1)])
                    (tabela [("B", of_Z 3)])
                    (tabela_aligned _) (tabela_aligned _))).
    intros label col _ Hin _ _. rewrite set_index_tabela in Hin.
    destruct Hin as [<-|[]]. rewrite !set_index_tabela.
    split; vm_compute; reflexivity.
  - apply (proj2 (proj1 (proj2 (proj2 generate_diff_report_records))
                    (tabela [("A", of_Z 1); ("B", of_Z 2); ("A", of_Z 3)])
                    (tabela [("A", of_Z 5)])
                    (tabela_aligned _) (tabela_aligned _))
             (VStr "A") "VALOR").
    + rewrite set_index_tabela. cbn. tauto.
    + rewrite set_index_tabela. cbn. tauto.
    + apply tabela_numeric.
    + apply tabela_numeric.
    + left. rewrite set_index_tabela. vm_compute. lia.
Defined.

(** A row written twice in the second table: both tables carry the
    identifier, the field is numeric-typed in both and neither value is
    missing, yet no record is emitted, since the call raises. The report
    is therefore not produced for every pair of tables. *)
Lemma generate_diff_report_repeated_row :
  (In (VStr "A") (index (set_index (tabela [("A", of_Z 10)]) "CNPJ_FUNDO"))
   /\ In (VStr "A")
         (index (set_index (tabela [("A", of_Z 12); ("A", of_Z 12)])
                   "CNPJ_FUNDO")))
  /\ (numeric_in (set_index (tabela [("A", of_Z 10)]) "CNPJ_FUNDO") "VALOR"
      /\ numeric_in (set_index (tabela [("A", of_Z 12); ("A", of_Z 12)])
                       "CNPJ_FUNDO") "VALOR")
  /\ generate_diff_report (tabela [("A", of_Z 10)])
       (tabela [("A", of_Z 12); ("A", of_Z 12)]) = Raise ValueError
  /\ ~ (forall df_v1 df_v2,
          exists recs, generate_diff_report df_v1 df_v2 = Ok recs).
Proof.
  assert (E : generate_diff_report (tabela [("A", of_Z 10)])
                (tabela [("A", of_Z 12); ("A", of_Z 12)])
              = Raise ValueError) by (vm_compute; reflexivity).
  split; [rewrite !set_index_tabela; cbn; tauto|].
  split; [split; apply tabela_numeric|].
  split; [exact E|].
  intros H.
  destruct (H (tabela [("A", of_Z 10)])
              (tabela [("A", of_Z 12); ("A", of_Z 12)])) as [recs Hr].
  rewrite E in Hr. discriminate Hr.
Qed.

End DiffReportClaim.

(* ===================================================================== *)
(** ** The retry policy of the session *)
(* ===================================================================== *)

Section RetryPolicy.
Import PyStr Py PyFloat ApiClient ReferenceRetry.

Lemma is_retry_retried r status ra :
  status ∈ status_forcelist r -> is_retry r status ra = true.
Proof.
  intros H. unfold is_retry. now rewrite (bool_decide_eq_true_2 _ H).
Qed.

Lemma is_retry_returned r status ra :
  returned_at_once r status ra -> is_retry r status ra = false.
Proof.
  intros [H1 H2]. unfold is_retry. rewrite (bool_decide_eq_false_2 _ H1).
  cbn [orb]. destruct H2 as [-> | H2].
  - now rewrite andb_false_r.
  - rewrite (bool_decide_eq_false_2 _ H2). now rewrite andb_false_r.
Qed.

(** The counters after one more failure, while the total allows it. *)
Lemma increment_some r a :
  (1 <= total r)%Z -> (total r <= connect r)%Z -> (total r <= read r)%Z ->
  exists r',
    increment r a = Some r'
    /\ total r' = (total r - 1)%Z
    /\ (total r' <= connect r')%Z /\ (total r' <= read r')%Z
    /\ status_forcelist r' = status_forcelist r
    /\ backoff_factor r' = backoff_factor r.
Proof.
  intros Ht Hc Hr. unfold increment, is_exhausted. cbn [total connect read].
  replace (total r - 1 <? 0)%Z with false by lia. cbn [orb].
  destruct a;
    match goal with
    | |- context [if ?b then None else _] => replace b with false by lia
    end;
    eexists; (split; [reflexivity|]);
    cbn [total connect read status_forcelist backoff_factor];
    repeat split; lia.
Qed.

Lemma increment_none r a : total r = 0%Z -> increment r a = None.
Proof. intros H. unfold increment, is_exhausted. cbn [total]. now rewrite H. Qed.

Lemma urlopen_retry fuel r t i s :
  retried r (t i) ->
  urlopen (S fuel) r t i s
  = match increment r (t i) with
    | None => {| result_of := Exhausted; attempts := S i; sleeps := s |}
    | Some r' =>
        urlopen fuel r' t (S i) (s ++ [pause r' (t i) (S i)])
    end.
Proof.
  intros H. cbn [urlopen]. destruct (t i) as [| |status ra]; try reflexivity.
  cbn [retried] in H. now rewrite (is_retry_retried r status ra H).
Qed.

Lemma urlopen_return fuel r t i s status ra :
  t i = Response status ra -> returned_at_once r status ra ->
  urlopen (S fuel) r t i s
  = {| result_of := Returned status; attempts := S i; sleeps := s |}.
Proof.
  intros Ht H. cbn [urlopen]. rewrite Ht.
  now rewrite (is_retry_returned r status ra H).
Qed.

(** After [k] retried failures, within the total, the next response that
    is not to be retried is returned: [k + 1] attempts. *)
Lemma urlopen_returns k : forall fuel r t i s status ra,
  (Z.of_nat k <= total r)%Z ->
  (total r <= connect r)%Z -> (total r <= read r)%Z ->
  (k < fuel)%nat ->
  (forall j, (j < k)%nat -> retried r (t (i + j)%nat)) ->
  t (i + k)%nat = Response status ra -> returned_at_once r status ra ->
  result_of (urlopen fuel r t i s) = Returned status
  /\ attempts (urlopen fuel r t i s) = S (i + k).
Proof.
  induction k as [|k IH]; intros fuel r t i s status ra Hk Hc Hr Hf Hj Ht Hret.
  - destruct fuel as [|fuel]; [lia|]. rewrite Nat.add_0_r in *.
    rewrite (urlopen_return fuel r t i s status ra Ht Hret). now split.
  - destruct fuel as [|fuel]; [lia|].
    pose proof (Hj 0%nat ltac:(lia)) as H0. rewrite Nat.add_0_r in H0.
    rewrite (urlopen_retry fuel r t i s H0).
    destruct (increment_some r (t i) ltac:(lia) Hc Hr)
      as (r' & -> & Ht' & Hc' & Hr' & Hfl & _).
    replace (S (i + S k)) with (S (S i + k)) by lia.
    apply (IH fuel r' t (S i) (s ++ [pause r' (t i) (S i)]) status ra);
      try assumption; try lia.
    + intros j Hlt. specialize (Hj (S j) ltac:(lia)).
      replace (S i + j)%nat with (i + S j)%nat by lia.
      destruct (t (i + S j)%nat); cbn [retried] in *; try exact I.
      now rewrite Hfl.
    + now replace (S i + k)%nat with (i + S k)%nat by lia.
    + destruct Hret as [H1 H2]. split; [now rewrite Hfl | exact H2].
Qed.

(** When every attempt fails in a way that is retried, the request gives up
    after [total + 1] attempts. *)
Lemma urlopen_exhausts n : forall fuel r t i s,
  total r = Z.of_nat n ->
  (total r <= connect r)%Z -> (total r <= read r)%Z ->
  (n < fuel)%nat ->
  (forall j, (j <= n)%nat -> retried r (t (i + j)%nat)) ->
  result_of (urlopen fuel r t i s) = Exhausted
  /\ attempts (urlopen fuel r t i s) = S (i + n).
Proof.
  induction n as [|n IH]; intros fuel r t i s Hn Hc Hr Hf Hj.
  - destruct fuel as [|fuel]; [lia|].
    pose proof (Hj 0%nat ltac:(lia)) as H0. rewrite Nat.add_0_r in *.
    rewrite (urlopen_retry fuel r t i s H0), (increment_none r _ Hn).
    now split.
  - destruct fuel as [|fuel]; [lia|].
    pose proof (Hj 0%nat ltac:(lia)) as H0. rewrite Nat.add_0_r in H0.
    rewrite (urlopen_retry fuel r t i s H0).
    destruct (increment_some r (t i) ltac:(lia) Hc Hr)
      as (r' & -> & Ht' & Hc' & Hr' & Hfl & _).
    replace (S (i + S n)) with (S (S i + n)) by lia.
    apply IH; try assumption; try lia.
    intros j Hlt. specialize (Hj (S j) ltac:(lia)).
    replace (S i + j)%nat with (i + S j)%nat by lia.
    destruct (t (i + S j)%nat); cbn [retried] in *; try exact I.
    now rewrite Hfl.
Qed.

(** No request makes more attempts than its fuel. *)
Lemma urlopen_attempts fuel : forall r t i s,
  (attempts (urlopen fuel r t i s) <= i + fuel)%nat
  /\ (fuel <> 0%nat -> (i < attempts (urlopen fuel r t i s))%nat).
Proof.
  induction fuel as [|fuel IH]; intros r t i s; [cbn; split; [lia|congruence]|].
  assert (Hstep : forall a,
    let q := match increment r a with
             | None => {| result_of := Exhausted; attempts := S i;
                          sleeps := s |}
             | Some r' =>
                 urlopen fuel r' t (S i) (s ++ [pause r' a (S i)])
             end in
    (attempts q <= i + S fuel)%nat /\ (i < attempts q)%nat).
  { intros a. cbv zeta. destruct (increment r a) as [r'|]; [|cbn; lia].
    destruct (IH r' t (S i) (s ++ [pause r' a (S i)])) as [H1 H2].
    split; [lia|]. destruct fuel; [cbn; lia|].
    specialize (H2 ltac:(congruence)). lia. }
  cbn [urlopen].
  destruct (t i) as [| |status ra] eqn:E.
  - split; [|intros _]; apply (Hstep ConnectError).
  - split; [|intros _]; apply (Hstep ReadError).
  - destruct (is_retry r status ra).
    + split; [|intros _]; apply (Hstep (Response status ra)).
    + cbn [attempts]. split; [lia | intros _; lia].
Qed.

End RetryPolicy.

Section RetryPolicyClaim.
Import PyStr Py PyFloat ApiClient ReferenceRetry.

(** C6, amended. A request of the session makes at least one and at most
    four attempts: the first and up to three retries. Connection failures,
    read failures and timeouts, and the statuses 429, 500, 502, 503 and 504
    are retried; after [k <= 3] such failures a response that is not to be
    retried is returned at once, at attempt [k + 1], and an error status
    among them then fails the call without a further attempt; four such
    failures in a row exhaust the retries. The backoff doubles: 0, 2 and 4
    seconds. So a transport that answers 503 three times and 200 the fourth
    time gives a success; one that answers 503 four times is the terminal
    error. *)
Theorem retry_policy :
  (forall t, (1 <= attempts (get session t) <= 4)%nat)
  /\ (forall t k status ra,
        (k <= 3)%nat ->
        (forall j, (j < k)%nat -> retried (max_retries session) (t j)) ->
        t k = Response status ra ->
        returned_at_once (max_retries session) status ra ->
        result_of (get session t) = Returned status
        /\ attempts (get session t) = S k
        /\ request_succeeds (get session t) = status_ok status)
  /\ (forall t,
        (forall j, (j <= 3)%nat -> retried (max_retries session) (t j)) ->
        result_of (get session t) = Exhausted
        /\ attempts (get session t) = 4%nat
        /\ request_succeeds (get session t) = false)
  /\ (forall a,
        retried (max_retries session) a <->
        a = ConnectError \/ a = ReadError
        \/ exists status ra,
             a = Response status ra
             /\ In status [429; 500; 502; 503; 504]%Z)
  /\ get session (fails_then_succeeds 3)
     = {| result_of := Returned 200; attempts := 4;
          sleeps := [Some 0; Some 2; Some 4]%Z |}
  /\ get session (fails_then_succeeds 4)
     = {| result_of := Exhausted; attempts := 4;
          sleeps := [Some 0; Some 2; Some 4]%Z |}.
Proof.
  split; [|split; [|split; [|split; [|split]]]].
  - intros t. unfold get.
    destruct (urlopen_attempts
                (Z.to_nat (total (max_retries session)) + 1)
                (max_retries session) t 0 []) as [H1 H2].
    change (Z.to_nat (total (max_retries session)) + 1)%nat with 4%nat in *.
    specialize (H2 ltac:(discriminate)). lia.
  - intros t k status ra Hk Hj Ht Hret. unfold get.
    destruct (urlopen_returns k
                (Z.to_nat (total (max_retries session)) + 1)
                (max_retries session) t 0 [] status ra) as [H1 H2];
      try assumption;
      try (change (total (max_retries session)) with 3%Z; cbn; lia).
    unfold request_succeeds. unfold get in *. rewrite H1, H2. auto.
  - intros t Hj. unfold get.
    destruct (urlopen_exhausts 3
                (Z.to_nat (total (max_retries session)) + 1)
                (max_retries session) t 0 []) as [H1 H2];
      try assumption; try reflexivity; try (cbn; lia).
    unfold request_succeeds. rewrite H1, H2. auto.
  - intros a. change (status_forcelist (max_retries session))
      with [429; 500; 502; 503; 504]%Z.
    destruct a as [| |status ra]; cbn [retried].
    + split; [auto | intros _; exact I].
    + split; [auto | intros _; exact I].
    + change (status_forcelist (max_retries session))
        with [429; 500; 502; 503; 504]%Z.
      rewrite list_elem_of_In. split.
      * intros H. right. right. exists status, ra. auto.
      * intros [H|[H|(s & r & H & Hin)]]; try discriminate H.
        injection H as -> ->. exact Hin.
  - vm_compute. reflexivity.
  - vm_compute. reflexivity.
Qed.

Lemma retry_policy_witness :
  result_of (get session (fails_then_succeeds 3)) = Returned 200
  /\ attempts (get session (fails_then_succeeds 3)) = 4%nat
  /\ request_succeeds (get session (fails_then_succeeds 3)) = true.
Proof.
  apply (proj1 (proj2 retry_policy) (fails_then_succeeds 3) 3%nat 200%Z false).
  - lia.
  - intros j Hj. destruct j as [|[|[|j]]]; [| | |lia];
      vm_compute; repeat constructor.
  - reflexivity.
  - split; [|now left]. vm_compute.
    intros H. repeat (apply elem_of_cons in H; destruct H as [H|H];
                      [discriminate H|]).
    now apply elem_of_nil in H.
Defined.

(** C6 as stated fails: with three retries the fourth attempt is still
    made, and its success is the result of the call. *)
Lemma fourth_attempt_is_made :
  request_succeeds (get session (fails_then_succeeds 3)) = true
  /\ attempts (get session (fails_then_succeeds 3)) = 4%nat
  /\ ~ (attempts (get session (fails_then_succeeds 3)) <= 3)%nat.
Proof.
  split; [vm_compute; reflexivity|]. split; [vm_compute; reflexivity|].
  vm_compute. lia.
Qed.

End RetryPolicyClaim.

(* ===================================================================== *)
(** ** The orchestrator *)
(* ===================================================================== *)

Section Service.
Import PyStr Py PyFloat XmlParser EtlService.

Variable World : Type.
Variable Docs : Type.
Variable buscar_documentos :
  string -> World -> result (retorno Docs) * World.
Variable filtrar_informe_mensal :
  Docs -> World -> result (retorno Docs) * World.
Variable selecionar_documento_mais_recente :
  Docs -> World -> result (retorno (gmap string value)) * World.
Variable baixar_xml :
  value -> World -> result (retorno xml_content) * World.
Variable sleep : Z -> World -> World.
Variable float_str : float -> string.

Let single :=
  process_single_cnpj World Docs buscar_documentos filtrar_informe_mensal
    selecionar_documento_mais_recente baixar_xml float_str.
Let batch :=
  process_batch World Docs buscar_documentos filtrar_informe_mensal
    selecionar_documento_mais_recente baixar_xml sleep float_str.
Let loop :=
  processar World Docs buscar_documentos filtrar_informe_mensal
    selecionar_documento_mais_recente baixar_xml sleep float_str.

Lemma erro_row_status cnpj status mensagem :
  erro_row cnpj status mensagem !! "STATUS" = Some (VStr status)
  /\ erro_row cnpj status mensagem !! "CNPJ_FUNDO" = Some (VStr cnpj)
  /\ erro_row cnpj status mensagem !! "MENSAGEM_ERRO" = Some mensagem.
Proof.
  unfold erro_row. split; [|split].
  - rewrite lookup_insert_ne by done. apply lookup_insert_eq.
  - rewrite !lookup_insert_ne by done. apply lookup_singleton_eq.
  - apply lookup_insert_eq.
Qed.

Lemma to_dict_lookup (d : gmap string value) k v :
  d !! k = Some v -> is_Some (to_dict d !! upper k).
Proof.
  intros H. unfold to_dict.
  destruct (list_to_map (M := gmap string value) _ !! upper k) eqn:E;
    [eauto|].
  exfalso. apply not_elem_of_list_to_map in E. apply E.
  apply list_elem_of_fmap. exists (upper k, v). split; [reflexivity|].
  apply list_elem_of_In, in_map_iff. exists (k, v). split; [reflexivity|].
  now apply list_elem_of_In, elem_of_map_to_list.
Qed.

(** Every row that the parse step returns has a status. *)
Lemma passo_parse_status cnpj doc doc_id xml r :
  passo_parse float_str cnpj doc doc_id xml = Ok r ->
  is_Some (r !! "STATUS").
Proof.
  unfold passo_parse. destruct xml as [erro|root].
  - rewrite parse_malformed. intros H. injection H as <-.
    rewrite (proj1 (erro_row_status _ _ _)). eauto.
  - destruct (extrair_spec float_str root cnpj)
      as (dados & _ & _ & _ & _ & _ & _ & Hex & _ & _ & _ & _ & Hst).
    unfold parse. rewrite Hex. intros H. injection H as <-.
    rewrite !lookup_insert_ne by done.
    exact (to_dict_lookup dados "status" _ Hst).
Qed.

(** A row is either the report of a failure, with the identifier of the
    input, a status that names the step and a message, or a row of the
    parse step. *)
Lemma single_row cnpj w :
  (exists status mensagem,
     fst (single cnpj w) = erro_row cnpj status mensagem
     /\ In status status_de_erro)
  \/ (exists doc doc_id xml,
        passo_parse float_str cnpj doc doc_id xml = Ok (fst (single cnpj w))).
Proof.
  unfold single, process_single_cnpj, passos.
  destruct (buscar_documentos cnpj w) as [[[df|e]|e] w1]; cbn [fst];
    [|left; eexists _, _; split; [reflexivity|cbn; tauto]..].
  destruct (filtrar_informe_mensal df w1) as [[[dm|e]|e] w2]; cbn [fst];
    [|left; eexists _, _; split; [reflexivity|cbn; tauto]..].
  destruct (selecionar_documento_mais_recente dm w2) as [[[doc|e]|e] w3];
    cbn [fst]; [|left; eexists _, _; split; [reflexivity|cbn; tauto]..].
  destruct (doc !! "id") as [doc_id|];
    [|left; eexists _, _; split; [reflexivity|cbn; tauto]].
  destruct (baixar_xml doc_id w3) as [[[xml|e]|e] w4]; cbn [fst];
    [|left; eexists _, _; split; [reflexivity|cbn; tauto]..].
  destruct (passo_parse float_str cnpj doc doc_id xml) as [r|e] eqn:E;
    cbn [fst].
  - right. exists doc, doc_id, xml. exact E.
  - left. eexists _, _. split; [reflexivity|cbn; tauto].
Qed.

Lemma single_status cnpj w : is_Some (fst (single cnpj w) !! "STATUS").
Proof.
  destruct (single_row cnpj w) as [(s & m & -> & _)|(doc & id & xml & H)].
  - rewrite (proj1 (erro_row_status _ _ _)). eauto.
  - exact (passo_parse_status _ _ _ _ _ H).
Qed.

(** The failure of a step gives the row of that step. *)
Lemma single_falha_busca cnpj w erro w1 :
  buscar_documentos cnpj w = (Ok (Falha erro), w1) ->
  single cnpj w = (erro_row cnpj "ERRO_BUSCA" (VStr erro), w1).
Proof.
  intros H. unfold single, process_single_cnpj, passos. now rewrite H.
Qed.

Lemma single_excecao_busca cnpj w e w1 :
  buscar_documentos cnpj w = (Raise e, w1) ->
  single cnpj w = (erro_row cnpj "ERRO_INESPERADO" (VStr (exn_str e)), w1).
Proof.
  intros H. unfold single, process_single_cnpj, passos. now rewrite H.
Qed.

(** The loop gives one row per identifier, in the order of the input: the
    row of each identifier is the one that [process_single_cnpj] gives for
    it in the state of the world it is reached in. *)
Lemma processar_rows n cnpjs : forall i w,
  Forall2 (fun cnpj r => exists w0, r = fst (single cnpj w0))
    cnpjs (fst (loop n i cnpjs w)).
Proof.
  induction cnpjs as [|cnpj rest IH]; intros i w; cbn [loop processar fst].
  - unfold loop. cbn. constructor.
  - unfold loop. cbn [processar].
    destruct (process_single_cnpj _ _ _ _ _ _ _ cnpj w) as [r w1] eqn:E.
    match goal with
    | |- context [processar _ _ _ _ _ _ _ _ n (S i) rest ?w'] =>
        specialize (IH (S i) w'); unfold loop in IH;
        destruct (processar _ _ _ _ _ _ _ _ n (S i) rest w') as [rs w2]
    end.
    cbn [fst] in *. constructor; [|exact IH].
    exists w. unfold single. now rewrite E.
Qed.

(** A batch that is not empty gives its table: as many rows as
    identifiers, in their order. *)
Lemma process_batch_rows cnpjs w :
  cnpjs <> [] ->
  exists rows w',
    batch cnpjs w = (Ok rows, w')
    /\ length rows = length cnpjs
    /\ Forall2 (fun cnpj r => exists w0, r = fst (single cnpj w0))
         cnpjs rows.
Proof.
  intros Hne. unfold batch, process_batch.
  pose proof (processar_rows (length cnpjs) cnpjs 0 w) as H.
  unfold loop in H.
  destruct (processar _ _ _ _ _ _ _ _ (length cnpjs) 0 cnpjs w)
    as [rows w'].
  cbn [fst] in H.
  assert (Hst : has_column rows "STATUS" = true).
  { destruct H as [|cnpj r cs rs (w0 & ->) _]; [congruence|].
    cbn [has_column existsb]. apply orb_true_iff. left.
    apply bool_decide_eq_true. apply single_status. }
  rewrite Hst. exists rows, w'. split; [reflexivity|].
  split; [symmetry; exact (Forall2_length _ _ _ H) | exact H].
Qed.

Lemma process_batch_nil w : batch [] w = (Raise KeyError, w).
Proof. reflexivity. Qed.

End Service.

Section ServiceClaim.
Import PyStr Py PyFloat XmlParser EtlService.

(** C7, the failing case. For the empty batch the loop gives no row, the
    table built from the results has no column STATUS, and reading that
    column to count the successes raises [KeyError]: no table is returned,
    whatever the client does. *)
Theorem process_batch_empty_raises :
  forall World Docs buscar_documentos filtrar_informe_mensal
         selecionar_documento_mais_recente baixar_xml sleep float_str
         (w : World),
    process_batch World Docs buscar_documentos filtrar_informe_mensal
      selecionar_documento_mais_recente baixar_xml sleep float_str [] w
    = (Raise KeyError, w).
Proof. intros. reflexivity. Qed.

End ServiceClaim.

(* ===================================================================== *)
(** ** The snapshot of a filing, field by field *)
(* ===================================================================== *)

Section Snapshot.
Import PyStr Py PyFloat XmlParser Reference ReferenceSnapshot.
Variable float_str : float -> string.

Lemma setattrs_lookup l : forall (d : gmap string value) a,
  setattrs d l !! a
  = match List.find (fun kv => String.eqb (fst kv) a) (rev l) with
    | Some kv => Some (snd kv)
    | None => d !! a
    end.
Proof.
  unfold setattrs.
  induction l as [|c l IH]; intros d a; cbn [fold_left rev]; [reflexivity|].
  rewrite IH, find_app_last.
  destruct (List.find _ (rev l)); [reflexivity|].
  destruct (String.eqb (fst c) a) eqn:E.
  - apply String.eqb_eq in E. subst a. apply lookup_insert_eq.
  - apply String.eqb_neq in E. now apply lookup_insert_ne.
Qed.

Lemma buscar_valor_xml_valor root caminho :
  campo_texto caminho = false -> campo_numerico caminho = true ->
  buscar_valor_xml root caminho = VFloat (valor root caminho).
Proof.
  intros Ht Hn. rewrite buscar_valor_xml_amended.
  unfold typing_policy_amended, valor. rewrite Ht, Hn.
  destruct (texto_do_elemento root caminho); reflexivity.
Qed.

(** The second [try] block of [parse] never fails: its result is the
    dictionary of the defaults, then the fields read, then the
    indicators. *)
Lemma extrair_final root fb :
  extrair float_str root fb
  = Ok (setattrs
          (campos root (identificacao float_str root fb FIDCData_new))
          (atributos_indicadores
             (valor root "CRED_EXISTE/VL_CRED_EXISTE_INAD")
             (valor root "DICRED/VL_DICRED_EXISTE_INAD")
             (valor root "CRED_EXISTE/VL_SOM_DICRED_AQUIS")
             (valor root "VL_SOM_APLIC_ATIVO")
             (valor root "VL_DISPONIB"))).
Proof.
  pose proof (buscar_valor_xml_valor root "CRED_EXISTE/VL_CRED_EXISTE_INAD"
                eq_refl eq_refl) as Hcred.
  pose proof (buscar_valor_xml_valor root "DICRED/VL_DICRED_EXISTE_INAD"
                eq_refl eq_refl) as Hdicred.
  pose proof (buscar_valor_xml_valor root "CRED_EXISTE/VL_SOM_DICRED_AQUIS"
                eq_refl eq_refl) as Haquis.
  pose proof (buscar_valor_xml_valor root "VL_SOM_APLIC_ATIVO"
                eq_refl eq_refl) as Hativo.
  pose proof (buscar_valor_xml_valor root "VL_DISPONIB"
                eq_refl eq_refl) as Hdisp.
  set (cred := valor root "CRED_EXISTE/VL_CRED_EXISTE_INAD") in *.
  set (dicred := valor root "DICRED/VL_DICRED_EXISTE_INAD") in *.
  set (aquis := valor root "CRED_EXISTE/VL_SOM_DICRED_AQUIS") in *.
  set (ativo := valor root "VL_SOM_APLIC_ATIVO") in *.
  set (disp := valor root "VL_DISPONIB") in *.
  clearbody cred dicred aquis ativo disp.
  set (d0 := identificacao float_str root fb FIDCData_new).
  set (d1 := campos root d0).
  assert (H1 : d1 !! "cred_inadimplencia" = Some (VFloat cred)).
  { unfold d1.
    rewrite (campos_attr root d0 "cred_inadimplencia"
               "CRED_EXISTE/VL_CRED_EXISTE_INAD" eq_refl).
    now rewrite Hcred. }
  assert (H2 : d1 !! "dicred_inadimplencia" = Some (VFloat dicred)).
  { unfold d1.
    rewrite (campos_attr root d0 "dicred_inadimplencia"
               "DICRED/VL_DICRED_EXISTE_INAD" eq_refl).
    now rewrite Hdicred. }
  assert (H3 : d1 !! "creditos_adquiridos" = Some (VFloat aquis)).
  { unfold d1.
    rewrite (campos_attr root d0 "creditos_adquiridos"
               "CRED_EXISTE/VL_SOM_DICRED_AQUIS" eq_refl).
    now rewrite Haquis. }
  assert (H4 : d1 !! "ativo_total" = Some (VFloat ativo)).
  { unfold d1.
    rewrite (campos_attr root d0 "ativo_total" "VL_SOM_APLIC_ATIVO" eq_refl).
    now rewrite Hativo. }
  assert (H5 : d1 !! "disponibilidades" = Some (VFloat disp)).
  { unfold d1.
    rewrite (campos_attr root d0 "disponibilidades" "VL_DISPONIB" eq_refl).
    now rewrite Hdisp. }
  unfold extrair. fold d0. fold d1. clearbody d1. clear d0.
  unfold atributos_indicadores, setattrs. cbn [fold_left fst snd].
  set (total := max (or_zero cred) (or_zero dicred)).
  unfold indicadores, getattr.
  rewrite H1. cbn [bind]. rewrite float_or_0_float. cbn [bind].
  rewrite H2. cbn [bind]. rewrite float_or_0_float. cbn [bind].
  fold total.
  rewrite !lookup_insert_ne by done. rewrite H3. cbn [bind].
  rewrite float_or_0_float. cbn [bind].
  unfold nplDecimal, nplPercentage, ratioDecimal, ratioPercentage.
  destruct (gtb (or_zero aquis) zero && gtb total zero) eqn:Hnpl;
    [ apply andb_prop in Hnpl; destruct Hnpl as [Hq _];
      rewrite (truediv_positive total _ Hq); cbn [bind];
      rewrite truediv_100 |];
    cbn [bind];
    rewrite !lookup_insert_ne by done; rewrite H4; cbn [bind];
    rewrite float_or_0_float; cbn [bind];
    rewrite ?lookup_insert_ne by done; rewrite H5; cbn [bind];
    rewrite float_or_0_float; cbn [bind];
    (destruct (gtb (or_zero ativo) zero) eqn:Hat;
     [ rewrite !(truediv_positive _ _ Hat); cbn [bind];
       rewrite !truediv_100 |];
     cbn [bind]; reflexivity).
Qed.

Lemma find_unique (l : list (string * string)) a p :
  NoDup (map fst l) -> In (a, p) l ->
  List.find (fun c => String.eqb (fst c) a) l = Some (a, p).
Proof.
  induction l as [|[k v] l IH]; intros Hnd Hin; [destruct Hin|].
  cbn [map fst] in Hnd. apply NoDup_cons in Hnd. destruct Hnd as [Hk Hnd].
  cbn [List.find fst]. destruct Hin as [Heq|Hin].
  - injection Heq as -> ->. now rewrite String.eqb_refl.
  - destruct (String.eqb k a) eqn:E; [|now apply IH].
    apply String.eqb_eq in E. subst k. exfalso. apply Hk.
    apply list_elem_of_In, in_map_iff. now exists (a, p).
Qed.

Lemma campos_numericos_NoDup : NoDup (map fst (rev campos_numericos)).
Proof. apply (bool_decide_unpack _). vm_compute. reflexivity. Qed.

Lemma campos_numericos_classified :
  forallb (fun c => negb (campo_texto (snd c)) && campo_numerico (snd c)
                    && negb (existsb (String.eqb (fst c))
                               (map fst (atributos_indicadores
                                           zero zero zero zero zero))))
    campos_numericos = true.
Proof. vm_compute. reflexivity. Qed.

Lemma Ok_inj {A} (a b : A) : Ok a = Ok b -> a = b.
Proof. now injection 1. Qed.

Lemma find_keys_None (l : list (string * value)) a :
  existsb (String.eqb a) (map fst l) = false ->
  List.find (fun kv => String.eqb (fst kv) a) (rev l) = None.
Proof.
  intros Hn. destruct (List.find _ _) as [kv|] eqn:E; [|reflexivity].
  exfalso. apply find_some in E. destruct E as [Hkv Heq].
  apply String.eqb_eq in Heq. apply in_rev in Hkv.
  assert (Hex : existsb (String.eqb a) (map fst l) = true).
  { apply existsb_exists. exists a. split; [|apply String.eqb_refl].
    rewrite <- Heq. now apply in_map. }
  congruence.
Qed.

Lemma atributos_indicadores_keys c d a t p :
  map fst (atributos_indicadores c d a t p)
  = map fst (atributos_indicadores zero zero zero zero zero).
Proof. reflexivity. Qed.

(** A numeric field of the table of [parse]: its path is numeric, and no
    indicator overwrites its attribute. *)
Lemma setattrs_campos_numerico root d c di a t p attr caminho :
  In (attr, caminho) campos_numericos ->
  setattrs (campos root d) (atributos_indicadores c di a t p) !! attr
  = Some (VFloat (valor root caminho)).
Proof.
  intros Hin.
  pose proof campos_numericos_classified as Hall.
  rewrite forallb_forall in Hall. specialize (Hall _ Hin).
  cbn [fst snd] in Hall.
  apply andb_prop in Hall. destruct Hall as [Hall Hfresh].
  apply andb_prop in Hall. destruct Hall as [Ht Hn].
  apply negb_true_iff in Ht. apply negb_true_iff in Hfresh.
  rewrite setattrs_lookup, find_keys_None
    by (rewrite atributos_indicadores_keys; exact Hfresh).
  assert (Hf : List.find (fun c => String.eqb (fst c) attr)
                 (rev campos_numericos) = Some (attr, caminho)).
  { apply find_unique; [|now apply in_rev; rewrite rev_involutive].
    apply campos_numericos_NoDup. }
  rewrite (campos_attr root _ attr caminho Hf).
  rewrite (buscar_valor_xml_valor root caminho Ht Hn). reflexivity.
Qed.

Lemma campo_numerico_lookup root fb attr caminho dados :
  In (attr, caminho) campos_numericos ->
  extrair float_str root fb = Ok dados ->
  dados !! attr = Some (VFloat (valor root caminho)).
Proof.
  intros Hin Hex. rewrite extrair_final in Hex. apply Ok_inj in Hex.
  rewrite <- Hex. apply setattrs_campos_numerico, Hin.
Qed.

(** An attribute that the indicators assign holds the last value they gave
    it. *)
Lemma indicador_lookup root fb a dados v :
  extrair float_str root fb = Ok dados ->
  List.find (fun kv => String.eqb (fst kv) a)
    (rev (atributos_indicadores
            (valor root "CRED_EXISTE/VL_CRED_EXISTE_INAD")
            (valor root "DICRED/VL_DICRED_EXISTE_INAD")
            (valor root "CRED_EXISTE/VL_SOM_DICRED_AQUIS")
            (valor root "VL_SOM_APLIC_ATIVO")
            (valor root "VL_DISPONIB"))) = Some (a, v) ->
  dados !! a = Some v.
Proof.
  intros Hex Hf. rewrite extrair_final in Hex. apply Ok_inj in Hex.
  rewrite <- Hex, setattrs_lookup, Hf. reflexivity.
Qed.

(** An attribute that neither the table of the numeric fields nor the
    indicators assign keeps what the identification or the defaults gave
    it. *)
Lemma outro_lookup root fb a dados :
  extrair float_str root fb = Ok dados ->
  existsb (String.eqb a)
    (map fst (atributos_indicadores zero zero zero zero zero)) = false ->
  List.find (fun c => String.eqb (fst c) a) (rev campos_numericos) = None ->
  dados !! a = identificacao float_str root fb FIDCData_new !! a.
Proof.
  intros Hex Hi Hc. rewrite extrair_final in Hex. apply Ok_inj in Hex.
  rewrite <- Hex, setattrs_lookup, find_keys_None
    by (rewrite atributos_indicadores_keys; exact Hi).
  apply campos_other, Hc.
Qed.

End Snapshot.

(* ===================================================================== *)
(** ** What [parse] returns, field by field *)
(* ===================================================================== *)

Section SnapshotFields.
Import PyStr Py PyFloat XmlParser Reference ReferenceSnapshot.

Lemma identificacao_other float_str root fb d a :
  existsb (String.eqb a)
    ("cnpj_fundo" :: map fst campos_identificacao) = false ->
  identificacao float_str root fb d !! a = d !! a.
Proof.
  intros H. cbn [existsb map fst campos_identificacao] in H.
  repeat (apply orb_false_elim in H; destruct H as [?%String.eqb_neq H]).
  unfold identificacao. rewrite !lookup_insert_ne by congruence. reflexivity.
Qed.

(** A well-formed document gives a snapshot with the final status and the
    defaults of the attributes that the extraction does not assign. *)
Lemma parse_document_defaults float_str root fb :
  exists dados,
    extrair float_str root fb = Ok dados
    /\ dados !! "status" = Some (VStr "SUCESSO")
    /\ dados !! "mensagem_erro" = Some VNone
    /\ dados !! "id_documento" = Some (VStr "")
    /\ dados !! "data_referencia_doc" = Some (VStr "").
Proof.
  destruct (extrair float_str root fb) as [dados|e] eqn:Hex;
    [|rewrite extrair_final in Hex; discriminate Hex].
  exists dados. split; [reflexivity|].
  split; [|split; [|split]].
  - apply (indicador_lookup float_str root fb _ _ _ Hex). reflexivity.
  - rewrite (outro_lookup float_str root fb "mensagem_erro" _ Hex
               eq_refl eq_refl).
    rewrite identificacao_other by reflexivity. vm_compute. reflexivity.
  - rewrite (outro_lookup float_str root fb "id_documento" _ Hex
               eq_refl eq_refl).
    rewrite identificacao_other by reflexivity. vm_compute. reflexivity.
  - rewrite (outro_lookup float_str root fb "data_referencia_doc" _ Hex
               eq_refl eq_refl).
    rewrite identificacao_other by reflexivity. vm_compute. reflexivity.
Qed.

(** X1. [parse] has two outcomes only.  A content that is not well-formed
    XML gives a failure whose message is "Erro XML: " followed by the
    complaint of the XML parser.  A well-formed document always gives a
    success: the extraction never raises, whatever the document holds, the
    snapshot has status "SUCESSO", and the attributes that the extraction
    does not assign (the error message and the two document references)
    keep their defaults. *)
Theorem parse_outcome :
  forall float_str content fb,
    match content with
    | Malformed erro =>
        parse float_str content fb
        = (false, None, Some (String.append "Erro XML: " erro))
    | Document root =>
        exists dados,
          parse float_str content fb = (true, Some dados, None)
          /\ dados !! "status" = Some (VStr "SUCESSO")
          /\ dados !! "mensagem_erro" = Some VNone
          /\ dados !! "id_documento" = Some (VStr "")
          /\ dados !! "data_referencia_doc" = Some (VStr "")
    end.
Proof.
  intros float_str [erro|root] fb; [reflexivity|].
  destruct (parse_document_defaults float_str root fb) as (dados & Hex & H).
  exists dados. split; [unfold parse; rewrite Hex; reflexivity|exact H].
Qed.

(** X2. Every numeric field of the table of [parse] holds, in the snapshot
    of a well-formed document, the Brazilian-format reading of the text of
    the first element at its path, and 0.0 when there is no such element,
    no text, or a text that is not a number.  No later assignment of
    [parse] overwrites any of them. *)
Theorem parse_numeric_fields :
  forall float_str root fb,
    exists dados,
      parse float_str (Document root) fb = (true, Some dados, None)
      /\ Forall (fun c => dados !! fst c = Some (VFloat (valor root (snd c))))
           campos_numericos.
Proof.
  intros float_str root fb.
  destruct (extrair float_str root fb) as [dados|e] eqn:Hex;
    [|rewrite extrair_final in Hex; discriminate Hex].
  exists dados. split; [unfold parse; rewrite Hex; reflexivity|].
  apply List.Forall_forall. intros [attr caminho] Hin.
  exact (campo_numerico_lookup float_str root fb attr caminho dados Hin Hex).
Qed.

Lemma identificacao_campo float_str root fb d attr caminho :
  In (attr, caminho) campos_identificacao ->
  identificacao float_str root fb d !! attr
  = Some (VStr (texto_extraido root caminho)).
Proof.
  intros Hin. cbn [campos_identificacao In] in Hin. unfold identificacao.
  repeat (destruct Hin as [Heq|Hin];
          [injection Heq as <- <-;
           rewrite ?lookup_insert_ne by discriminate;
           rewrite lookup_insert_eq;
           rewrite buscar_valor_xml_texto by reflexivity; reflexivity|]).
  destruct Hin.
Qed.

Lemma campos_identificacao_fresh :
  forallb (fun c =>
             negb (existsb (String.eqb (fst c))
                     (map fst (atributos_indicadores
                                 zero zero zero zero zero)))
             && negb (existsb (String.eqb (fst c))
                        (map fst campos_numericos)))
    campos_identificacao = true.
Proof. vm_compute. reflexivity. Qed.

Lemma find_fst_None (l : list (string * string)) a :
  existsb (String.eqb a) (map fst l) = false ->
  List.find (fun c => String.eqb (fst c) a) (rev l) = None.
Proof.
  intros Hn. destruct (List.find _ _) as [kv|] eqn:E; [|reflexivity].
  exfalso. apply find_some in E. destruct E as [Hkv Heq].
  apply String.eqb_eq in Heq. apply in_rev in Hkv.
  assert (Hex : existsb (String.eqb a) (map fst l) = true).
  { apply existsb_exists. exists a. split; [|apply String.eqb_refl].
    rewrite <- Heq. now apply in_map. }
  congruence.
Qed.

(** X3. The six identification fields other than the fund identifier hold,
    in the snapshot of a well-formed document, the trimmed text of the
    first element with their tag, and the empty string when there is none:
    they are strings even when the text reads as a number. *)
Theorem parse_identification_fields :
  forall float_str root fb,
    exists dados,
      parse float_str (Document root) fb = (true, Some dados, None)
      /\ Forall (fun c => dados !! fst c
                          = Some (VStr (texto_extraido root (snd c))))
           campos_identificacao.
Proof.
  intros float_str root fb.
  destruct (extrair float_str root fb) as [dados|e] eqn:Hex;
    [|rewrite extrair_final in Hex; discriminate Hex].
  exists dados. split; [unfold parse; rewrite Hex; reflexivity|].
  apply List.Forall_forall. intros [attr caminho] Hin.
  pose proof campos_identificacao_fresh as Hall.
  rewrite forallb_forall in Hall. specialize (Hall _ Hin).
  cbn [fst snd] in Hall. apply andb_prop in Hall.
  destruct Hall as [Hi%negb_true_iff Hc%negb_true_iff].
  cbn [fst snd].
  rewrite (outro_lookup float_str root fb attr dados Hex Hi
             (find_fst_None _ _ Hc)).
  now apply identificacao_campo.
Qed.

Lemma or_zero_not_gt x : gtb x zero = false -> gtb (or_zero x) zero = false.
Proof. intros H. unfold or_zero. now destruct (truthy x). Qed.

Lemma ratio_zero part whole :
  gtb whole zero = false ->
  ratioPercentage part whole = zero /\ ratioDecimal part whole = zero.
Proof. intros H. unfold ratioDecimal, ratioPercentage. now rewrite H. Qed.

(** X4. The liquidity and the concentration of a snapshot are ratios to the
    total assets read in the document: cash over total assets, and acquired
    receivables over total assets, times 100, with the decimal form the
    percentage divided by 100; the gross portfolio is the acquired
    receivables.  All amounts count a zero of either sign as 0.0. *)
Theorem parse_liquidity_concentration :
  forall float_str root fb,
    let ativo := or_zero (valor root "VL_SOM_APLIC_ATIVO") in
    let disp := or_zero (valor root "VL_DISPONIB") in
    let carteira := or_zero (valor root "CRED_EXISTE/VL_SOM_DICRED_AQUIS") in
    exists dados,
      parse float_str (Document root) fb = (true, Some dados, None)
      /\ dados !! "carteira_bruta" = Some (VFloat carteira)
      /\ dados !! "taxa_liquidez_percentual"
         = Some (VFloat (ratioPercentage disp ativo))
      /\ dados !! "taxa_liquidez_decimal"
         = Some (VFloat (ratioDecimal disp ativo))
      /\ dados !! "concentracao_credito_percentual"
         = Some (VFloat (ratioPercentage carteira ativo))
      /\ dados !! "concentracao_credito_decimal"
         = Some (VFloat (ratioDecimal carteira ativo)).
Proof.
  intros float_str root fb ativo disp carteira.
  destruct (extrair float_str root fb) as [dados|e] eqn:Hex;
    [|rewrite extrair_final in Hex; discriminate Hex].
  exists dados. split; [unfold parse; rewrite Hex; reflexivity|].
  repeat split;
    apply (indicador_lookup float_str root fb _ _ _ Hex); reflexivity.
Qed.

(** X5. When the total assets read in the document are not greater than
    zero (the element is absent, or its amount is zero, negative or not a
    number), the liquidity and the concentration are 0.0 in both forms: no
    division takes place. *)
Theorem parse_ratios_without_assets :
  forall float_str root fb,
    gtb (valor root "VL_SOM_APLIC_ATIVO") zero = false ->
    exists dados,
      parse float_str (Document root) fb = (true, Some dados, None)
      /\ dados !! "taxa_liquidez_percentual" = Some (VFloat zero)
      /\ dados !! "taxa_liquidez_decimal" = Some (VFloat zero)
      /\ dados !! "concentracao_credito_percentual" = Some (VFloat zero)
      /\ dados !! "concentracao_credito_decimal" = Some (VFloat zero).
Proof.
  intros float_str root fb H. apply or_zero_not_gt in H.
  destruct (extrair float_str root fb) as [dados|e] eqn:Hex;
    [|rewrite extrair_final in Hex; discriminate Hex].
  exists dados. split; [unfold parse; rewrite Hex; reflexivity|].
  destruct (ratio_zero (or_zero (valor root "VL_DISPONIB")) _ H) as [L1 L2].
  destruct (ratio_zero (or_zero (valor root "CRED_EXISTE/VL_SOM_DICRED_AQUIS"))
              _ H) as [K1 K2].
  split; [|split; [|split]].
  - rewrite <- L1.
    apply (indicador_lookup float_str root fb _ _ _ Hex); reflexivity.
  - rewrite <- L2.
    apply (indicador_lookup float_str root fb _ _ _ Hex); reflexivity.
  - rewrite <- K1.
    apply (indicador_lookup float_str root fb _ _ _ Hex); reflexivity.
  - rewrite <- K2.
    apply (indicador_lookup float_str root fb _ _ _ Hex); reflexivity.
Qed.

Lemma parse_ratios_without_assets_witness :
  campo (parse (fun _ => "")
           (Document (filing "51199121000145" "1.000,00" "10,00" "0,00"))
           "")
    "concentracao_credito_percentual" = Some (VFloat zero).
Proof.
  destruct (parse_ratios_without_assets (fun _ => "")
              (filing "51199121000145" "1.000,00" "10,00" "0,00") "")
    as (dados & Hp & _ & _ & H & _).
  - vm_compute. reflexivity.
  - rewrite Hp. exact H.
Defined.

End SnapshotFields.

(* ===================================================================== *)
(** ** The sign of quotients and products *)
(* ===================================================================== *)

Section FloatSign.
Import PyStr Py PyFloat XmlParser Reference ReferenceSnapshot.

Lemma shr_1_nonneg mrs : (0 <= shr_m mrs)%Z -> (0 <= shr_m (shr_1 mrs))%Z.
Proof.
  destruct mrs as [m r s]. cbn [shr_m]. intros H.
  destruct m as [|[p|p|]|p]; cbn; lia.
Qed.

Lemma iter_pos_nonneg p : forall mrs,
  (0 <= shr_m mrs)%Z -> (0 <= shr_m (@SpecFloat.iter_pos _ shr_1 p mrs))%Z.
Proof.
  induction p as [p IH|p IH|]; intros mrs H; cbn [iter_pos].
  - apply IH, IH, shr_1_nonneg, H.
  - apply IH, IH, H.
  - apply shr_1_nonneg, H.
Qed.

Lemma shr_fexp_nonneg m e l :
  (0 <= m)%Z -> (0 <= shr_m (fst (shr_fexp prec emax m e l)))%Z.
Proof.
  intros H. unfold shr_fexp, shr.
  assert (H0 : (0 <= shr_m (shr_record_of_loc m l))%Z)
    by (destruct l as [|[]]; exact H).
  destruct (_ - e)%Z; cbn [fst]; try exact H0.
  apply iter_pos_nonneg, H0.
Qed.

Lemma round_nearest_even_nonneg m l :
  (0 <= m)%Z -> (0 <= round_nearest_even m l)%Z.
Proof.
  intros H. destruct l as [|[]]; cbn [round_nearest_even]; try lia.
  destruct (Z.even m); lia.
Qed.

(** Rounding a non-negative mantissa gives a zero, a finite number or an
    infinity with the sign asked for, never a NaN. *)
Lemma binary_round_aux_sign s m e l :
  (0 <= m)%Z ->
  match binary_round_aux prec emax s m e l with
  | S754_zero s' | S754_infinity s' | S754_finite s' _ _ => s' = s
  | S754_nan => False
  end.
Proof.
  intros H. unfold binary_round_aux.
  pose proof (shr_fexp_nonneg m e l H) as H1.
  destruct (shr_fexp prec emax m e l) as [mrs' e']. cbn [fst] in H1.
  pose proof (shr_fexp_nonneg _ e' loc_Exact
                (round_nearest_even_nonneg _ (loc_of_shr_record mrs') H1))
    as H2.
  destruct (shr_fexp prec emax _ e' loc_Exact) as [mrs'' e''].
  cbn [fst] in H2.
  destruct (shr_m mrs'') as [|p|p]; [reflexivity| |lia].
  destruct (e'' <=? _)%Z; reflexivity.
Qed.

Lemma SFdiv_core_binary_nonneg m1 e1 m2 e2 :
  (0 <= fst (fst (SFdiv_core_binary prec emax (Zpos m1) e1 (Zpos m2) e2)))%Z.
Proof.
  unfold SFdiv_core_binary.
  set (s := (_ - _ - _)%Z).
  set (m' := match s with Zpos _ => _ | Z0 => _ | Zneg _ => _ end).
  assert (Hm : (0 <= m')%Z).
  { subst m'. destruct s; [lia| |lia]. apply Z.shiftl_nonneg. lia. }
  pose proof (Z_div_mod m' (Zpos m2) eq_refl) as Hd.
  destruct (Z.div_eucl m' (Zpos m2)) as [q r]. cbn [fst].
  destruct Hd as [Hd Hr]. nia.
Qed.

(** The quotient of two numbers greater than zero is not negative, and it
    is a NaN only when both are infinite. *)
Lemma div_positive a b :
  gtb a zero = true -> gtb b zero = true ->
  if is_nonneg (div a b) then True else a = inf /\ b = inf /\ div a b = nan.
Proof.
  destruct a as [[]|[]| |[] ma ea], b as [[]|[]| |[] mb eb];
    try discriminate; intros _ _; try exact I; try (now repeat split).
  unfold div, SFdiv.
  pose proof (SFdiv_core_binary_nonneg ma ea mb eb) as Hq.
  destruct (SFdiv_core_binary _ _ _ _ _ _) as [[mz ez] lz]. cbn [fst] in Hq.
  pose proof (binary_round_aux_sign (xorb false false) mz ez lz Hq) as Hr.
  destruct (binary_round_aux _ _ _ _ _ _) as [s|s| |s m e];
    cbn [xorb] in Hr; try subst s; try exact I. destruct Hr.
Qed.

(** A non-negative number times or over 100 is not negative. *)
Lemma mul_100_nonneg x : is_nonneg x = true -> is_nonneg (mul x (of_Z 100)) = true.
Proof.
  destruct x as [[]|[]| |[] m e]; try discriminate; intros _;
    try reflexivity.
  change (of_Z 100) with (S754_finite false 7036874417766400 (-46)).
  unfold mul, SFmul.
  pose proof (binary_round_aux_sign (xorb false false)
                (Zpos (m * 7036874417766400)) (e + -46) loc_Exact
                ltac:(lia)) as Hr.
  destruct (binary_round_aux _ _ _ _ _ _) as [s|s| |s m' e'];
    cbn [xorb] in Hr; try subst s; try reflexivity. destruct Hr.
Qed.

Lemma div_100_nonneg x : is_nonneg x = true -> is_nonneg (div x (of_Z 100)) = true.
Proof.
  destruct x as [[]|[]| |[] m e]; try discriminate; intros _;
    try reflexivity.
  change (of_Z 100) with (S754_finite false 7036874417766400 (-46)).
  unfold div, SFdiv.
  pose proof (SFdiv_core_binary_nonneg m e 7036874417766400 (-46)) as Hq.
  destruct (SFdiv_core_binary _ _ _ _ _ _) as [[mz ez] lz]. cbn [fst] in Hq.
  pose proof (binary_round_aux_sign (xorb false false) mz ez lz Hq) as Hr.
  destruct (binary_round_aux _ _ _ _ _ _) as [s|s| |s m' e'];
    cbn [xorb] in Hr; try subst s; try reflexivity. destruct Hr.
Qed.

Lemma nonneg_ge_zero x : is_nonneg x = true -> leb zero x = true.
Proof. destruct x as [[]|[]| |[] m e]; try discriminate; reflexivity. Qed.

Lemma nonneg_not_nan x : is_nonneg x = true -> is_nan x = false.
Proof. destruct x as [[]|[]| |[] m e]; try discriminate; reflexivity. Qed.

(** [min(x, 1.0)] of a non-negative number lies between 0.0 and 1.0. *)
Lemma min_one_range x :
  is_nonneg x = true ->
  leb zero (min x one) = true /\ leb (min x one) one = true.
Proof.
  intros H. destruct (min_one_le x) as [Hn|Hle].
  - unfold min in *. destruct (ltb one x); [discriminate Hn|].
    rewrite (nonneg_not_nan x H) in Hn. discriminate Hn.
  - split; [|exact Hle]. unfold min. destruct (ltb one x); [reflexivity|].
    now apply nonneg_ge_zero.
Qed.

End FloatSign.

(* ===================================================================== *)
(** ** The range of the NPL index *)
(* ===================================================================== *)

Section NplRange.
Import PyStr Py PyFloat XmlParser Reference ReferenceSnapshot.

Lemma nplDecimal_range t a :
  (t = inf /\ a = inf -> is_nan (nplDecimal t a) = true)
  /\ (~ (t = inf /\ a = inf) ->
      leb zero (nplDecimal t a) = true /\ leb (nplDecimal t a) one = true).
Proof.
  split.
  - intros [-> ->]. reflexivity.
  - intros Hni. unfold nplDecimal, nplPercentage.
    destruct (gtb a zero) eqn:Ha; [|split; reflexivity].
    destruct (gtb t zero) eqn:Ht; [|split; reflexivity].
    cbn [andb].
    pose proof (div_positive t a Ht Ha) as Hd.
    destruct (is_nonneg (div t a)) eqn:Hq.
    + apply min_one_range, div_100_nonneg, mul_100_nonneg, Hq.
    + exfalso. apply Hni. tauto.
Qed.

(** X6. The NPL index in decimal form of a snapshot lies between 0.0 and
    1.0 in every case but one: when the consolidated delinquency and the
    acquired receivables are both the positive infinity it is not a
    number. *)
Theorem npl_decimal_between_0_and_1 :
  forall float_str root fb,
    let total :=
      max (or_zero (valor root "CRED_EXISTE/VL_CRED_EXISTE_INAD"))
          (or_zero (valor root "DICRED/VL_DICRED_EXISTE_INAD")) in
    let carteira := or_zero (valor root "CRED_EXISTE/VL_SOM_DICRED_AQUIS") in
    exists dados r,
      parse float_str (Document root) fb = (true, Some dados, None)
      /\ dados !! "indice_npl_decimal" = Some (VFloat r)
      /\ (total = inf /\ carteira = inf -> is_nan r = true)
      /\ (~ (total = inf /\ carteira = inf) ->
          leb zero r = true /\ leb r one = true).
Proof.
  intros float_str root fb total carteira.
  destruct (extrair float_str root fb) as [dados|e] eqn:Hex;
    [|rewrite extrair_final in Hex; discriminate Hex].
  exists dados, (nplDecimal total carteira).
  split; [unfold parse; rewrite Hex; reflexivity|].
  split; [|exact (nplDecimal_range total carteira)].
  apply (indicador_lookup float_str root fb _ _ _ Hex); reflexivity.
Qed.

Lemma npl_decimal_between_0_and_1_witness :
  exists r,
    campo (parse (fun _ => "")
             (Document (filing "51199121000145" "1.000,00" "10,00" "0,00"))
             "")
      "indice_npl_decimal" = Some (VFloat r)
    /\ leb zero r = true /\ leb r one = true.
Proof.
  destruct (npl_decimal_between_0_and_1 (fun _ => "")
              (filing "51199121000145" "1.000,00" "10,00" "0,00") "")
    as (dados & r & Hp & Hr & _ & H).
  exists r. rewrite Hp. split; [exact Hr|].
  apply H. vm_compute. intros [E _]. discriminate E.
Defined.

End NplRange.

(* ===================================================================== *)
(** ** Tags without their namespace *)
(* ===================================================================== *)

Section LimparTag.
Import PyStr Py PyFloat XmlParser Reference.

Lemma chars_append s t : chars (String.append s t) = chars s ++ chars t.
Proof.
  unfold chars. induction s as [|c s IH]; [reflexivity|].
  change (String.append (String c s) t) with (String c (String.append s t)).
  cbn [list_ascii_of_string app]. f_equal. exact IH.
Qed.

Lemma contains_char c l : contains_chars [c] l = existsb (Ascii.eqb c) l.
Proof.
  induction l as [|b l IH]; [reflexivity|].
  cbn [contains_chars startswith_chars existsb]. rewrite IH.
  now destruct l; rewrite andb_true_r.
Qed.

Lemma split_chars_cons sep l : exists w ws, split_chars sep l = w :: ws.
Proof.
  destruct l as [|c r]; cbn [split_chars]; [eauto|].
  destruct (Ascii.eqb c sep); [eauto|].
  destruct (split_chars sep r); eauto.
Qed.

Lemma split_chars_none sep l :
  existsb (Ascii.eqb sep) l = false -> split_chars sep l = [l].
Proof.
  induction l as [|c r IH]; [reflexivity|].
  cbn [existsb split_chars]. intros H. apply orb_false_elim in H.
  destruct H as [Hc Hr]. rewrite Ascii.eqb_sym, Hc, (IH Hr). reflexivity.
Qed.

(** Splitting at a separator splits the two sides. *)
Lemma split_chars_app sep a b :
  split_chars sep (a ++ sep :: b) = split_chars sep a ++ split_chars sep b.
Proof.
  induction a as [|c a IH]; cbn [app split_chars].
  - now rewrite Ascii.eqb_refl.
  - destruct (Ascii.eqb c sep); [now rewrite IH|].
    rewrite IH. destruct (split_chars_cons sep a) as (w & ws & ->).
    reflexivity.
Qed.

Lemma split_chars_Forall sep l :
  List.Forall (fun w => existsb (Ascii.eqb sep) w = false) (split_chars sep l).
Proof.
  induction l as [|c r IH]; cbn [split_chars].
  - now constructor.
  - destruct (Ascii.eqb c sep) eqn:E; [constructor; [reflexivity|exact IH]|].
    destruct (split_chars_cons sep r) as (w & ws & Hs). rewrite Hs in *.
    inversion IH as [|? ? Hw Hws]; subst. constructor; [|exact Hws].
    cbn [existsb]. now rewrite Ascii.eqb_sym, E.
Qed.

Lemma last_In {A} (l : list A) d : l <> [] -> In (List.last l d) l.
Proof.
  induction l as [|x [|y l] IH]; intros H; [congruence|now left|].
  right. apply IH. discriminate.
Qed.

Lemma last_app_r {A} (l1 l2 : list A) d :
  l2 <> [] -> List.last (l1 ++ l2) d = List.last l2 d.
Proof.
  intros H. induction l1 as [|x l1 IH]; [reflexivity|].
  cbn [app]. destruct (l1 ++ l2) eqn:E; [|exact IH].
  apply app_eq_nil in E. destruct E. congruence.
Qed.

Lemma last_map_str (ws : list (list ascii)) d :
  List.last (map str ws) (str d) = str (List.last ws d).
Proof.
  induction ws as [|w [|w' ws] IH]; [reflexivity|reflexivity|exact IH].
Qed.

Lemma limpar_tag_chars tag :
  chars (limpar_tag tag)
  = if existsb (Ascii.eqb "}") (chars tag)
    then List.last (split_chars "}" (chars tag)) (chars tag)
    else chars tag.
Proof.
  unfold limpar_tag, contains. change (chars "}") with ["}"%char].
  rewrite contains_char. destruct (existsb _ _); [|reflexivity].
  unfold split. rewrite <- (str_chars tag) at 2.
  now rewrite last_map_str, chars_str.
Qed.

Lemma limpar_tag_no_brace tag : contains "}" (limpar_tag tag) = false.
Proof.
  unfold contains. change (chars "}") with ["}"%char].
  rewrite contains_char, limpar_tag_chars.
  destruct (existsb _ (chars tag)) eqn:E; [|exact E].
  pose proof (split_chars_Forall "}" (chars tag)) as HF.
  rewrite List.Forall_forall in HF. apply HF, last_In.
  destruct (split_chars_cons "}" (chars tag)) as (w & ws & ->). discriminate.
Qed.

Lemma limpar_tag_local ns local :
  contains "}" local = false ->
  limpar_tag (String.append ns (String "}" local)) = local.
Proof.
  unfold contains. change (chars "}") with ["}"%char].
  rewrite contains_char. intros H.
  rewrite <- (str_chars (limpar_tag _)), limpar_tag_chars, chars_append.
  change (chars (String "}" local)) with ("}"%char :: chars local).
  rewrite existsb_app. cbn [existsb Ascii.eqb]. 
  replace (Ascii.eqb "}" "}") with true by reflexivity.
  rewrite orb_true_r, split_chars_app, (split_chars_none _ _ H).
  rewrite last_app_r by discriminate. apply str_chars.
Qed.

(** X7. [limpar_tag] returns the text after the last closing brace of a
    tag: the result never holds a closing brace, a tag written
    [ns}local] with no brace in [local] gives [local] whatever [ns] is, a
    tag without a brace is returned as it is, and cleaning twice is
    cleaning once. *)
Theorem limpar_tag_local_name :
  forall tag,
    contains "}" (limpar_tag tag) = false
    /\ limpar_tag (limpar_tag tag) = limpar_tag tag
    /\ (contains "}" tag = false -> limpar_tag tag = tag)
    /\ (forall ns local,
          tag = String.append ns (String "}" local) ->
          contains "}" local = false -> limpar_tag tag = local).
Proof.
  intros tag. pose proof (limpar_tag_no_brace tag) as H.
  split; [exact H|]. split; [|split].
  - unfold limpar_tag at 1. now rewrite H.
  - intros Hn. unfold limpar_tag. now rewrite Hn.
  - intros ns local -> Hl. now apply limpar_tag_local.
Qed.

Lemma limpar_tag_local_name_witness :
  limpar_tag "{urn:cvm:fidc}VL_CARTEIRA" = "VL_CARTEIRA"
  /\ limpar_tag "DOC_ARQ" = "DOC_ARQ".
Proof.
  split.
  - destruct (limpar_tag_local_name "{urn:cvm:fidc}VL_CARTEIRA")
      as (_ & _ & _ & H).
    apply (H "{urn:cvm:fidc" "VL_CARTEIRA"); reflexivity.
  - destruct (limpar_tag_local_name "DOC_ARQ") as (_ & _ & H & _).
    apply H. reflexivity.
Defined.

End LimparTag.

(* ===================================================================== *)
(** ** The two converters of Brazilian numbers *)
(* ===================================================================== *)

Section Converters.
Import PyStr Py PyFloat XmlParser Reference DataCleanerText.

Lemma lstrip_by_app_l p pre x :
  Forall (fun c => p c = true) pre ->
  lstrip_by p (pre ++ x) = lstrip_by p x.
Proof.
  induction 1 as [|c pre Hc _ IH]; [reflexivity|].
  cbn [app lstrip_by]. now rewrite Hc.
Qed.

Lemma lstrip_by_app_r p x post :
  Forall (fun c => p c = true) post ->
  exists post',
    lstrip_by p (x ++ post) = lstrip_by p x ++ post'
    /\ Forall (fun c => p c = true) post'.
Proof.
  intros Hp. induction x as [|c x IH]; cbn [app lstrip_by].
  - exists []. split; [|constructor].
    rewrite <- (app_nil_r post), lstrip_by_app_l by exact Hp. reflexivity.
  - destruct (p c); [exact IH|]. exists post. now split.
Qed.

(** Stripping ignores what is stripped on both sides. *)
Lemma strip_by_app p pre x post :
  Forall (fun c => p c = true) pre -> Forall (fun c => p c = true) post ->
  strip_by p (pre ++ x ++ post) = strip_by p x.
Proof.
  intros Hpre Hpost. unfold strip_by. rewrite lstrip_by_app_l by exact Hpre.
  destruct (lstrip_by_app_r p x post Hpost) as (post' & -> & Hp').
  rewrite rev_app_distr, lstrip_by_app_l; [reflexivity|].
  apply Forall_rev, Hp'.
Qed.

Lemma strip_by_split p l :
  exists pre post,
    l = pre ++ strip_by p l ++ post
    /\ Forall (fun c => p c = true) pre /\ Forall (fun c => p c = true) post.
Proof.
  destruct (lstrip_by_split p l) as (pre & Hl & Hpre).
  destruct (lstrip_by_split p (rev (lstrip_by p l))) as (q & Hq & Hq').
  exists pre, (rev q). split; [|split; [exact Hpre|apply Forall_rev, Hq']].
  unfold strip_by. rewrite <- rev_app_distr, <- Hq, rev_involutive.
  exact Hl.
Qed.

Lemma strip_by_ext p q l :
  Forall (fun c => p c = q c) l -> strip_by p l = strip_by q l.
Proof.
  assert (L : forall l, Forall (fun c => p c = q c) l ->
                        lstrip_by p l = lstrip_by q l).
  { induction 1 as [|c r Hc _ IH]; [reflexivity|].
    cbn [lstrip_by]. now rewrite Hc, IH. }
  intros H. unfold strip_by. rewrite (L l H). f_equal. apply L.
  apply Forall_rev, lstrip_by_Forall, H.
Qed.

Lemma replace_chars_app a b l1 l2 :
  replace_chars a b (l1 ++ l2) = replace_chars a b l1 ++ replace_chars a b l2.
Proof.
  induction l1 as [|c l1 IH]; [reflexivity|].
  cbn [app replace_chars]. rewrite IH.
  destruct (Ascii.eqb c a); [now rewrite app_assoc|reflexivity].
Qed.

Lemma limpar_app l1 l2 : limpar (l1 ++ l2) = limpar l1 ++ limpar l2.
Proof. unfold limpar. now rewrite !replace_chars_app. Qed.

Lemma chars_texto_limpo s : chars (texto_limpo s) = limpar (chars s).
Proof.
  unfold texto_limpo, replace, limpar. rewrite !chars_str. reflexivity.
Qed.

Lemma float_space_isspace c : float_space c = true -> isspace c = true.
Proof.
  destruct c as [[] [] [] [] [] [] [] []]; vm_compute; intros H;
    try discriminate H; reflexivity.
Qed.

(** [float] reads the same number in a text and in the text trimmed before
    the separators are replaced, when [strip] and [float] agree on what a
    blank is. *)
Lemma float_of_str_texto_limpo_strip v :
  Forall (fun c => isspace c = float_space c) (chars v) ->
  float_of_str (texto_limpo (strip v)) = float_of_str (texto_limpo v).
Proof.
  intros H. unfold float_of_str. rewrite !chars_texto_limpo.
  unfold strip. rewrite chars_str, (strip_by_ext _ _ _ H).
  destruct (strip_by_split float_space (chars v))
    as (pre & post & Hl & Hpre & Hpost).
  assert (Hs : forall l, Forall (fun c => float_space c = true) l ->
                         limpar l = l).
  { intros l Hl'. apply limpar_spaces.
    eapply List.Forall_impl; [|exact Hl']. apply float_space_isspace. }
  rewrite Hl at 2.
  rewrite !limpar_app, (Hs pre Hpre), (Hs post Hpost).
  rewrite strip_by_app by assumption. reflexivity.
Qed.

Lemma convert_pt_br_to_float_ok value :
  exists x, convert_pt_br_to_float value = Ok x.
Proof.
  destruct value as [v|]; [|now exists zero]. unfold convert_pt_br_to_float.
  destruct (String.eqb v "" || String.eqb (strip v) ""); [now exists zero|].
  cbn zeta. destruct (String.eqb (strip v) "-"); [now exists zero|].
  destruct (float_of_str (texto_limpo (strip v))) as [x|e] eqn:E;
    [now exists x|].
  rewrite (float_of_str_raises _ _ E). now exists zero.
Qed.

Lemma convert_pt_br_to_float_converter_valor v :
  Forall (fun c => isspace c = float_space c) (chars v) ->
  convert_pt_br_to_float (Some v) = converter_valor (Some v).
Proof.
  intros H. unfold convert_pt_br_to_float, converter_valor.
  destruct (String.eqb v "" || String.eqb (strip v) ""); [reflexivity|].
  cbn zeta. rewrite <- (float_of_str_texto_limpo_strip v H).
  destruct (String.eqb (strip v) "-") eqn:E; [|reflexivity].
  apply String.eqb_eq in E. rewrite E. reflexivity.
Qed.

Lemma lstrip_by_snoc p x c :
  p c = false -> lstrip_by p (x ++ [c]) = lstrip_by p x ++ [c].
Proof.
  intros Hc. induction x as [|a x IH]; cbn [app lstrip_by].
  - now rewrite Hc.
  - destruct (p a); [exact IH|reflexivity].
Qed.

Lemma strip_by_cons p c l :
  p c = false -> exists l', strip_by p (c :: l) = c :: l'.
Proof.
  intros Hc. unfold strip_by. cbn [lstrip_by]. rewrite Hc.
  cbn [rev]. rewrite lstrip_by_snoc by exact Hc.
  rewrite rev_app_distr. cbn [rev app]. eauto.
Qed.

(** [float] rejects a text that begins with a character that [strip]
    removes and [float] does not skip. *)
Lemma float_of_str_separator c l :
  isspace c = true -> float_space c = false ->
  float_of_str (str (c :: l)) = Raise ValueError.
Proof.
  intros Hc Hf. unfold float_of_str. rewrite chars_str.
  destruct (strip_by_cons float_space c l Hf) as (l' & ->).
  destruct (space_char c Hc) as (Hp & _ & Hu & Hm & Hpl & Hd & Hi & Hn).
  cbn [drop_underscores]. rewrite Hu. cbn [andb].
  destruct (drop_underscores (Some c) l') as [l2|]; [|reflexivity].
  cbn [option_map].
  unfold parse_decimal, parse_sign. rewrite Hm, Hpl.
  cbn [span]. rewrite Hd, Hp. cbn [app].
  unfold parse_inf_or_nan, parse_sign. rewrite Hm, Hpl.
  cbn [map str string_of_list_ascii String.eqb]. rewrite Hi, Hn.
  reflexivity.
Qed.

Lemma strip_separator c v :
  isspace c = true -> strip (String c v) = strip v.
Proof.
  intros Hc. unfold strip, strip_by.
  change (chars (String c v)) with (c :: chars v).
  cbn [lstrip_by]. now rewrite Hc.
Qed.

Lemma converter_valor_separator c v :
  isspace c = true -> float_space c = false ->
  converter_valor (Some (String c v)) = Ok zero.
Proof.
  intros Hc Hf. unfold converter_valor.
  destruct (_ || _); [reflexivity|].
  rewrite <- (str_chars (texto_limpo _)), chars_texto_limpo.
  change (chars (String c v)) with ([c] ++ chars v).
  rewrite limpar_app, (limpar_spaces [c]) by (constructor; [exact Hc|constructor]).
  cbn [app]. rewrite (float_of_str_separator c _ Hc Hf). reflexivity.
Qed.

Lemma convert_pt_br_to_float_strip v :
  convert_pt_br_to_float (Some v)
  = if String.eqb (strip v) "" then Ok zero
    else if String.eqb (strip v) "-" then Ok zero
    else try_except (float_of_str (texto_limpo (strip v)))
           (fun e => match e with
                     | ValueError | AttributeError => true
                     | _ => false
                     end)
           (Ok zero).
Proof.
  unfold convert_pt_br_to_float. destruct (String.eqb v "") eqn:E;
    [|reflexivity].
  apply String.eqb_eq in E. subst v. reflexivity.
Qed.

(** X8. [convert_pt_br_to_float] never raises, and it reads every text as
    [converter_valor] of the parser does (the points removed, the comma
    turned into a point, 0.0 for what is not a number, a lone dash
    included) as long as the text holds none of the characters that
    [str.strip] removes and [float] does not skip. *)
Theorem convert_pt_br_to_float_as_converter_valor :
  forall v,
    (exists x, convert_pt_br_to_float (Some v) = Ok x)
    /\ (Forall (fun c => isspace c = float_space c) (chars v) ->
        convert_pt_br_to_float (Some v) = converter_valor (Some v)
        /\ convert_pt_br_to_float (Some v) = Ok (numericConvert (Some v))).
Proof.
  intros v. split; [apply convert_pt_br_to_float_ok|].
  intros H. rewrite (convert_pt_br_to_float_converter_valor v H).
  split; [reflexivity|apply converter_valor_numericConvert].
Qed.

Lemma convert_pt_br_to_float_as_converter_valor_witness :
  convert_pt_br_to_float (Some " 1.234,56 ")
  = converter_valor (Some " 1.234,56 ")
  /\ convert_pt_br_to_float (Some " - ") = converter_valor (Some " - ").
Proof.
  split.
  - destruct (convert_pt_br_to_float_as_converter_valor " 1.234,56 ")
      as (_ & H).
    destruct H as [H _]; [|exact H].
    unfold chars. cbn [list_ascii_of_string]. repeat constructor.
  - destruct (convert_pt_br_to_float_as_converter_valor " - ") as (_ & H).
    destruct H as [H _]; [|exact H].
    unfold chars. cbn [list_ascii_of_string]. repeat constructor.
Defined.

(** X9. The two converters part on the four separators U+001C to U+001F,
    which [str.strip] removes and [float] does not skip: a text that
    begins with one reads as 0.0 by [converter_valor], and by
    [convert_pt_br_to_float] as the text without it. *)
Theorem converters_differ_on_separators :
  forall c v,
    isspace c = true -> float_space c = false ->
    converter_valor (Some (String c v)) = Ok zero
    /\ convert_pt_br_to_float (Some (String c v))
       = convert_pt_br_to_float (Some v).
Proof.
  intros c v Hc Hf. split; [now apply converter_valor_separator|].
  rewrite !convert_pt_br_to_float_strip, (strip_separator c v Hc).
  reflexivity.
Qed.

Lemma converters_differ_on_separators_witness :
  converter_valor (Some (String (ascii_of_nat 28) "5,00")) = Ok zero
  /\ convert_pt_br_to_float (Some (String (ascii_of_nat 28) "5,00"))
     = convert_pt_br_to_float (Some "5,00").
Proof.
  apply (converters_differ_on_separators (ascii_of_nat 28) "5,00");
    reflexivity.
Defined.

End Converters.

(* ===================================================================== *)
(** ** What the conversion of columns leaves alone *)
(* ===================================================================== *)

Section NumericColumnsFrame.
Import PyStr Py PyFloat XmlParser Pandas DataCleaner ReferenceTables.
Variable astype_str : value -> string.
Variable to_numeric_strings : list string -> column.

Lemma convert_column_other replace_dash df col name :
  col <> name ->
  columns (convert_column astype_str to_numeric_strings replace_dash df col)
    !! name = columns df !! name.
Proof.
  intros Hne. unfold convert_column.
  destruct (columns df !! col) as [c|]; [|reflexivity].
  destruct (is_numeric_dtype c); cbn [set_column columns];
    now rewrite lookup_insert_ne by exact Hne.
Qed.

Lemma convert_column_names replace_dash df col name :
  is_Some (columns (convert_column astype_str to_numeric_strings
                      replace_dash df col) !! name)
  <-> is_Some (columns df !! name).
Proof.
  destruct (decide (col = name)) as [->|Hne];
    [|now rewrite convert_column_other].
  unfold convert_column. destruct (columns df !! name) as [c|] eqn:E;
    [|now rewrite E].
  destruct (is_numeric_dtype c); cbn [set_column columns];
    rewrite lookup_insert_eq; split; eauto.
Qed.

Lemma convert_column_numeric replace_dash df col name c :
  columns df !! name = Some c -> is_numeric_dtype c = true ->
  columns (convert_column astype_str to_numeric_strings replace_dash df col)
    !! name = Some c.
Proof.
  intros H Hn. destruct (decide (col = name)) as [->|Hne];
    [|now rewrite convert_column_other].
  unfold convert_column. rewrite H, Hn. cbn [set_column columns].
  rewrite lookup_insert_eq. now destruct c.
Qed.

End NumericColumnsFrame.

Section NumericColumnsFrameFacts.
Import PyStr Py PyFloat XmlParser Pandas DataCleaner ReferenceTables.

(** X10. [convert_numeric_columns] touches nothing but the listed columns
    that hold text: the table keeps its column names (a listed name that is
    missing is not created), a column that is not listed comes out as it
    went in, and so does every column of a numeric dtype, of integers as
    well as of floats, listed or not. *)
Theorem convert_numeric_columns_only_listed_text :
  forall astype_str to_numeric_strings df cols replace_dash,
    let out := convert_numeric_columns astype_str to_numeric_strings
                 df cols replace_dash in
    (forall name, is_Some (columns out !! name)
                  <-> is_Some (columns df !! name))
    /\ (forall name, ~ In name cols ->
                     columns out !! name = columns df !! name)
    /\ (forall name c, columns df !! name = Some c ->
                       is_numeric_dtype c = true ->
                       columns out !! name = Some c).
Proof.
  intros astype_str to_numeric_strings df cols replace_dash.
  unfold convert_numeric_columns. cbv zeta. revert df.
  induction cols as [|col cols IH]; intros df; cbn [fold_left].
  - split; [reflexivity|]. split; [reflexivity|]. intros name c H _. exact H.
  - destruct (IH (convert_column astype_str to_numeric_strings
                    replace_dash df col)) as (H1 & H2 & H3).
    split; [|split].
    + intros name. rewrite H1. apply convert_column_names.
    + intros name Hn. rewrite H2 by (intros Hin; apply Hn; now right).
      apply convert_column_other. intros ->. apply Hn. now left.
    + intros name c Hc Hnum. apply H3; [|exact Hnum].
      now apply convert_column_numeric.
Qed.

Lemma convert_numeric_columns_only_listed_text_witness :
  let df := {| index := [VInt 0];
               columns := {[ "CNPJ_FUNDO" := Object [VStr "51114682000102"];
                             "QT_COTISTAS" := Int64 [12%Z] ]} |} in
  let out := convert_numeric_columns (fun _ => "") (fun _ => Float64 [])
               df ["QT_COTISTAS"; "ATIVO_TOTAL"] true in
  columns out !! "CNPJ_FUNDO" = Some (Object [VStr "51114682000102"])
  /\ columns out !! "QT_COTISTAS" = Some (Int64 [12%Z]).
Proof.
  intros df out.
  destruct (convert_numeric_columns_only_listed_text
              (fun _ => "") (fun _ => Float64 [])
              df ["QT_COTISTAS"; "ATIVO_TOTAL"] true) as (_ & H2 & H3).
  split.
  - unfold out. rewrite H2; [vm_compute; reflexivity|].
    cbn [In]. intros [H|[H|[]]]; discriminate H.
  - apply H3; [vm_compute; reflexivity|reflexivity].
Defined.

End NumericColumnsFrameFacts.

(* ===================================================================== *)
(** ** The diff report: duplicated identifiers, one record per cell *)
(* ===================================================================== *)

Section DiffReportMore.
Import PyStr Py PyFloat XmlParser Pandas DiffGenerator ReferenceTables.

Lemma collect_keys df_v1 df_v2 pairs : forall recs,
  collect df_v1 df_v2 pairs = Ok recs ->
  sublist (map (fun r => (CNPJ_FUNDO r, COLUNA r)) recs) pairs.
Proof.
  induction pairs as [|[cnpj col] rest IH]; intros recs H; cbn [collect] in H.
  - injection H as <-. constructor.
  - destruct (diff_cell df_v1 df_v2 cnpj col) as [o|e] eqn:Hc;
      cbn [bind] in H; [|discriminate].
    destruct (collect df_v1 df_v2 rest) as [rs|e] eqn:Hr;
      cbn [bind] in H; [|discriminate].
    injection H as <-. specialize (IH rs eq_refl).
    destruct o as [x|]; [|now apply sublist_cons].
    pose proof (proj1 (diff_cell_some _ _ _ _ _) Hc) as (E1 & E2 & _).
    cbn [map]. rewrite E1, E2. now apply sublist_skip.
Qed.

Lemma NoDup_list_prod {A B} (a : list A) (b : list B) :
  NoDup a -> NoDup b -> NoDup (list_prod a b).
Proof.
  intros Ha Hb. induction Ha as [|x a Hx Ha IH]; [constructor|].
  cbn [list_prod]. apply NoDup_app. split; [|split; [|exact IH]].
  - apply (NoDup_fmap_2 _). exact Hb.
  - intros [x' y] H1 H2. apply list_elem_of_fmap in H1.
    destruct H1 as (y' & Heq & _). injection Heq as -> ->.
    apply list_elem_of_In, in_prod_iff in H2. apply Hx.
    now apply list_elem_of_In.
Qed.

(** X11. When an identifier carried by both tables is carried by several
    rows of one of them, and a field is numeric-typed in both, the diff
    report is not produced: reading the cell gives a series, and the test
    of a missing value raises [ValueError].  The tables are any two whose
    columns are as long as their index. *)
Theorem generate_diff_report_duplicate_identifier :
  forall df_v1 df_v2 label col,
    let t1 := set_index df_v1 "CNPJ_FUNDO" in
    let t2 := set_index df_v2 "CNPJ_FUNDO" in
    (forall k c, columns t1 !! k = Some c ->
                 column_length c = length (index t1)) ->
    (forall k c, columns t2 !! k = Some c ->
                 column_length c = length (index t2)) ->
    In label (index t1) -> In label (index t2) ->
    (2 <= length (positions (index t1) label)
     \/ 2 <= length (positions (index t2) label))%nat ->
    numeric_in t1 col -> numeric_in t2 col ->
    generate_diff_report df_v1 df_v2 = Raise ValueError.
Proof.
  intros df_v1 df_v2 label col t1 t2 L1 L2 Hi1 Hi2 Hdup Hc1 Hc2. unfold generate_diff_report.
  fold t1 t2.
  assert (Hl : In label (common_labels (index t1) (index t2)))
    by now apply common_labels_In.
  assert (Hc : In col (common_cols (numeric_cols t1) (numeric_cols t2)))
    by (apply common_cols_In; split; now apply numeric_cols_In).
  destruct (common_labels (index t1) (index t2)) as [|l ls] eqn:El;
    [destruct Hl|].
  destruct (common_cols (numeric_cols t1) (numeric_cols t2)) as [|c cs] eqn:Ec;
    [destruct Hc|].
  rewrite <- El, <- Ec in *.
  apply collect_raises.
  - intros cnpj k Hin. apply in_prod_iff in Hin. destruct Hin as [Ha Hb].
    apply common_labels_In in Ha. apply common_cols_In in Hb.
    destruct Ha as [A1 A2]. destruct Hb as [B1 B2].
    apply numeric_cols_In in B1. apply numeric_cols_In in B2.
    destruct (diff_cell_aligned t1 t2 cnpj k L1 L2 A1 A2 B1 B2)
      as [[H _]|H]; [now left|now right].
  - exists label, col. split; [now apply in_prod_iff|].
    destruct (diff_cell_aligned t1 t2 label col L1 L2 Hi1 Hi2 Hc1 Hc2)
      as [(_ & N1 & N2)|H]; [lia|exact H].
Qed.

Lemma generate_diff_report_duplicate_identifier_witness :
  generate_diff_report (tabela [("A", of_Z 10); ("A", of_Z 11)])
    (tabela [("A", of_Z 12)]) = Raise ValueError.
Proof.
  apply (generate_diff_report_duplicate_identifier
           (tabela [("A", of_Z 10); ("A", of_Z 11)])
           (tabela [("A", of_Z 12)]) (VStr "A") "VALOR").
  - apply tabela_aligned.
  - apply tabela_aligned.
  - rewrite set_index_tabela. cbn. tauto.
  - rewrite set_index_tabela. cbn. tauto.
  - left. rewrite set_index_tabela. vm_compute. lia.
  - apply tabela_numeric.
  - apply tabela_numeric.
Defined.

(** X12. A diff report holds at most one record for an identifier and a
    field: no two of its records agree on both. *)
Theorem generate_diff_report_one_record_per_cell :
  forall df_v1 df_v2 recs,
    generate_diff_report df_v1 df_v2 = Ok recs ->
    NoDup (map (fun r => (CNPJ_FUNDO r, COLUNA r)) recs).
Proof.
  intros df_v1 df_v2 recs. unfold generate_diff_report.
  set (t1 := set_index df_v1 "CNPJ_FUNDO").
  set (t2 := set_index df_v2 "CNPJ_FUNDO").
  pose proof (NoDup_remove_dups
                (List.filter (fun l => bool_decide (l ∈ index t2))
                   (index t1))) as Nl.
  pose proof (NoDup_remove_dups
                (List.filter (fun c => bool_decide (c ∈ numeric_cols t2))
                   (numeric_cols t1))) as Nc.
  fold (common_labels (index t1) (index t2)) in Nl.
  fold (common_cols (numeric_cols t1) (numeric_cols t2)) in Nc.
  destruct (common_labels (index t1) (index t2)) as [|l ls] eqn:El.
  { intros H. injection H as <-. constructor. }
  destruct (common_cols (numeric_cols t1) (numeric_cols t2)) as [|c cs] eqn:Ec.
  { intros H. injection H as <-. constructor. }
  intros H. apply collect_keys in H.
  eapply sublist_NoDup; [|exact H]. now apply NoDup_list_prod.
Qed.

Lemma generate_diff_report_one_record_per_cell_witness :
  NoDup [(VStr "A", "VALOR"); (VStr "B", "VALOR")].
Proof.
  exact (generate_diff_report_one_record_per_cell
           (tabela [("A", of_Z 10); ("B", of_Z 1)])
           (tabela [("A", of_Z 12); ("B", of_Z 3)])
           [ {| CNPJ_FUNDO := VStr "A"; COLUNA := "VALOR";
                DIFERENCA := NFloat (of_Z 2) |};
             {| CNPJ_FUNDO := VStr "B"; COLUNA := "VALOR";
                DIFERENCA := NFloat (of_Z 2) |} ]
           ltac:(vm_compute; reflexivity)).
Defined.

End DiffReportMore.

(* ===================================================================== *)
(** ** The retry session for any number of retries *)
(* ===================================================================== *)

Section RetrySession.
Import PyStr Py PyFloat ApiClient ReferenceRetry.

Lemma increment_total r a r' :
  increment r a = Some r' -> total r' = (total r - 1)%Z /\ (0 <= total r')%Z.
Proof.
  unfold increment, is_exhausted. cbn [total].
  destruct (total r - 1 <? 0)%Z eqn:E; [discriminate|]. cbn [orb].
  destruct (_ || _); [discriminate|]. intros H. injection H as <-.
  cbn [total]. lia.
Qed.

(** One pause is recorded for every attempt after the first. *)
Lemma urlopen_sleeps fuel : forall r t i s,
  (total r < Z.of_nat fuel)%Z ->
  length (sleeps (urlopen fuel r t i s))
  = (length s + (attempts (urlopen fuel r t i s) - S i))%nat.
Proof.
  induction fuel as [|fuel IH]; intros r t i s Hf; [cbn; lia|].
  assert (Hstep : forall a,
    let q := match increment r a with
             | None => {| result_of := Exhausted; attempts := S i;
                          sleeps := s |}
             | Some r' =>
                 urlopen fuel r' t (S i) (s ++ [pause r' a (S i)])
             end in
    length (sleeps q) = (length s + (attempts q - S i))%nat).
  { intros a. cbv zeta. destruct (increment r a) as [r'|] eqn:E;
      [|cbn; lia].
    destruct (increment_total r a r' E) as [Ht Hp].
    rewrite IH by lia. rewrite length_app. cbn [length].
    destruct (urlopen_attempts fuel r' t (S i) (s ++ [pause r' a (S i)]))
      as [_ H2].
    specialize (H2 ltac:(lia)). lia. }
  cbn [urlopen].
  destruct (t i) as [| |status ra] eqn:E.
  - apply (Hstep ConnectError).
  - apply (Hstep ReadError).
  - destruct (is_retry r status ra).
    + apply (Hstep (Response status ra)).
    + cbn [attempts sleeps]. lia.
Qed.

(** X13. A session created with [retries = n], for any [n] that is not
    negative and whatever the backoff factor and the list of statuses,
    makes at least one and at most [n + 1] attempts per request and pauses
    once between two attempts.  After [k <= n] failures that are retried
    (connection and read failures, statuses of the list), a response that
    is not to be retried is returned at attempt [k + 1]; [n + 1] such
    failures in a row exhaust the retries. *)
Theorem retry_session_attempts :
  forall n backoff statuses t,
    (0 <= n)%Z ->
    let s := _create_retry_session n backoff statuses in
    (1 <= attempts (get s t) <= Z.to_nat n + 1)%nat
    /\ length (sleeps (get s t)) = (attempts (get s t) - 1)%nat
    /\ (forall k status ra,
          (k <= Z.to_nat n)%nat ->
          (forall j, (j < k)%nat -> retried (max_retries s) (t j)) ->
          t k = Response status ra ->
          returned_at_once (max_retries s) status ra ->
          result_of (get s t) = Returned status
          /\ attempts (get s t) = S k)
    /\ ((forall j, (j <= Z.to_nat n)%nat -> retried (max_retries s) (t j)) ->
        result_of (get s t) = Exhausted
        /\ attempts (get s t) = (Z.to_nat n + 1)%nat).
Proof.
  intros n backoff statuses t Hn s. unfold get.
  change (total (max_retries s)) with n.
  split; [|split; [|split]].
  - destruct (urlopen_attempts (Z.to_nat n + 1) (max_retries s) t 0 [])
      as [H1 H2].
    specialize (H2 ltac:(lia)). lia.
  - rewrite urlopen_sleeps by (change (total (max_retries s)) with n; lia).
    cbn [length]. lia.
  - intros k status ra Hk Hj Ht Hret.
    apply (urlopen_returns k (Z.to_nat n + 1) (max_retries s) t 0 []
             status ra); try assumption;
      try (change (total (max_retries s)) with n);
      try (change (connect (max_retries s)) with n);
      try (change (read (max_retries s)) with n); try lia.
  - intros Hj.
    destruct (urlopen_exhausts (Z.to_nat n) (Z.to_nat n + 1)
                (max_retries s) t 0 []) as [H1 H2];
      try assumption;
      try (change (total (max_retries s)) with n);
      try (change (connect (max_retries s)) with n);
      try (change (read (max_retries s)) with n); try lia.
    split; [exact H1|]. rewrite H2. lia.
Qed.

Lemma retry_session_attempts_witness :
  result_of (get (_create_retry_session 1 2 [503]%Z) (fails_then_succeeds 1))
  = Returned 200
  /\ attempts (get (_create_retry_session 1 2 [503]%Z)
                 (fails_then_succeeds 1)) = 2%nat.
Proof.
  destruct (retry_session_attempts 1 2 [503]%Z (fails_then_succeeds 1)
              ltac:(lia)) as (_ & _ & H & _).
  apply (H 1%nat 200%Z false).
  - cbn. lia.
  - intros j Hj. destruct j as [|j]; [|lia]. vm_compute. repeat constructor.
  - reflexivity.
  - split; [|now left]. vm_compute.
    intros H'. apply elem_of_cons in H'. destruct H' as [H'|H'];
      [discriminate H'|]. now apply elem_of_nil in H'.
Defined.

End RetrySession.

(* ===================================================================== *)
(** ** The row of a snapshot *)
(* ===================================================================== *)

Section ToDict.
Import PyStr Py PyFloat XmlParser Reference ReferenceSnapshot ReferenceRows.

(** [to_dict] keeps the value of an attribute under its upper-case name
    when no other attribute has the same upper-case name. *)
Lemma to_dict_lookup_upper (d : gmap string value) k v :
  (forall k', is_Some (d !! k') -> upper k' = upper k -> k' = k) ->
  d !! k = Some v -> to_dict d !! upper k = Some v.
Proof.
  intros Hinj Hk. unfold to_dict.
  destruct (list_to_map (M := gmap string value) _ !! upper k) as [v'|] eqn:E.
  - apply elem_of_list_to_map_2 in E. apply list_elem_of_In, in_map_iff in E.
    destruct E as ([k' v''] & Heq & Hin). cbn [fst snd] in Heq.
    injection Heq as Hu ->.
    apply list_elem_of_In, elem_of_map_to_list in Hin.
    rewrite (Hinj k' (ex_intro _ _ Hin) Hu) in Hin. congruence.
  - exfalso. apply not_elem_of_list_to_map in E. apply E.
    apply list_elem_of_fmap. exists (upper k, v). split; [reflexivity|].
    apply list_elem_of_In, in_map_iff. exists (k, v). split; [reflexivity|].
    now apply list_elem_of_In, elem_of_map_to_list.
Qed.

Lemma to_dict_lookup_None (d : gmap string value) K :
  (forall k, is_Some (d !! k) -> upper k <> K) -> to_dict d !! K = None.
Proof.
  intros H. unfold to_dict. apply not_elem_of_list_to_map.
  intros Hin. apply list_elem_of_fmap in Hin.
  destruct Hin as ([K' v] & -> & Hin). cbn [fst] in *.
  apply list_elem_of_In, in_map_iff in Hin.
  destruct Hin as ([k v'] & Heq & Hin). cbn [fst snd] in Heq.
  injection Heq as <- ->.
  apply list_elem_of_In, elem_of_map_to_list in Hin.
  exact (H k (ex_intro _ _ Hin) eq_refl).
Qed.

Lemma NoDup_fmap_inj_on {A B} (f : A -> B) (l : list A) x y :
  NoDup (map f l) -> In x l -> In y l -> f x = f y -> x = y.
Proof.
  induction l as [|a l IH]; intros Hnd Hx Hy Hf; [destruct Hx|].
  cbn [map] in Hnd. apply NoDup_cons in Hnd. destruct Hnd as [Ha Hnd].
  destruct Hx as [->|Hx], Hy as [->|Hy]; [reflexivity| | |now apply IH].
  - exfalso. apply Ha. rewrite Hf. now apply list_elem_of_In, in_map.
  - exfalso. apply Ha. rewrite <- Hf. now apply list_elem_of_In, in_map.
Qed.

Lemma atributos_upper_NoDup : NoDup (map upper atributos).
Proof. apply (bool_decide_unpack _). vm_compute. reflexivity. Qed.

Lemma atributos_cover :
  forallb (fun k => existsb (String.eqb k) atributos)
    (map fst (atributos_indicadores zero zero zero zero zero)
     ++ map fst campos_numericos
     ++ "cnpj_fundo" :: map fst campos_identificacao) = true.
Proof. vm_compute. reflexivity. Qed.

Lemma atributos_In k l :
  In k l ->
  forallb (fun k => existsb (String.eqb k) atributos) l = true ->
  In k atributos.
Proof.
  intros Hin Hall. rewrite forallb_forall in Hall.
  specialize (Hall k Hin). apply existsb_exists in Hall.
  destruct Hall as (k' & Hk' & Heq). apply String.eqb_eq in Heq.
  now subst k'.
Qed.

Lemma find_fst_In {V} (l : list (string * V)) a kv :
  List.find (fun c => String.eqb (fst c) a) l = Some kv -> In a (map fst l).
Proof.
  intros H. apply find_some in H. destruct H as [Hin Heq].
  apply String.eqb_eq in Heq. subst a. now apply in_map.
Qed.

(** Every attribute of a snapshot is one of the list. *)
Lemma extrair_atributos float_str root fb dados k :
  extrair float_str root fb = Ok dados ->
  is_Some (dados !! k) -> In k atributos.
Proof.
  intros Hex. rewrite extrair_final in Hex. apply Ok_inj in Hex.
  rewrite <- Hex. clear Hex dados. rewrite setattrs_lookup.
  pose proof atributos_cover as Hc.
  rewrite !forallb_app in Hc. apply andb_prop in Hc. destruct Hc as [C1 Hc].
  apply andb_prop in Hc. destruct Hc as [C2 C3].
  destruct (List.find _ (rev (atributos_indicadores _ _ _ _ _)))
    as [kv|] eqn:E1.
  { intros _. apply find_fst_In in E1. rewrite map_rev, <- in_rev in E1.
    rewrite atributos_indicadores_keys in E1.
    exact (atributos_In k _ E1 C1). }
  unfold campos. rewrite (fold_insert_lookup (buscar_valor_xml root)).
  destruct (List.find _ (rev campos_numericos)) as [kv|] eqn:E2.
  { intros _. apply find_fst_In in E2. rewrite map_rev, <- in_rev in E2.
    exact (atributos_In k _ E2 C2). }
  destruct (existsb (String.eqb k)
              ("cnpj_fundo" :: map fst campos_identificacao)) eqn:E3.
  { intros _. apply existsb_exists in E3. destruct E3 as (k' & Hk' & Heq).
    apply String.eqb_eq in Heq. subst k'.
    exact (atributos_In k _ Hk' C3). }
  rewrite identificacao_other by exact E3.
  intros [v Hv]. unfold FIDCData_new in Hv.
  apply elem_of_list_to_map_2 in Hv. apply list_elem_of_In in Hv.
  unfold atributos. apply in_or_app. left.
  apply in_map_iff. now exists (k, v).
Qed.

Lemma parse_upper_names float_str root fb dados k k' :
  extrair float_str root fb = Ok dados ->
  is_Some (dados !! k) -> is_Some (dados !! k') ->
  upper k' = upper k -> k' = k.
Proof.
  intros Hex Hk Hk' Hu.
  apply (NoDup_fmap_inj_on upper atributos k' k atributos_upper_NoDup);
    [exact (extrair_atributos _ _ _ _ _ Hex Hk')
    |exact (extrair_atributos _ _ _ _ _ Hex Hk)|exact Hu].
Qed.

Lemma to_dict_key (d : gmap string value) K v :
  to_dict d !! K = Some v -> exists k, upper k = K /\ d !! k = Some v.
Proof.
  intros H. unfold to_dict in H. apply elem_of_list_to_map_2 in H.
  apply list_elem_of_In, in_map_iff in H.
  destruct H as ([k v'] & Heq & Hin). cbn [fst snd] in Heq.
  injection Heq as <- ->. exists k. split; [reflexivity|].
  now apply elem_of_map_to_list, list_elem_of_In.
Qed.

(** X14. [to_dict] renames and nothing else: every key of the dictionary
    is the upper-case name of an attribute that holds the value, and an
    attribute whose upper-case name no other attribute shares is found
    under that name with its value. *)
Theorem to_dict_upper_case_names :
  forall d : FIDCData,
    (forall K v, to_dict d !! K = Some v ->
                 exists k, upper k = K /\ d !! k = Some v)
    /\ (forall k v,
          d !! k = Some v ->
          (forall k', is_Some (d !! k') -> upper k' = upper k -> k' = k) ->
          to_dict d !! upper k = Some v).
Proof.
  intros d. split; [apply to_dict_key|].
  intros k v Hk Hinj. now apply to_dict_lookup_upper.
Qed.

Lemma to_dict_upper_case_names_witness :
  to_dict (<["status" := VStr "SUCESSO"]> {[ "ativo_total" := VFloat zero ]})
    !! upper "status" = Some (VStr "SUCESSO").
Proof.
  destruct (to_dict_upper_case_names
              (<["status" := VStr "SUCESSO"]>
                 {[ "ativo_total" := VFloat zero ]})) as [_ H].
  apply H; [reflexivity|].
  intros k' [v Hv] Hu. apply lookup_insert_Some in Hv.
  destruct Hv as [[<- _]|[_ Hv]]; [reflexivity|].
  apply lookup_singleton_Some in Hv. destruct Hv as [<- _].
  vm_compute in Hu. discriminate Hu.
Defined.

Lemma passo_parse_document float_str cnpj doc doc_id root dados :
  extrair float_str root cnpj = Ok dados ->
  EtlService.passo_parse float_str cnpj doc doc_id (Document root)
  = Ok (<["ID_DOCUMENTO" :=
            VStr (py_str float_str (default (VStr "") (doc !! "id")))]>
          (<["DATA_REFERENCIA_DOC" :=
               default (VStr "") (doc !! "dataReferencia")]>
             (to_dict dados))).
Proof.
  intros Hex. unfold EtlService.passo_parse, parse. rewrite Hex. reflexivity.
Qed.

Lemma setattrs_is_Some (l : list (string * value)) d k :
  is_Some (d !! k) -> is_Some (setattrs d l !! k).
Proof.
  intros H. rewrite setattrs_lookup. destruct (List.find _ _); eauto.
Qed.

Lemma campos_is_Some root d k :
  is_Some (d !! k) -> is_Some (campos root d !! k).
Proof.
  intros H. unfold campos. rewrite (fold_insert_lookup (buscar_valor_xml root)).
  destruct (List.find _ _); eauto.
Qed.

Lemma identificacao_is_Some float_str root fb d k :
  is_Some (d !! k) -> is_Some (identificacao float_str root fb d !! k).
Proof.
  intros H. unfold identificacao.
  repeat (apply lookup_insert_is_Some';  right). exact H.
Qed.

(** Every attribute of the list is set in a snapshot. *)
Lemma extrair_atributos_Some float_str root fb dados k :
  extrair float_str root fb = Ok dados ->
  In k atributos -> is_Some (dados !! k).
Proof.
  intros Hex Hin. unfold atributos in Hin. apply in_app_or in Hin.
  destruct Hin as [Hin|Hin].
  - rewrite extrair_final in Hex. apply Ok_inj in Hex. rewrite <- Hex.
    apply setattrs_is_Some, campos_is_Some, identificacao_is_Some.
    unfold FIDCData_new.
    destruct (list_to_map (M := gmap string value) FIDCData_defaults !! k)
      eqn:E; [eauto|].
    exfalso. apply not_elem_of_list_to_map in E. apply E.
    now apply list_elem_of_In.
  - cbn [In] in Hin.
    destruct Hin as [<-|[<-|[<-|[]]]]; eexists;
      apply (indicador_lookup float_str root fb _ _ _ Hex); reflexivity.
Qed.

(** X15. The row of an identifier whose document was downloaded and is
    well-formed: its status is "SUCESSO", the two document references come
    from the selected document (its [id] as text, its [dataReferencia],
    the empty string when the document lacks them), every other attribute
    of the snapshot is there under its upper-case name, and the row has no
    other column. *)
Theorem passo_parse_row :
  forall float_str cnpj doc doc_id root,
    exists dados row,
      parse float_str (Document root) cnpj = (true, Some dados, None)
      /\ EtlService.passo_parse float_str cnpj doc doc_id (Document root)
         = Ok row
      /\ row !! "STATUS" = Some (VStr "SUCESSO")
      /\ row !! "ID_DOCUMENTO"
         = Some (VStr (py_str float_str (default (VStr "") (doc !! "id"))))
      /\ row !! "DATA_REFERENCIA_DOC"
         = Some (default (VStr "") (doc !! "dataReferencia"))
      /\ (forall attr,
            In attr atributos ->
            attr <> "id_documento" -> attr <> "data_referencia_doc" ->
            is_Some (dados !! attr) /\ row !! upper attr = dados !! attr)
      /\ (forall K, is_Some (row !! K) ->
                    exists attr, In attr atributos /\ upper attr = K).
Proof.
  intros float_str cnpj doc doc_id root.
  destruct (parse_document_defaults float_str root cnpj)
    as (dados & Hex & Hst & _ & Hid & Hdr).
  eexists dados, _. split; [unfold parse; rewrite Hex; reflexivity|].
  split; [exact (passo_parse_document _ _ _ _ _ _ Hex)|].
  assert (Hup : forall attr v, dados !! attr = Some v ->
                               to_dict dados !! upper attr = Some v).
  { intros attr v Hv. apply to_dict_lookup_upper; [|exact Hv].
    intros k' Hk' Hu.
    exact (parse_upper_names _ _ _ _ _ _ Hex (ex_intro _ _ Hv) Hk' Hu). }
  assert (Hne : forall attr v a0 v0,
            dados !! attr = Some v -> dados !! a0 = Some v0 ->
            attr <> a0 -> upper a0 <> upper attr).
  { intros attr v a0 v0 Hv H0 Hd Hu. apply Hd. symmetry.
    exact (parse_upper_names _ _ _ _ _ _ Hex
             (ex_intro _ _ Hv) (ex_intro _ _ H0) Hu). }
  split; [|split; [|split; [|split]]].
  - rewrite !lookup_insert_ne by done. exact (Hup "status" _ Hst).
  - apply lookup_insert_eq.
  - rewrite lookup_insert_ne by done. apply lookup_insert_eq.
  - intros attr Hin H1 H2.
    destruct (extrair_atributos_Some _ _ _ _ _ Hex Hin) as [v Hv].
    split; [eauto|].
    rewrite lookup_insert_ne by exact (Hne attr v "id_documento" _ Hv Hid H1).
    rewrite lookup_insert_ne
      by exact (Hne attr v "data_referencia_doc" _ Hv Hdr H2).
    rewrite Hv. exact (Hup attr v Hv).
  - intros K HK.
    destruct (decide ("ID_DOCUMENTO" = K)) as [<-|N1].
    { exists "id_documento". split; [|reflexivity].
      exact (extrair_atributos _ _ _ _ _ Hex (ex_intro _ _ Hid)). }
    rewrite lookup_insert_ne in HK by exact N1.
    destruct (decide ("DATA_REFERENCIA_DOC" = K)) as [<-|N2].
    { exists "data_referencia_doc". split; [|reflexivity].
      exact (extrair_atributos _ _ _ _ _ Hex (ex_intro _ _ Hdr)). }
    rewrite lookup_insert_ne in HK by exact N2.
    destruct HK as [v HK].
    destruct (to_dict_key dados K v HK) as (k & Hk & Hv).
    exists k. split; [|exact Hk].
    exact (extrair_atributos _ _ _ _ _ Hex (ex_intro _ _ Hv)).
Qed.

Lemma passo_parse_row_witness :
  exists dados row,
    parse (fun _ => "")
      (Document (filing "51199121000145" "1.000,00" "10,00" "0,00")) ""
    = (true, Some dados, None)
    /\ EtlService.passo_parse (fun _ => "") ""
         {[ "id" := VInt 7 ]} (VInt 7)
         (Document (filing "51199121000145" "1.000,00" "10,00" "0,00"))
       = Ok row
    /\ row !! "ID_DOCUMENTO" = Some (VStr "7")
    /\ row !! "INADIMPLENCIA_TOTAL" = dados !! "inadimplencia_total".
Proof.
  destruct (passo_parse_row (fun _ => "") "" {[ "id" := VInt 7 ]} (VInt 7)
              (filing "51199121000145" "1.000,00" "10,00" "0,00"))
    as (dados & row & Hp & Hr & _ & Hid & _ & H & _).
  exists dados, row. split; [exact Hp|]. split; [exact Hr|].
  split; [exact Hid|].
  apply (H "inadimplencia_total"); [vm_compute; tauto| |]; discriminate.
Defined.

End ToDict.

(* ===================================================================== *)
(** ** The rows of a batch *)
(* ===================================================================== *)

Section BatchRows.
Import PyStr Py PyFloat XmlParser EtlService ReferenceRows.

Variable World : Type.
Variable Docs : Type.
Variable buscar_documentos :
  string -> World -> result (retorno Docs) * World.
Variable filtrar_informe_mensal :
  Docs -> World -> result (retorno Docs) * World.
Variable selecionar_documento_mais_recente :
  Docs -> World -> result (retorno (gmap string value)) * World.
Variable baixar_xml :
  value -> World -> result (retorno xml_content) * World.
Variable sleep : Z -> World -> World.
Variable float_str : float -> string.

Lemma passo_parse_row_ok cnpj doc doc_id xml r :
  passo_parse float_str cnpj doc doc_id xml = Ok r -> row_ok cnpj r.
Proof.
  destruct xml as [erro|root].
  - unfold passo_parse. rewrite parse_malformed. intros H. injection H as <-.
    right. eexists _, _. split; [|reflexivity]. cbn. tauto.
  - destruct (parse_document_defaults float_str root cnpj)
      as (dados & Hex & Hst & _).
    rewrite (passo_parse_document _ _ _ doc_id _ _ Hex).
    intros H. injection H as <-. left.
    rewrite !lookup_insert_ne by done.
    apply to_dict_lookup_upper with (k := "status"); [|exact Hst].
    intros k' Hk' Hu.
    exact (parse_upper_names _ _ _ _ _ _ Hex (ex_intro _ _ Hst) Hk' Hu).
Qed.

Lemma process_single_cnpj_row_ok cnpj w :
  row_ok cnpj
    (fst (process_single_cnpj World Docs buscar_documentos
            filtrar_informe_mensal selecionar_documento_mais_recente
            baixar_xml float_str cnpj w)).
Proof.
  destruct (single_row World Docs buscar_documentos filtrar_informe_mensal
              selecionar_documento_mais_recente baixar_xml float_str cnpj w)
    as [(s & m & -> & Hs)|(doc & id & xml & H)].
  - right. eauto.
  - exact (passo_parse_row_ok _ _ _ _ _ H).
Qed.

Lemma processar_row_ok n cnpjs : forall i w,
  Forall2 row_ok cnpjs
    (fst (processar World Docs buscar_documentos filtrar_informe_mensal
            selecionar_documento_mais_recente baixar_xml sleep float_str
            n i cnpjs w)).
Proof.
  intros i w.
  pose proof (processar_rows World Docs buscar_documentos
                filtrar_informe_mensal selecionar_documento_mais_recente
                baixar_xml sleep float_str n cnpjs i w) as H.
  eapply Forall2_impl; [exact H|].
  intros cnpj r (w0 & ->). apply process_single_cnpj_row_ok.
Qed.

End BatchRows.

Section BatchRowsFacts.
Import PyStr Py PyFloat XmlParser EtlService ReferenceRows.

(** X16. Whatever the client does (its steps may fail or raise), a batch
    that is not empty gives its table: one row per identifier, in the
    order of the input, and each row either has the status "SUCESSO" or is
    the report of a failure, made of the identifier as given, one of the
    six failure statuses and a message. *)
Theorem process_batch_rows_report :
  forall World Docs buscar_documentos filtrar_informe_mensal
         selecionar_documento_mais_recente baixar_xml sleep float_str
         cnpjs (w : World),
    cnpjs <> [] ->
    exists rows w',
      process_batch World Docs buscar_documentos filtrar_informe_mensal
        selecionar_documento_mais_recente baixar_xml sleep float_str cnpjs w
      = (Ok rows, w')
      /\ length rows = length cnpjs
      /\ Forall2 row_ok cnpjs rows.
Proof.
  intros World Docs buscar filtrar selecionar baixar sleep float_str
    cnpjs w Hne.
  destruct (process_batch_rows World Docs buscar filtrar selecionar baixar
              sleep float_str cnpjs w Hne)
    as (rows & w' & Hb & Hlen & Hrows).
  exists rows, w'. split; [exact Hb|]. split; [exact Hlen|].
  eapply Forall2_impl; [exact Hrows|].
  intros cnpj r (w0 & ->). apply process_single_cnpj_row_ok.
Qed.

Lemma process_batch_rows_report_witness :
  exists rows,
    fst (process_batch unit unit
           (fun _ w => (Ok (Falha "Sem documentos"), w))
           (fun d w => (Ok (Sucesso d), w))
           (fun _ w => (Ok (Sucesso ∅), w))
           (fun _ w => (Ok (Falha "HTTP 404"), w))
           (fun _ w => w) (fun _ => "")
           ["51199121000145"; "17167935000141"] tt) = Ok rows
    /\ length rows = 2%nat.
Proof.
  destruct (process_batch_rows_report unit unit
              (fun _ w => (Ok (Falha "Sem documentos"), w))
              (fun d w => (Ok (Sucesso d), w))
              (fun _ w => (Ok (Sucesso ∅), w))
              (fun _ w => (Ok (Falha "HTTP 404"), w))
              (fun _ w => w) (fun _ => "")
              ["51199121000145"; "17167935000141"] tt)
    as (rows & w' & Hb & Hlen & _); [discriminate|].
  exists rows. rewrite Hb. split; [reflexivity|exact Hlen].
Defined.

End BatchRowsFacts.

(* ===================================================================== *)
(** ** The flags of quality assurance *)
(* ===================================================================== *)

Section Validation.
Import PyStr Py PyFloat XmlParser Pandas EtlService DataValidator.
Import EtlValidation ReferenceRows ReferenceValidation.

Variable infer_column : list (option value) -> column.
Hypothesis infer_amounts : infers_amounts infer_column.

Lemma coluna_absent df col :
  has_column df col = false -> coluna infer_column df col = Raise KeyError.
Proof. intros H. unfold coluna. now rewrite H. Qed.

Lemma coluna_amounts df col :
  has_column df col = true ->
  Forall (fun r : row => amount_cell (r !! col)) df ->
  coluna infer_column df col = Ok (Float64 (map (fun r : row => amount (r !! col)) df)).
Proof.
  intros H Hall. unfold coluna. rewrite H, infer_amounts.
  - now rewrite map_map.
  - apply List.Forall_map. exact Hall.
Qed.

Lemma zip_with_map {A} (f g : A -> bool) (op : bool -> bool -> bool) l :
  zip_with op (map f l) (map g l) = map (fun x => op (f x) (g x)) l.
Proof. induction l as [|x l IH]; [reflexivity|]. cbn. now rewrite IH. Qed.

(** On a table whose four columns of amounts exist and hold floats or
    nothing, the validations give the flags of each row. *)
Lemma apply_all_validations_amounts df :
  Forall (fun col => has_column df col = true) colunas_validadas ->
  Forall (fun col => Forall (fun r : row => amount_cell (r !! col)) df)
    colunas_validadas ->
  apply_all_validations infer_column df
  = Ok {| linhas := df;
          ATIVO_ZERO_FLAG := map (fun r => fst (fst (flags_of r))) df;
          CARTEIRA_BRUTA_ZERO_COM_INAD_FLAG :=
            map (fun r => snd (fst (flags_of r))) df;
          SEM_POSICAO_FLAG := map (fun r => snd (flags_of r)) df |}.
Proof.
  intros Hc Ha. unfold colunas_validadas in *.
  repeat match goal with
         | H : Forall _ (_ :: _) |- _ =>
             let H1 := fresh in let H2 := fresh in
             apply Forall_cons in H; destruct H as [H1 H2]
         end.
  unfold apply_all_validations, validate_ativo_zero,
    validate_carteira_bruta_zero_com_inad, validate_sem_posicao.
  rewrite !coluna_amounts by assumption.
  cbn [bind gt_0 eq_0]. unfold series_and. rewrite !map_map.
  rewrite !zip_with_map. reflexivity.
Qed.

End Validation.

Section PipelineRows.
Import PyStr Py PyFloat XmlParser Pandas EtlService DataValidator.
Import EtlValidation Reference ReferenceSnapshot ReferenceRows.
Import ReferenceValidation.

Lemma erro_row_amounts cnpj status mensagem :
  In status status_de_erro -> row_amounts (erro_row cnpj status mensagem).
Proof.
  intros Hs. left. split.
  - unfold sucesso. apply bool_decide_eq_false.
    rewrite (proj1 (erro_row_status cnpj status mensagem)).
    intros H. injection H as ->. cbn in Hs.
    repeat (destruct Hs as [Hs|Hs]; [discriminate Hs|]). destruct Hs.
  - unfold colunas_validadas, erro_row.
    repeat constructor;
      rewrite !lookup_insert_ne by done; now apply lookup_singleton_ne.
Qed.

Lemma passo_parse_lookup float_str root fb (doc : gmap string value) dados
  attr v :
  extrair float_str root fb = Ok dados ->
  dados !! attr = Some v ->
  attr <> "id_documento" -> attr <> "data_referencia_doc" ->
  (<["ID_DOCUMENTO" :=
       VStr (py_str float_str (default (VStr "") (doc !! "id")))]>
     (<["DATA_REFERENCIA_DOC" :=
          default (VStr "") (doc !! "dataReferencia")]>
        (to_dict dados)) : row) !! upper attr = Some v.
Proof.
  intros Hex Hv H1 H2.
  destruct (extrair_atributos_Some float_str root fb dados "id_documento"
              Hex ltac:(vm_compute; tauto)) as [v1 Hid].
  destruct (extrair_atributos_Some float_str root fb dados
              "data_referencia_doc" Hex ltac:(vm_compute; tauto))
    as [v2 Hdr].
  assert (Hne : forall a0 v0, dados !! a0 = Some v0 -> attr <> a0 ->
                              upper a0 <> upper attr).
  { intros a0 v0 H0 Hd Hu. apply Hd. symmetry.
    exact (parse_upper_names _ _ _ _ _ _ Hex
             (ex_intro _ _ Hv) (ex_intro _ _ H0) Hu). }
  rewrite lookup_insert_ne by exact (Hne "id_documento" _ Hid H1).
  rewrite lookup_insert_ne by exact (Hne "data_referencia_doc" _ Hdr H2).
  apply to_dict_lookup_upper; [|exact Hv].
  intros k' Hk' Hu.
  exact (parse_upper_names _ _ _ _ _ _ Hex (ex_intro _ _ Hv) Hk' Hu).
Qed.

Lemma passo_parse_amounts float_str cnpj doc doc_id xml r :
  passo_parse float_str cnpj doc doc_id xml = Ok r -> row_amounts r.
Proof.
  destruct xml as [erro|root].
  - unfold passo_parse. rewrite parse_malformed. intros H. injection H as <-.
    apply erro_row_amounts. cbn. tauto.
  - destruct (parse_document_defaults float_str root cnpj)
      as (dados & Hex & Hst & _).
    rewrite (passo_parse_document _ _ _ doc_id _ _ Hex).
    intros H. injection H as <-. right. split.
    + unfold sucesso. apply bool_decide_eq_true.
      exact (passo_parse_lookup _ _ _ doc _ "status" _ Hex Hst
               ltac:(discriminate) ltac:(discriminate)).
    + unfold colunas_validadas. repeat constructor.
      * eexists.
        apply (passo_parse_lookup _ _ _ doc _ "ativo_total" _ Hex);
          [|discriminate..].
        apply (campo_numerico_lookup float_str root cnpj
                 "ativo_total" "VL_SOM_APLIC_ATIVO" dados); [|exact Hex].
        vm_compute. tauto.
      * eexists.
        apply (passo_parse_lookup _ _ _ doc _ "carteira_bruta" _ Hex);
          [|discriminate..].
        apply (indicador_lookup float_str root cnpj _ _ _ Hex). reflexivity.
      * eexists.
        apply (passo_parse_lookup _ _ _ doc _ "inadimplencia_total" _ Hex);
          [|discriminate..].
        apply (indicador_lookup float_str root cnpj _ _ _ Hex). reflexivity.
      * eexists.
        apply (passo_parse_lookup _ _ _ doc _ "carteira_total" _ Hex);
          [|discriminate..].
        apply (campo_numerico_lookup float_str root cnpj
                 "carteira_total" "VL_CARTEIRA" dados); [|exact Hex].
        vm_compute. tauto.
Qed.

End PipelineRows.

Section ValidatedBatch.
Import PyStr Py PyFloat XmlParser Pandas EtlService DataValidator.
Import EtlValidation Reference ReferenceSnapshot ReferenceRows.
Import ReferenceValidation.

Variable World : Type.
Variable Docs : Type.
Variable buscar_documentos :
  string -> World -> result (retorno Docs) * World.
Variable filtrar_informe_mensal :
  Docs -> World -> result (retorno Docs) * World.
Variable selecionar_documento_mais_recente :
  Docs -> World -> result (retorno (gmap string value)) * World.
Variable baixar_xml :
  value -> World -> result (retorno xml_content) * World.
Variable sleep : Z -> World -> World.
Variable float_str : float -> string.
Variable infer_column : list (option value) -> column.

Lemma process_single_cnpj_amounts cnpj w :
  row_amounts
    (fst (process_single_cnpj World Docs buscar_documentos
            filtrar_informe_mensal selecionar_documento_mais_recente
            baixar_xml float_str cnpj w)).
Proof.
  destruct (single_row World Docs buscar_documentos filtrar_informe_mensal
              selecionar_documento_mais_recente baixar_xml float_str cnpj w)
    as [(s & m & -> & Hs)|(doc & id & xml & H)].
  - now apply erro_row_amounts.
  - exact (passo_parse_amounts _ _ _ _ _ _ H).
Qed.

(** A batch that is not empty gives rows that are reports of failures or
    rows of snapshots. *)
Lemma process_batch_amounts cnpjs w :
  cnpjs <> [] ->
  exists rows w',
    process_batch World Docs buscar_documentos filtrar_informe_mensal
      selecionar_documento_mais_recente baixar_xml sleep float_str cnpjs w
    = (Ok rows, w')
    /\ rows <> [] /\ has_column rows "STATUS" = true
    /\ Forall row_amounts rows.
Proof.
  intros Hne.
  destruct (process_batch_rows World Docs buscar_documentos
              filtrar_informe_mensal selecionar_documento_mais_recente
              baixar_xml sleep float_str cnpjs w Hne)
    as (rows & w' & Hb & Hlen & Hrows).
  exists rows, w'. split; [exact Hb|]. split; [|split].
  - intros ->. destruct cnpjs; [congruence|discriminate Hlen].
  - unfold process_batch in Hb.
    destruct (processar _ _ _ _ _ _ _ _ _ _ _ _) as [rs w2].
    destruct (has_column rs "STATUS") eqn:E; [|discriminate Hb].
    now injection Hb as <- _.
  - clear Hb Hlen Hne. induction Hrows as [|c r cs rs (w0 & ->) _ IH];
      [constructor|].
    constructor; [apply process_single_cnpj_amounts|exact IH].
Qed.

Lemma has_column_amounts (df : list row) col :
  In col colunas_validadas -> Forall row_amounts df ->
  has_column df col = existsb sucesso df.
Proof.
  intros Hc. induction 1 as [|r df Hr _ IH]; [reflexivity|].
  cbn [has_column existsb] in *. unfold has_column in IH. rewrite IH.
  f_equal. destruct Hr as [[Hs Hn]|[Hs Hv]]; rewrite Hs.
  - rewrite List.Forall_forall in Hn. rewrite (Hn col Hc).
    apply bool_decide_eq_false. now intros [x Hx].
  - rewrite List.Forall_forall in Hv. destruct (Hv col Hc) as [x ->].
    apply bool_decide_eq_true. eauto.
Qed.

Lemma amount_cells (df : list row) col :
  In col colunas_validadas -> Forall row_amounts df ->
  Forall (fun r : row => amount_cell (r !! col)) df.
Proof.
  intros Hc H. eapply List.Forall_impl; [|exact H].
  intros r [[_ Hn]|[_ Hv]].
  - rewrite List.Forall_forall in Hn. now rewrite (Hn col Hc).
  - rewrite List.Forall_forall in Hv. now destruct (Hv col Hc) as [x ->].
Qed.

Lemma apply_all_validations_no_success (df : list row) :
  Forall row_amounts df -> existsb sucesso df = false ->
  apply_all_validations infer_column df = Raise KeyError.
Proof.
  intros Hr Hs. unfold apply_all_validations, validate_ativo_zero.
  rewrite coluna_absent; [reflexivity|].
  rewrite (has_column_amounts df "ATIVO_TOTAL"); [exact Hs| |exact Hr].
  cbn. tauto.
Qed.

Lemma apply_all_validations_success (df : list row) :
  infers_amounts infer_column ->
  Forall row_amounts df -> existsb sucesso df = true ->
  apply_all_validations infer_column df
  = Ok {| linhas := df;
          ATIVO_ZERO_FLAG := map (fun r => fst (fst (flags_of r))) df;
          CARTEIRA_BRUTA_ZERO_COM_INAD_FLAG :=
            map (fun r => snd (fst (flags_of r))) df;
          SEM_POSICAO_FLAG := map (fun r => snd (flags_of r)) df |}.
Proof.
  intros Hi Hr Hs. apply apply_all_validations_amounts; [exact Hi| |].
  - apply List.Forall_forall. intros col Hc.
    now rewrite (has_column_amounts df col Hc Hr).
  - apply List.Forall_forall. intros col Hc. now apply amount_cells.
Qed.

Lemma df_empty_status (df : list row) :
  df <> [] -> Forall row_amounts df ->
  has_column df "STATUS" = true -> df_empty df = false.
Proof.
  intros Hne Hr Hst. unfold has_column in Hst.
  apply existsb_exists in Hst. destruct Hst as (r & Hin & Hs).
  apply bool_decide_eq_true in Hs. unfold df_empty.
  apply not_true_is_false. intros H. rewrite forallb_forall in H.
  specialize (H r Hin). apply bool_decide_eq_true in H. subst r.
  destruct Hs as [x Hx]. now rewrite lookup_empty in Hx.
Qed.

Lemma flags_of_failure (r : row) :
  Forall (fun col => r !! col = None) colunas_validadas ->
  flags_of r = (false, false, false).
Proof.
  unfold colunas_validadas. intros H.
  repeat match goal with
         | H : Forall _ (_ :: _) |- _ =>
             let H1 := fresh in let H2 := fresh in
             apply Forall_cons in H; destruct H as [H1 H2]
         end.
  unfold flags_of.
  repeat match goal with H : _ !! _ = None |- _ => rewrite H; clear H end.
  reflexivity.
Qed.

Lemma flags_of_exclusive (r : row) :
  fst (fst (flags_of r)) && snd (flags_of r) = false.
Proof.
  unfold flags_of. cbn [fst snd].
  destruct (gtb (amount (r !! "ATIVO_TOTAL")) zero) eqn:E.
  - now rewrite (gtb_zero_not_zero _ E).
  - now rewrite andb_false_r, andb_false_r.
Qed.

Lemma process_and_validate_cases cnpjs w :
  cnpjs <> [] ->
  exists rows w',
    process_batch World Docs buscar_documentos filtrar_informe_mensal
      selecionar_documento_mais_recente baixar_xml sleep float_str cnpjs w
    = (Ok rows, w')
    /\ Forall row_amounts rows
    /\ process_and_validate World Docs buscar_documentos
         filtrar_informe_mensal selecionar_documento_mais_recente
         baixar_xml sleep float_str infer_column cnpjs w
       = (bind (apply_all_validations infer_column rows)
            (fun v => Ok (inl v)), w').
Proof.
  intros Hne.
  destruct (process_batch_amounts cnpjs w Hne)
    as (rows & w' & Hb & Hn & Hst & Hr).
  exists rows, w'. split; [exact Hb|]. split; [exact Hr|].
  unfold process_and_validate. rewrite Hb, Hst.
  now rewrite (df_empty_status rows Hn Hr Hst).
Qed.

End ValidatedBatch.

Section ValidationFacts.
Import PyStr Py PyFloat XmlParser Pandas EtlService DataValidator.
Import EtlValidation Reference ReferenceSnapshot ReferenceRows.
Import ReferenceValidation.

(** X17. When no identifier of a batch is extracted (every row of the
    table reports a failure), [process_and_validate] does not return the
    table of the failures: the first validation reads the column
    ATIVO_TOTAL, which the table does not have, and [KeyError] is
    raised. *)
Theorem process_and_validate_without_success :
  forall World Docs buscar_documentos filtrar_informe_mensal
         selecionar_documento_mais_recente baixar_xml sleep float_str
         infer_column cnpjs (w : World),
    cnpjs <> [] ->
    exists rows w',
      process_batch World Docs buscar_documentos filtrar_informe_mensal
        selecionar_documento_mais_recente baixar_xml sleep float_str cnpjs w
      = (Ok rows, w')
      /\ (existsb sucesso rows = false ->
          process_and_validate World Docs buscar_documentos
            filtrar_informe_mensal selecionar_documento_mais_recente
            baixar_xml sleep float_str infer_column cnpjs w
          = (Raise KeyError, w')).
Proof.
  intros World Docs b f s x sl fs infer cnpjs w Hne.
  destruct (process_and_validate_cases World Docs b f s x sl fs infer
              cnpjs w Hne) as (rows & w' & Hb & Hr & Hp).
  exists rows, w'. split; [exact Hb|]. intros Hs.
  rewrite Hp, (apply_all_validations_no_success infer rows Hr Hs).
  reflexivity.
Qed.

Lemma process_and_validate_without_success_witness :
  fst (process_and_validate unit unit
         (fun _ w => (Ok (Falha "Erro busca: timeout"), w))
         (fun d w => (Ok (Sucesso d), w))
         (fun _ w => (Ok (Sucesso ∅), w))
         (fun _ w => (Ok (Falha "Erro download"), w))
         (fun _ w => w) (fun _ => "") infer_simple
         ["51199121000145"; "17167935000141"] tt) = Raise KeyError.
Proof.
  destruct (process_and_validate_without_success unit unit
              (fun _ w => (Ok (Falha "Erro busca: timeout"), w))
              (fun d w => (Ok (Sucesso d), w))
              (fun _ w => (Ok (Sucesso ∅), w))
              (fun _ w => (Ok (Falha "Erro download"), w))
              (fun _ w => w) (fun _ => "") infer_simple
              ["51199121000145"; "17167935000141"] tt)
    as (rows & w' & Hb & H); [discriminate|].
  rewrite H; [reflexivity|].
  assert (E : existsb sucesso
                (match fst (process_batch unit unit
                         (fun _ w => (Ok (Falha "Erro busca: timeout"), w))
                         (fun d w => (Ok (Sucesso d), w))
                         (fun _ w => (Ok (Sucesso ∅), w))
                         (fun _ w => (Ok (Falha "Erro download"), w))
                         (fun _ w => w) (fun _ => "")
                         ["51199121000145"; "17167935000141"] tt) with
                 | Ok rs => rs
                 | Raise _ => []
                 end) = false) by (vm_compute; reflexivity).
  rewrite Hb in E. exact E.
Defined.

Lemma infer_simple_amounts : infers_amounts infer_simple.
Proof.
  intros cells H. unfold infer_simple.
  replace (forallb _ cells) with true; [reflexivity|].
  symmetry. apply forallb_forall. intros c Hc.
  rewrite List.Forall_forall in H. specialize (H c Hc).
  destruct c as [[]|]; try reflexivity; destruct H.
Qed.

(** X18. When at least one identifier of a batch is extracted, and pandas
    reads a column of floats and missing cells as a column of floats,
    [process_and_validate] returns the table with its three flags, row by
    row: ATIVO_TOTAL is zero; CARTEIRA_BRUTA is zero and
    INADIMPLENCIA_TOTAL is positive; CARTEIRA_TOTAL is zero and
    ATIVO_TOTAL is positive.  The row of a failure has no flag, and no row
    has both the first and the third. *)
Theorem process_and_validate_flags :
  forall World Docs buscar_documentos filtrar_informe_mensal
         selecionar_documento_mais_recente baixar_xml sleep float_str
         infer_column cnpjs (w : World),
    infers_amounts infer_column ->
    cnpjs <> [] ->
    exists rows w',
      process_batch World Docs buscar_documentos filtrar_informe_mensal
        selecionar_documento_mais_recente baixar_xml sleep float_str cnpjs w
      = (Ok rows, w')
      /\ (existsb sucesso rows = true ->
          exists v,
            process_and_validate World Docs buscar_documentos
              filtrar_informe_mensal selecionar_documento_mais_recente
              baixar_xml sleep float_str infer_column cnpjs w
            = (Ok (inl v), w')
            /\ linhas v = rows
            /\ forall i r,
                 rows !! i = Some r ->
                 flags_at v i = Some (flags_of r)
                 /\ (sucesso r = false -> flags_of r = (false, false, false))
                 /\ fst (fst (flags_of r)) && snd (flags_of r) = false).
Proof.
  intros World Docs b f s x sl fs infer cnpjs w Hi Hne.
  destruct (process_and_validate_cases World Docs b f s x sl fs infer
              cnpjs w Hne) as (rows & w' & Hb & Hr & Hp).
  exists rows, w'. split; [exact Hb|]. intros Hs.
  rewrite Hp, (apply_all_validations_success infer rows Hi Hr Hs).
  eexists. split; [reflexivity|]. split; [reflexivity|].
  intros i r Hir. split; [|split].
  - unfold flags_at.
    cbn [ATIVO_ZERO_FLAG CARTEIRA_BRUTA_ZERO_COM_INAD_FLAG SEM_POSICAO_FLAG].
    change (map ?f rows) with (f <$> rows).
    rewrite !list_lookup_fmap, Hir. cbn [fmap option_fmap option_map].
    destruct (flags_of r) as [[a b'] c]. reflexivity.
  - intros Hf. apply flags_of_failure.
    rewrite List.Forall_forall in Hr.
    assert (Hin : In r rows)
      by (apply list_elem_of_In; eapply list_elem_of_lookup_2; exact Hir).
    destruct (Hr r Hin) as [[_ Hn]|[Ht _]]; [exact Hn|congruence].
  - apply flags_of_exclusive.
Qed.

Lemma process_and_validate_flags_witness :
  exists v,
    fst (process_and_validate unit unit cliente_buscar
           (fun d w => (Ok (Sucesso d), w)) cliente_selecionar
           (cliente_baixar (filing "51199121000145" "0,00" "10,00" "0,00"))
           (fun _ w => w) (fun _ => "") infer_simple
           ["00000000000000"; "51199121000145"] tt) = Ok (inl v)
    /\ flags_at v 0 = Some (false, false, false)
    /\ flags_at v 1 = Some (true, true, false).
Proof.
  destruct (process_and_validate_flags unit unit cliente_buscar
              (fun d w => (Ok (Sucesso d), w)) cliente_selecionar
              (cliente_baixar (filing "51199121000145" "0,00" "10,00" "0,00"))
              (fun _ w => w) (fun _ => "") infer_simple
              ["00000000000000"; "51199121000145"] tt
              infer_simple_amounts ltac:(discriminate))
    as (rows & w' & Hb & H).
  assert (E : let rs :=
                match fst (process_batch unit unit cliente_buscar
                         (fun d w => (Ok (Sucesso d), w)) cliente_selecionar
                         (cliente_baixar
                            (filing "51199121000145" "0,00" "10,00" "0,00"))
                         (fun _ w => w) (fun _ => "")
                         ["00000000000000"; "51199121000145"] tt) with
                | Ok rs => rs
                | Raise _ => []
                end in
              existsb sucesso rs = true
              /\ option_map flags_of (rs !! 0%nat)
                 = Some (false, false, false)
              /\ option_map flags_of (rs !! 1%nat) = Some (true, true, false))
    by (vm_compute; repeat split).
  rewrite Hb in E. cbn [fst] in E. destruct E as (E0 & E1 & E2).
  destruct (H E0) as (v & Hp & Hl & Hf).
  exists v. rewrite Hp. split; [reflexivity|].
  destruct (rows !! 0%nat) as [r0|] eqn:R0; [|discriminate E1].
  destruct (rows !! 1%nat) as [r1|] eqn:R1; [|discriminate E2].
  cbn [option_map] in E1, E2.
  rewrite (proj1 (Hf 0%nat r0 R0)), (proj1 (Hf 1%nat r1 R1)), E1, E2.
  split; reflexivity.
Defined.

Lemma mask_filter_zip_with {A B C} (f : A -> B -> C) m : forall a b,
  length a = length m -> length b = length m ->
  mask_filter m (zip_with f a b)
  = zip_with f (mask_filter m a) (mask_filter m b).
Proof.
  induction m as [|x m IH]; intros [|a0 a] [|b0 b] Ha Hb;
    try discriminate; try reflexivity.
  cbn [zip_with mask_filter]. injection Ha as Ha. injection Hb as Hb.
  destruct x; cbn [zip_with]; now rewrite IH.
Qed.

Lemma mask_filter_self m :
  Forall (fun b => b = true) (mask_filter m m).
Proof.
  induction m as [|[] m IH]; cbn [mask_filter]; [constructor| |exact IH].
  now constructor.
Qed.

Lemma mask_filter_all {A} m : forall l : list A,
  Forall (fun b => b = true) m -> length l = length m ->
  mask_filter m l = l.
Proof.
  induction m as [|x m IH]; intros [|a l] Hm Hl; try discriminate;
    try reflexivity.
  apply Forall_cons in Hm. destruct Hm as [-> Hm]. injection Hl as Hl.
  cbn [mask_filter]. now rewrite IH.
Qed.

Lemma mask_filter_length {A} m : forall l : list A,
  length l = length m -> length (mask_filter m l) = length (mask_filter m m).
Proof.
  induction m as [|x m IH]; intros [|a l] Hl; try discriminate;
    try reflexivity.
  injection Hl as Hl. cbn [mask_filter]. destruct x; cbn [length];
    now rewrite IH.
Qed.

Lemma mask_filter_sublist {A} m : forall l : list A,
  sublist (mask_filter m l) l.
Proof.
  induction m as [|x m IH]; intros [|a l]; cbn [mask_filter];
    try apply sublist_nil_l.
  destruct x; [apply sublist_skip|apply sublist_cons]; apply IH.
Qed.

Lemma has_issues_length v :
  length (ATIVO_ZERO_FLAG v) = length (linhas v) ->
  length (CARTEIRA_BRUTA_ZERO_COM_INAD_FLAG v) = length (linhas v) ->
  length (SEM_POSICAO_FLAG v) = length (linhas v) ->
  length (has_issues v) = length (linhas v).
Proof.
  intros H1 H2 H3. unfold has_issues. rewrite !length_zip_with. lia.
Qed.

(** X19. [filter_qa_issues] keeps, in their order, the rows of a validated
    table that have at least one flag, with their flags: every row of the
    result has a flag, and filtering twice is filtering once. *)
Theorem filter_qa_issues_flagged_rows :
  forall v,
    length (ATIVO_ZERO_FLAG v) = length (linhas v) ->
    length (CARTEIRA_BRUTA_ZERO_COM_INAD_FLAG v) = length (linhas v) ->
    length (SEM_POSICAO_FLAG v) = length (linhas v) ->
    linhas (filter_qa_issues v) = mask_filter (has_issues v) (linhas v)
    /\ sublist (linhas (filter_qa_issues v)) (linhas v)
    /\ length (has_issues (filter_qa_issues v))
       = length (linhas (filter_qa_issues v))
    /\ Forall (fun b => b = true) (has_issues (filter_qa_issues v))
    /\ filter_qa_issues (filter_qa_issues v) = filter_qa_issues v.
Proof.
  intros v H1 H2 H3. pose proof (has_issues_length v H1 H2 H3) as Hm.
  assert (E : has_issues (filter_qa_issues v)
              = mask_filter (has_issues v) (has_issues v)).
  { unfold has_issues at 1. cbn [filter_qa_issues ATIVO_ZERO_FLAG
      CARTEIRA_BRUTA_ZERO_COM_INAD_FLAG SEM_POSICAO_FLAG].
    rewrite <- !mask_filter_zip_with;
      rewrite ?length_zip_with; try lia. reflexivity. }
  split; [reflexivity|]. split; [apply mask_filter_sublist|].
  split; [|split].
  - rewrite E. cbn [filter_qa_issues linhas]. symmetry.
    apply mask_filter_length. lia.
  - rewrite E. apply mask_filter_self.
  - pose proof (mask_filter_self (has_issues v)) as Ht.
    assert (L : forall (A : Type) (l : list A),
              length l = length (linhas v) ->
              mask_filter (mask_filter (has_issues v) (has_issues v))
                (mask_filter (has_issues v) l)
              = mask_filter (has_issues v) l).
    { intros A l Hl. apply mask_filter_all; [exact Ht|].
      apply mask_filter_length. lia. }
    unfold filter_qa_issues at 1. rewrite E.
    cbn [filter_qa_issues linhas ATIVO_ZERO_FLAG
         CARTEIRA_BRUTA_ZERO_COM_INAD_FLAG SEM_POSICAO_FLAG].
    rewrite !L by (first [assumption|reflexivity]). reflexivity.
Qed.

Lemma filter_qa_issues_flagged_rows_witness :
  linhas (filter_qa_issues
            {| linhas := [ {[ "CNPJ_FUNDO" := VStr "A" ]};
                           {[ "CNPJ_FUNDO" := VStr "B" ]} ];
               ATIVO_ZERO_FLAG := [false; true];
               CARTEIRA_BRUTA_ZERO_COM_INAD_FLAG := [false; false];
               SEM_POSICAO_FLAG := [false; false] |})
  = [ {[ "CNPJ_FUNDO" := VStr "B" ]} ].
Proof.
  destruct (filter_qa_issues_flagged_rows
              {| linhas := [ {[ "CNPJ_FUNDO" := VStr "A" ]};
                             {[ "CNPJ_FUNDO" := VStr "B" ]} ];
                 ATIVO_ZERO_FLAG := [false; true];
                 CARTEIRA_BRUTA_ZERO_COM_INAD_FLAG := [false; false];
                 SEM_POSICAO_FLAG := [false; false] |}
              eq_refl eq_refl eq_refl) as (H & _).
  rewrite H. reflexivity.
Defined.

End ValidationFacts.

(* ===================================================================== *)
(** ** The cache on disk *)
(* ===================================================================== *)

Section CacheFacts.
Import PyStr Py PyFloat XmlParser EtlService CacheManager ApiClientCache.
Import ReferenceCache.

Lemma safe_char_safe c : safe (safe_char c) = true.
Proof.
  unfold safe_char. fold (safe c). destruct (safe c) eqn:E; [exact E|].
  reflexivity.
Qed.

Lemma safe_char_id c : safe c = true -> safe_char c = c.
Proof. intros H. unfold safe_char. fold (safe c). now rewrite H. Qed.

Lemma chars_get_file_path key :
  chars (_get_file_path key) = map safe_char (chars key).
Proof. unfold _get_file_path. apply chars_str. Qed.

Lemma map_safe_char_id l :
  forallb safe l = true -> map safe_char l = l.
Proof.
  induction l as [|c l IH]; [reflexivity|]. cbn [forallb map].
  intros H. apply andb_prop in H. destruct H as [Hc Hl].
  now rewrite (safe_char_id c Hc), (IH Hl).
Qed.

Lemma get_file_path_safe key :
  forallb safe (chars (_get_file_path key)) = true.
Proof.
  rewrite chars_get_file_path. induction (chars key) as [|c l IH];
    [reflexivity|].
  cbn [map forallb]. now rewrite safe_char_safe, IH.
Qed.

Lemma get_file_path_id key :
  forallb safe (chars key) = true -> _get_file_path key = key.
Proof.
  intros H. unfold _get_file_path. rewrite (map_safe_char_id _ H).
  apply str_chars.
Qed.

Lemma get_file_path_append p key :
  _get_file_path (String.append p key)
  = String.append (_get_file_path p) (_get_file_path key).
Proof.
  rewrite <- (str_chars (String.append (_get_file_path p) _)).
  rewrite chars_append, !chars_get_file_path. unfold _get_file_path.
  now rewrite chars_append, map_app.
Qed.

Lemma map_eq_Forall2 {A B} (f : A -> B) l1 : forall l2,
  map f l1 = map f l2 <-> Forall2 (fun a b => f a = f b) l1 l2.
Proof.
  induction l1 as [|a l1 IH]; intros [|b l2]; cbn [map]; split; intros H.
  - constructor.
  - reflexivity.
  - discriminate H.
  - inversion H.
  - discriminate H.
  - inversion H.
  - injection H as Hab Hl. constructor; [exact Hab|]. now apply IH.
  - inversion H as [|? ? ? ? Hab Hl]; subst. f_equal; [exact Hab|].
    now apply IH.
Qed.

Lemma get_file_path_eq k1 k2 :
  _get_file_path k1 = _get_file_path k2
  <-> Forall2 (fun a b => safe_char a = safe_char b) (chars k1) (chars k2).
Proof.
  rewrite <- map_eq_Forall2, <- !chars_get_file_path. split.
  - now intros ->.
  - intros H. rewrite <- (str_chars (_get_file_path k1)), H.
    apply str_chars.
Qed.

Lemma safe_char_eq a b :
  safe_char a = safe_char b
  <-> a = b \/ (safe_char a = "_"%char /\ safe_char b = "_"%char).
Proof.
  split.
  - intros H. destruct (safe a) eqn:Ea.
    + rewrite (safe_char_id a Ea) in *. destruct (safe b) eqn:Eb.
      * left. now rewrite (safe_char_id b Eb) in H.
      * right. unfold safe_char in H at 1. fold (safe b) in H.
        rewrite Eb in H. subst a. split; [reflexivity|].
        unfold safe_char. fold (safe b). now rewrite Eb.
    + right. assert (Ha : safe_char a = "_"%char)
        by (unfold safe_char; fold (safe a); now rewrite Ea).
      split; [exact Ha|]. now rewrite <- H.
  - intros [->|[-> ->]]; reflexivity.
Qed.

(** X20. The file of a key keeps the letters, the digits, the dash and the
    underscore of the key and has an underscore for every other character.
    So a key made of kept characters only is its own file name, taking the
    file name twice changes nothing, and two keys share a file exactly
    when they have the same length and, place by place, the same
    character or two characters that both become an underscore. *)
Theorem get_file_path_collisions :
  forall k1 k2,
    forallb safe (chars (_get_file_path k1)) = true
    /\ _get_file_path (_get_file_path k1) = _get_file_path k1
    /\ (forallb safe (chars k1) = true -> _get_file_path k1 = k1)
    /\ (_get_file_path k1 = _get_file_path k2
        <-> Forall2 (fun a b =>
                       a = b \/ (safe_char a = "_"%char
                                 /\ safe_char b = "_"%char))
              (chars k1) (chars k2)).
Proof.
  intros k1 k2. pose proof (get_file_path_safe k1) as Hs.
  split; [exact Hs|]. split; [now apply get_file_path_id|].
  split; [apply get_file_path_id|].
  rewrite get_file_path_eq. split; intros H.
  - eapply Forall2_impl; [exact H|]. intros a b Hab.
    now apply safe_char_eq.
  - eapply Forall2_impl; [exact H|]. intros a b Hab.
    now apply safe_char_eq.
Qed.

Lemma get_file_path_collisions_witness :
  _get_file_path "docs_51.199.121/0001-45"
  = _get_file_path "docs_51_199_121.0001-45"
  /\ _get_file_path "docs_51199121000145" = "docs_51199121000145".
Proof.
  destruct (get_file_path_collisions "docs_51.199.121/0001-45"
              "docs_51_199_121.0001-45") as (_ & _ & _ & H).
  destruct (get_file_path_collisions "docs_51199121000145" "")
    as (_ & _ & H' & _).
  split; [|apply H'; reflexivity].
  apply H. unfold chars. cbn [list_ascii_of_string].
  repeat (constructor; [first [left; reflexivity|right; split; reflexivity]|]).
  constructor.
Defined.

Section CacheOf.
Variable A : Type.

Lemma get_set_same (d : disk A) t t' key key' v m :
  _get_file_path key' = _get_file_path key ->
  get A (set A d t key v Gravado) t' key' m
  = match m with
    | Some age => if (t' - t >? age)%Z then None else Some v
    | None => Some v
    end.
Proof.
  intros H. unfold get, set, disk in *. rewrite H.
  rewrite (lookup_insert_eq (M := gmap string)). reflexivity.
Qed.

Lemma get_set_other (d : disk A) t t' key key' v io m :
  _get_file_path key' <> _get_file_path key ->
  get A (set A d t key v io) t' key' m = get A d t' key' m.
Proof.
  intros H. unfold get, set, disk in *.
  destruct io;
    rewrite ?(lookup_insert_ne (M := gmap string)) by congruence;
    reflexivity.
Qed.

Lemma get_set_truncado (d : disk A) t t' key v m :
  get A (set A d t key v Truncado) t' key m = None.
Proof.
  unfold get, set, disk in *.
  rewrite (lookup_insert_eq (M := gmap string)). cbn [mtime conteudo].
  destruct m as [age|]; [|reflexivity]. now destruct (_ >? _)%Z.
Qed.

Lemma get_delete (d : disk A) t key key' m :
  _get_file_path key' = _get_file_path key ->
  get A (delete A d key true) t key' m = None.
Proof.
  intros H. unfold get, delete, disk in *. rewrite H.
  destruct (d !! _get_file_path key) eqn:E; [|now rewrite E].
  now rewrite (lookup_delete_eq (M := gmap string)).
Qed.

End CacheOf.

(** X21. The cache gives back what was written under a key, or under any
    key with the same file, as long as the file is not older than the
    maximal age, if one is given: an object written at time [t] is read at
    time [t'] when [t' - t] does not exceed the age, and is not read
    after.  A write that failed after the file was opened leaves nothing
    to read. A key with another file is not affected by a write, and
    nothing is read under a key that was deleted. *)
Theorem cache_get_after_set :
  forall (A : Type) (d : disk A) t t' key key' v m,
    (_get_file_path key' = _get_file_path key ->
     get A (set A d t key v Gravado) t' key' m
     = (if match m with Some age => (t' - t >? age)%Z | None => false end
        then None else Some v)
     /\ get A (set A d t key v Truncado) t' key' m = None
     /\ get A (delete A d key true) t' key' m = None)
    /\ (_get_file_path key' <> _get_file_path key ->
        forall io,
          get A (set A d t key v io) t' key' m = get A d t' key' m).
Proof.
  intros A d t t' key key' v m. split.
  - intros H. split; [|split].
    + rewrite (get_set_same A d t t' key key' v m H).
      destruct m as [age|]; reflexivity.
    + unfold get. rewrite H. fold (get A (set A d t key v Truncado) t' key m).
      apply get_set_truncado.
    + now apply get_delete.
  - intros H io. now apply get_set_other.
Qed.

Lemma cache_get_after_set_witness :
  get nat (set nat ∅ 1000 "docs_1" 7%nat Gravado) 87400 "docs_1"
    (Some 86400%Z) = Some 7%nat
  /\ get nat (set nat ∅ 1000 "docs_1" 7%nat Gravado) 87401 "docs_1"
       (Some 86400%Z) = None
  /\ get nat (set nat ∅ 1000 "docs_1" 7%nat Gravado) 87401 "docs_2"
       None = None.
Proof.
  destruct (cache_get_after_set nat ∅ 1000 87400 "docs_1" "docs_1" 7%nat
              (Some 86400%Z)) as [H1 _].
  destruct (cache_get_after_set nat ∅ 1000 87401 "docs_1" "docs_1" 7%nat
              (Some 86400%Z)) as [H2 _].
  destruct (cache_get_after_set nat ∅ 1000 87401 "docs_1" "docs_2" 7%nat
              None) as [_ H3].
  split; [|split].
  - rewrite (proj1 (H1 eq_refl)). reflexivity.
  - rewrite (proj1 (H2 eq_refl)). reflexivity.
  - rewrite H3; [reflexivity|]. vm_compute. discriminate.
Defined.

Lemma docs_key_prefix cnpj :
  startswith (_get_file_path (String.append "docs_" cnpj)) "docs_" = true
  /\ startswith (_get_file_path (String.append "docs_" cnpj)) "xml_" = false.
Proof.
  rewrite get_file_path_append. unfold startswith. rewrite chars_append.
  split; reflexivity.
Qed.

Lemma xml_key_prefix doc_id :
  startswith (_get_file_path (String.append "xml_" doc_id)) "xml_" = true
  /\ startswith (_get_file_path (String.append "xml_" doc_id)) "docs_"
     = false.
Proof.
  rewrite get_file_path_append. unfold startswith. rewrite chars_append.
  split; reflexivity.
Qed.

Lemma get_Some_file {A} (d : disk A) t key m v :
  get A d t key m = Some v ->
  exists f, d !! _get_file_path key = Some f /\ conteudo A f = Some v.
Proof.
  unfold get. destruct (d !! _get_file_path key) as [f|]; [|discriminate].
  intros H. exists f. split; [reflexivity|].
  destruct m as [age|]; [|exact H]. now destruct (_ >? _)%Z.
Qed.

Lemma tipado_set_docs d t cnpj data io :
  tipado d -> tipado (set payload d t (String.append "docs_" cnpj)
                        (PDocs data) io).
Proof.
  intros Hd nome f. unfold set, disk in *.
  destruct (docs_key_prefix cnpj) as [P1 P2].
  destruct io; [| |apply Hd];
    (destruct (decide (nome = _get_file_path (String.append "docs_" cnpj)))
       as [->|Hne];
     [rewrite (lookup_insert_eq (M := gmap string)); intros H;
      injection H as <-; cbn [conteudo]; split; [tauto|congruence]
     |rewrite (lookup_insert_ne (M := gmap string)) by congruence;
      apply Hd]).
Qed.

Lemma tipado_set_xml d t doc_id content io :
  tipado d -> tipado (set payload d t (String.append "xml_" doc_id)
                        (PXml content) io).
Proof.
  intros Hd nome f. unfold set, disk in *.
  destruct (xml_key_prefix doc_id) as [P1 P2].
  destruct io; [| |apply Hd];
    (destruct (decide (nome = _get_file_path (String.append "xml_" doc_id)))
       as [->|Hne];
     [rewrite (lookup_insert_eq (M := gmap string)); intros H;
      injection H as <-; cbn [conteudo]; split; [congruence|tauto]
     |rewrite (lookup_insert_ne (M := gmap string)) by congruence;
      apply Hd]).
Qed.

(** X22. [buscar_documentos] asks the site only when the cache has no
    listing of the fund younger than 24 hours: a cached listing is
    returned without a request, whatever the site would answer.  A failure
    (an exception, or an empty listing) is never cached.  A listing that
    was fetched and written is returned by every call of the next 86400
    seconds without a request, and fetched again after. *)
Theorem buscar_documentos_cached_for_a_day :
  forall d agora cnpj resposta escrito io,
    let c := buscar_documentos d agora cnpj resposta escrito io in
    (forall cached,
       get payload d agora (String.append "docs_" cnpj) (Some 86400%Z)
       = Some cached ->
       c = {| retornado := Sucesso cached; cache := d; requests := 0 |})
    /\ (forall erro, retornado c = Falha erro ->
                     cache c = d /\ requests c = 1%nat)
    /\ (forall data,
          get payload d agora (String.append "docs_" cnpj) (Some 86400%Z)
          = None ->
          resposta = Ok data -> data <> [] -> io = Gravado ->
          forall agora' resposta' escrito' io',
            let c' := buscar_documentos (cache c) agora' cnpj resposta'
                        escrito' io' in
            ((agora' - escrito <= 86400)%Z ->
             c' = {| retornado := Sucesso (PDocs data); cache := cache c;
                     requests := 0 |})
            /\ ((agora' - escrito > 86400)%Z -> requests c' = 1%nat)).
Proof.
  intros d agora cnpj resposta escrito io c. split; [|split].
  - intros cached H. unfold c, buscar_documentos. now rewrite H.
  - intros erro. unfold c, buscar_documentos.
    destruct (get payload d agora _ _) as [v|]; [discriminate|].
    destruct resposta as [[|doc data]|e]; cbn [retornado cache requests];
      try discriminate; auto.
  - intros data Hmiss -> Hne -> agora' resposta' escrito' io' c'.
    assert (Hc : cache c = set payload d escrito (String.append "docs_" cnpj)
                             (PDocs data) Gravado).
    { unfold c, buscar_documentos. rewrite Hmiss.
      destruct data; [congruence|reflexivity]. }
    assert (Hg : get payload (cache c) agora' (String.append "docs_" cnpj)
                   (Some 86400%Z)
                 = if (agora' - escrito >? 86400)%Z then None
                   else Some (PDocs data)).
    { rewrite Hc. apply (get_set_same payload d escrito agora' _ _
                           (PDocs data) (Some 86400%Z) eq_refl). }
    unfold c', buscar_documentos. rewrite Hg.
    split; intros Ht.
    + replace (agora' - escrito >? 86400)%Z with false by lia. reflexivity.
    + replace (agora' - escrito >? 86400)%Z with true by lia.
      destruct resposta' as [[|doc' data']|e']; reflexivity.
Qed.

Lemma buscar_documentos_cached_for_a_day_witness :
  requests
    (buscar_documentos
       (cache (buscar_documentos ∅ 0 "51199121000145"
                 (Ok [ {[ "id" := VInt 7 ]} ]) 1 Gravado))
       86401 "51199121000145" (Raise (OtherError "timeout")) 86402 Gravado)
  = 0%nat.
Proof.
  destruct (buscar_documentos_cached_for_a_day ∅ 0 "51199121000145"
              (Ok [ {[ "id" := VInt 7 ]} ]) 1 Gravado) as (_ & _ & H).
  destruct (H [ {[ "id" := VInt 7 ]} ] eq_refl eq_refl
              ltac:(discriminate) eq_refl
              86401%Z (Raise (OtherError "timeout")) 86402%Z Gravado)
    as [H1 _].
  rewrite H1; [reflexivity|lia].
Defined.

(** X23. [baixar_xml] asks the site for a document at most once: a content
    that was downloaded and written is returned by every later call,
    however late, without a request and whatever the site would answer. A
    failed download is not cached. *)
Theorem baixar_xml_cached_for_ever :
  forall d agora doc_id resposta escrito io,
    let c := baixar_xml d agora doc_id resposta escrito io in
    (forall cached,
       get payload d agora (String.append "xml_" doc_id) None = Some cached ->
       c = {| retornado := Sucesso cached; cache := d; requests := 0 |})
    /\ (forall erro, retornado c = Falha erro ->
                     cache c = d /\ requests c = 1%nat)
    /\ (forall content,
          get payload d agora (String.append "xml_" doc_id) None = None ->
          resposta = Ok content -> io = Gravado ->
          forall agora' resposta' escrito' io',
            baixar_xml (cache c) agora' doc_id resposta' escrito' io'
            = {| retornado := Sucesso (PXml content); cache := cache c;
                 requests := 0 |}).
Proof.
  intros d agora doc_id resposta escrito io c. split; [|split].
  - intros cached H. unfold c, baixar_xml. now rewrite H.
  - intros erro. unfold c, baixar_xml.
    destruct (get payload d agora _ _) as [v|]; [discriminate|].
    destruct resposta as [content|e]; cbn [retornado cache requests];
      try discriminate; auto.
  - intros content Hmiss -> -> agora' resposta' escrito' io'.
    assert (Hc : cache c = set payload d escrito (String.append "xml_" doc_id)
                             (PXml content) Gravado).
    { unfold c, baixar_xml. now rewrite Hmiss. }
    assert (Hg : get payload (cache c) agora' (String.append "xml_" doc_id)
                   None = Some (PXml content)).
    { rewrite Hc. apply (get_set_same payload d escrito agora' _ _
                           (PXml content) None eq_refl). }
    unfold baixar_xml at 1. rewrite Hg. reflexivity.
Qed.

Lemma baixar_xml_cached_for_ever_witness :
  retornado
    (baixar_xml
       (cache (baixar_xml ∅ 0 "7" (Ok "<DOC_ARQ/>") 1 Gravado))
       999999999 "7" (Raise (OtherError "timeout")) 0 Recusado)
  = Sucesso (PXml "<DOC_ARQ/>").
Proof.
  destruct (baixar_xml_cached_for_ever ∅ 0 "7" (Ok "<DOC_ARQ/>") 1 Gravado)
    as (_ & _ & H).
  rewrite (H "<DOC_ARQ/>" eq_refl eq_refl eq_refl). reflexivity.
Defined.

(** X24. The two kinds of cached objects never mix: in a cache directory
    whose listing files hold listings and whose document files hold
    contents, which the two requests keep so, [buscar_documentos] returns a
    listing and [baixar_xml] a content. The file of a listing and the file
    of a document are never the same. *)
Theorem cache_kinds_do_not_mix :
  forall d agora cnpj doc_id docs xml escrito io,
    tipado d ->
    _get_file_path (String.append "docs_" cnpj)
    <> _get_file_path (String.append "xml_" doc_id)
    /\ tipado (cache (buscar_documentos d agora cnpj docs escrito io))
    /\ tipado (cache (baixar_xml d agora doc_id xml escrito io))
    /\ (forall p,
          retornado (buscar_documentos d agora cnpj docs escrito io)
          = Sucesso p -> exists data, p = PDocs data)
    /\ (forall p,
          retornado (baixar_xml d agora doc_id xml escrito io) = Sucesso p ->
          exists content, p = PXml content).
Proof.
  intros d agora cnpj doc_id docs xml escrito io Hd.
  destruct (docs_key_prefix cnpj) as [P1 P2].
  destruct (xml_key_prefix doc_id) as [Q1 Q2].
  split; [intros E; rewrite E in P1; congruence|].
  split; [|split; [|split]].
  - unfold buscar_documentos.
    destruct (get payload d agora _ _) as [v|]; [exact Hd|].
    destruct docs as [[|doc data]|e]; try exact Hd.
    now apply tipado_set_docs.
  - unfold baixar_xml.
    destruct (get payload d agora _ _) as [v|]; [exact Hd|].
    destruct xml as [content|e]; try exact Hd.
    now apply tipado_set_xml.
  - intros p. unfold buscar_documentos.
    destruct (get payload d agora _ _) as [v|] eqn:G.
    + cbn [retornado]. intros H. injection H as <-.
      destruct (get_Some_file _ _ _ _ _ G) as (f & Hf & Hv).
      destruct (Hd _ f Hf) as [H1 _]. specialize (H1 P1).
      rewrite Hv in H1. destruct v; [eauto|destruct H1].
    + destruct docs as [[|doc data]|e]; cbn [retornado];
        try discriminate. intros H. injection H as <-. eauto.
  - intros p. unfold baixar_xml.
    destruct (get payload d agora _ _) as [v|] eqn:G.
    + cbn [retornado]. intros H. injection H as <-.
      destruct (get_Some_file _ _ _ _ _ G) as (f & Hf & Hv).
      destruct (Hd _ f Hf) as [_ H2]. specialize (H2 Q1).
      rewrite Hv in H2. destruct v; [destruct H2|eauto].
    + destruct xml as [content|e]; cbn [retornado];
        try discriminate. intros H. injection H as <-. eauto.
Qed.

Lemma cache_kinds_do_not_mix_witness :
  exists data,
    retornado (buscar_documentos ∅ 0 "51199121000145"
                 (Ok [ {[ "id" := VInt 7 ]} ]) 1 Gravado)
    = Sucesso (PDocs data).
Proof.
  destruct (cache_kinds_do_not_mix ∅ 0 "51199121000145" "7"
              (Ok [ {[ "id" := VInt 7 ]} ]) (Ok "") 1 Gravado)
    as (_ & _ & _ & H & _).
  - intros nome f Hf. exfalso.
    pose proof (lookup_empty (M := gmap string) (A := file payload) nome)
      as E.
    unfold disk in *. congruence.
  - destruct (H _ eq_refl) as [data Hdata]. exists data.
    now rewrite <- Hdata.
Defined.

End CacheFacts.

(* ===================================================================== *)
(** ** The choice of the document *)
(* ===================================================================== *)

Section DocsFacts.
Import PyStr Py PyFloat XmlParser EtlService ApiClientCache ApiClientDocs.
Import EtlValidation.

Variable astype_str : value -> string.
Variable to_datetime : string -> option Z.

Let como_texto (doc : documento) : documento :=
  as_text astype_str "situacaoDocumento"
    (as_text astype_str "tipoDocumento" doc).

Lemma as_text_text col (doc : documento) s :
  doc !! col = Some (VStr s) -> as_text astype_str col doc = doc.
Proof.
  intros H. unfold as_text. rewrite H. cbn [texto]. now apply insert_id.
Qed.

Lemma como_texto_lookup doc :
  (exists s, como_texto doc !! "tipoDocumento" = Some (VStr s))
  /\ (exists s, como_texto doc !! "situacaoDocumento" = Some (VStr s)).
Proof.
  unfold como_texto, as_text. split; eexists.
  - rewrite lookup_insert_ne by done. apply lookup_insert_eq.
  - apply lookup_insert_eq.
Qed.

Lemma como_texto_id doc :
  (exists s, doc !! "tipoDocumento" = Some (VStr s)) ->
  (exists s, doc !! "situacaoDocumento" = Some (VStr s)) ->
  como_texto doc = doc.
Proof.
  intros [s Hs] [u Hu]. unfold como_texto.
  rewrite (as_text_text "tipoDocumento" doc s Hs).
  now apply (as_text_text "situacaoDocumento" doc u).
Qed.

Lemma has_column_In (df : list documento) col doc v :
  In doc df -> doc !! col = Some v -> has_column df col = true.
Proof.
  intros Hin Hv. unfold has_column. apply existsb_exists. exists doc.
  split; [exact Hin|]. apply bool_decide_eq_true. eauto.
Qed.

Lemma df_empty_In (df : list documento) col doc v :
  In doc df -> doc !! col = Some v -> df_empty df = false.
Proof.
  intros Hin Hv. unfold df_empty. apply not_true_is_false. intros H.
  rewrite forallb_forall in H. specialize (H doc Hin).
  apply bool_decide_eq_true in H. subst doc. now rewrite lookup_empty in Hv.
Qed.

Lemma filtrar_informe_mensal_inv df df_mensal :
  filtrar_informe_mensal astype_str df = Sucesso df_mensal ->
  df_mensal = List.filter (mensal_ativo astype_str) (map como_texto df)
  /\ df_mensal <> [].
Proof.
  unfold filtrar_informe_mensal. destruct (df_empty df); [discriminate|].
  destruct (has_column df "tipoDocumento"); [|discriminate].
  destruct (has_column df "situacaoDocumento"); [|discriminate].
  cbn [negb]. fold como_texto.
  destruct (List.filter _ _) as [|x l] eqn:E; [discriminate|].
  intros H. injection H as <-. now split.
Qed.

Lemma filter_como_texto df :
  Forall (fun doc =>
            (exists s, doc !! "tipoDocumento" = Some (VStr s))
            /\ (exists s, doc !! "situacaoDocumento" = Some (VStr s))
            /\ mensal_ativo astype_str doc = true)
    (List.filter (mensal_ativo astype_str) (map como_texto df)).
Proof.
  apply List.Forall_forall. intros doc Hin. apply filter_In in Hin.
  destruct Hin as [Hin Ha]. apply in_map_iff in Hin.
  destruct Hin as (doc0 & <- & _).
  destruct (como_texto_lookup doc0) as [H1 H2]. auto.
Qed.

Lemma filtrar_informe_mensal_fixed (l : list documento) :
  l <> [] ->
  Forall (fun doc =>
            (exists s, doc !! "tipoDocumento" = Some (VStr s))
            /\ (exists s, doc !! "situacaoDocumento" = Some (VStr s))
            /\ mensal_ativo astype_str doc = true) l ->
  filtrar_informe_mensal astype_str l = Sucesso l.
Proof.
  intros Hne Hall. destruct l as [|doc l]; [congruence|].
  pose proof (Forall_inv Hall) as ([s Hs] & [u Hu] & _).
  unfold filtrar_informe_mensal.
  rewrite (df_empty_In (doc :: l) _ doc _ (or_introl eq_refl) Hs).
  rewrite (has_column_In (doc :: l) _ doc _ (or_introl eq_refl) Hs).
  rewrite (has_column_In (doc :: l) _ doc _ (or_introl eq_refl) Hu).
  cbn [negb]. fold como_texto.
  assert (Hm : map como_texto (doc :: l) = doc :: l).
  { clear Hne Hs Hu. induction Hall as [|x xs (Hx1 & Hx2 & _) _ IH];
      [reflexivity|].
    cbn [map]. now rewrite (como_texto_id x Hx1 Hx2), IH. }
  rewrite Hm.
  assert (Hf : List.filter (mensal_ativo astype_str) (doc :: l) = doc :: l).
  { clear Hne Hs Hu Hm. induction Hall as [|x xs (_ & _ & Hx) _ IH];
      [reflexivity|].
    cbn [List.filter]. now rewrite Hx, IH. }
  now rewrite Hf.
Qed.

Lemma mais_recente_spec rest : forall best,
  In (mais_recente best rest) (best :: rest)
  /\ Forall (fun x => (fst x <= fst (mais_recente best rest))%Z)
       (best :: rest).
Proof.
  induction rest as [|x rest IH]; intros best; cbn [mais_recente].
  - split; [now left|]. constructor; [lia|constructor].
  - destruct (IH (if (fst best <? fst x)%Z then x else best)) as [Hin Hall].
    apply Forall_cons in Hall. destruct Hall as [Hb Hr].
    split.
    + destruct Hin as [<-|Hin]; [|now right; right].
      destruct (fst best <? fst x)%Z; [right; now left|now left].
    + destruct (fst best <? fst x)%Z eqn:E.
      * apply Z.ltb_lt in E. repeat constructor; [lia|exact Hb|exact Hr].
      * apply Z.ltb_ge in E. repeat constructor; [exact Hb|lia|exact Hr].
Qed.

Lemma com_data_In df d doc :
  In (d, doc) (com_data astype_str to_datetime df)
  <-> In doc df
      /\ parse_data_ref to_datetime
           (texto astype_str (doc !! "dataReferencia")) = Some d.
Proof.
  unfold com_data. rewrite <- !list_elem_of_In, list_elem_of_omap. split.
  - intros (doc0 & Hin & H).
    destruct (parse_data_ref _ _) as [d0|] eqn:E; [|discriminate].
    cbn in H. injection H as <- <-. now split.
  - intros [Hin H]. exists doc. split; [exact Hin|]. now rewrite H.
Qed.

End DocsFacts.

Section DocsChoice.
Import PyStr Py PyFloat XmlParser EtlService ApiClientCache ApiClientDocs.
Import EtlValidation.

(** X25. When [filtrar_informe_mensal] succeeds, its table is made, in
    their order, of the rows whose type holds "Informe Mensal" in any
    letter case and whose trimmed situation is "A" or "a", the two columns
    being read as text; it is not empty, and filtering it again gives the
    same table.  On a table that has the two columns the filter fails only
    when no row is such a report. *)
Theorem filtrar_informe_mensal_active_reports :
  forall astype_str df,
    let textos :=
      map (fun doc => as_text astype_str "situacaoDocumento"
                        (as_text astype_str "tipoDocumento" doc)) df in
    (forall df_mensal,
       filtrar_informe_mensal astype_str df = Sucesso df_mensal ->
       df_mensal = List.filter (mensal_ativo astype_str) textos
       /\ df_mensal <> []
       /\ filtrar_informe_mensal astype_str df_mensal = Sucesso df_mensal)
    /\ (has_column df "tipoDocumento" = true ->
        has_column df "situacaoDocumento" = true ->
        forall doc,
          In doc textos -> mensal_ativo astype_str doc = true ->
          exists df_mensal,
            filtrar_informe_mensal astype_str df = Sucesso df_mensal
            /\ In doc df_mensal).
Proof.
  intros astype_str df textos. split.
  - intros df_mensal H.
    destruct (filtrar_informe_mensal_inv astype_str df df_mensal H)
      as [E Hne].
    split; [exact E|]. split; [exact Hne|].
    apply filtrar_informe_mensal_fixed; [exact Hne|].
    rewrite E. apply filter_como_texto.
  - intros H1 H2 doc Hin Ha. unfold filtrar_informe_mensal.
    assert (He : df_empty df = false).
    { unfold has_column in H1. apply existsb_exists in H1.
      destruct H1 as (r & Hr & Hs). apply bool_decide_eq_true in Hs.
      destruct Hs as [v Hv]. exact (df_empty_In df _ r v Hr Hv). }
    rewrite He, H1, H2. cbn [negb]. fold textos.
    assert (Hf : In doc (List.filter (mensal_ativo astype_str) textos))
      by (apply filter_In; now split).
    destruct (List.filter (mensal_ativo astype_str) textos) as [|x l];
      [destruct Hf|].
    eexists. split; [reflexivity|exact Hf].
Qed.

Lemma filtrar_informe_mensal_active_reports_witness :
  exists df_mensal,
    filtrar_informe_mensal (fun _ => "")
      [ {[ "id" := VInt 7; "tipoDocumento" := VStr "INFORME MENSAL";
           "situacaoDocumento" := VStr " a " ]};
        {[ "id" := VInt 8; "tipoDocumento" := VStr "Fato Relevante";
           "situacaoDocumento" := VStr "A" ]} ]
    = Sucesso df_mensal
    /\ filtrar_informe_mensal (fun _ => "") df_mensal = Sucesso df_mensal.
Proof.
  destruct (filtrar_informe_mensal_active_reports (fun _ => "")
              [ {[ "id" := VInt 7; "tipoDocumento" := VStr "INFORME MENSAL";
                   "situacaoDocumento" := VStr " a " ]};
                {[ "id" := VInt 8; "tipoDocumento" := VStr "Fato Relevante";
                   "situacaoDocumento" := VStr "A" ]} ]) as [H1 H2].
  destruct (H2 ltac:(vm_compute; reflexivity) ltac:(vm_compute; reflexivity)
              _ (or_introl eq_refl) ltac:(vm_compute; reflexivity))
    as (df_mensal & Hs & _).
  exists df_mensal. split; [exact Hs|].
  exact (proj2 (proj2 (H1 df_mensal Hs))).
Defined.

(** X26. When [selecionar_documento_mais_recente] succeeds, the document
    it returns is a row of the table whose reference date is valid and not
    earlier than any valid reference date of the table, with the parsed
    date added; a reference of seven characters is read as the first day
    of its month.  On a table that has the column, it fails exactly when no
    row has a valid date. *)
Theorem selecionar_documento_mais_recente_latest :
  forall astype_str to_datetime df,
    let data (r : documento) :=
      parse_data_ref to_datetime
        (texto astype_str (r !! "dataReferencia")) in
    (forall doc,
       selecionar_documento_mais_recente astype_str to_datetime df
       = Sucesso doc ->
       exists r d,
         In r df /\ data r = Some d
         /\ doc = <["dataRef_parsed" := VInt d]> r
         /\ forall r' d', In r' df -> data r' = Some d' -> (d' <= d)%Z)
    /\ (df_empty df = false -> has_column df "dataReferencia" = true ->
        (selecionar_documento_mais_recente astype_str to_datetime df
         = Falha nenhuma_data_valida
         <-> forall r, In r df -> data r = None)).
Proof.
  intros astype_str to_datetime df data. split.
  - intros doc. unfold selecionar_documento_mais_recente.
    destruct (df_empty df); [discriminate|].
    destruct (has_column df "dataReferencia"); [|discriminate]. cbn [negb].
    destruct (com_data astype_str to_datetime df) as [|x rest] eqn:E;
      [discriminate|].
    destruct (mais_recente_spec rest x) as [Hin Hall].
    destruct (mais_recente x rest) as [d r] eqn:Em.
    intros H. injection H as <-. rewrite <- E in Hin, Hall.
    apply com_data_In in Hin. destruct Hin as [Hr Hd].
    exists r, d. split; [exact Hr|]. split; [exact Hd|].
    split; [reflexivity|]. intros r' d' Hr' Hd'.
    rewrite List.Forall_forall in Hall.
    exact (Hall (d', r') (proj2 (com_data_In _ _ _ _ _) (conj Hr' Hd'))).
  - intros He Hc. unfold selecionar_documento_mais_recente.
    rewrite He, Hc. cbn [negb].
    destruct (com_data astype_str to_datetime df) as [|x rest] eqn:E.
    + split; [|reflexivity]. intros _ r Hr.
      destruct (data r) as [d|] eqn:Ed; [|reflexivity].
      exfalso. assert (Hin : In (d, r) (com_data astype_str to_datetime df))
        by (apply com_data_In; now split).
      rewrite E in Hin. destruct Hin.
    + split.
      * destruct (mais_recente x rest) as [d r]. discriminate.
      * intros Hn. exfalso. destruct x as [d r].
        assert (Hin : In (d, r) (com_data astype_str to_datetime df))
          by (rewrite E; now left).
        apply com_data_In in Hin. destruct Hin as [Hr Hd].
        fold (data r) in Hd. rewrite (Hn r Hr) in Hd. discriminate Hd.
Qed.

Lemma selecionar_documento_mais_recente_latest_witness :
  let to_datetime s :=
    if String.eqb s "01/11/2025" then Some 20393%Z
    else if String.eqb s "01/10/2025" then Some 20362%Z
    else None in
  let df : list documento :=
    [ {[ "id" := VInt 1; "dataReferencia" := VStr "10/2025" ]};
      {[ "id" := VInt 2; "dataReferencia" := VStr "11/2025" ]};
      {[ "id" := VInt 3; "dataReferencia" := VStr "sem data" ]} ] in
  exists doc r d,
    selecionar_documento_mais_recente (fun _ => "") to_datetime df
    = Sucesso doc
    /\ In r df /\ (20393 <= d)%Z.
Proof.
  intros to_datetime df.
  destruct (selecionar_documento_mais_recente_latest (fun _ => "")
              to_datetime df) as [H _].
  destruct (selecionar_documento_mais_recente (fun _ => "") to_datetime df)
    as [doc|erro] eqn:E.
  - destruct (H doc eq_refl) as (r & d & Hr & _ & _ & Hmax).
    exists doc, r, d. split; [reflexivity|]. split; [exact Hr|].
    apply (Hmax {[ "id" := VInt 2; "dataReferencia" := VStr "11/2025" ]}).
    + right. left. reflexivity.
    + vm_compute. reflexivity.
  - exfalso.
    assert (B : match selecionar_documento_mais_recente (fun _ => "")
                        to_datetime df with
                | Sucesso _ => true
                | Falha _ => false
                end = true) by (vm_compute; reflexivity).
    rewrite E in B. discriminate B.
Defined.

End DocsChoice.

(* ===================================================================== *)
(** ** A machine-format decimal under the Brazilian rule *)
(* ===================================================================== *)

Section MachineDecimal.
Import PyStr Py PyFloat XmlParser Reference.

Lemma strip_by_none p l :
  Forall (fun c => p c = false) l -> strip_by p l = l.
Proof.
  assert (L : forall l, Forall (fun c => p c = false) l -> lstrip_by p l = l).
  { intros l' H. destruct H as [|c r Hc _]; [reflexivity|].
    cbn [lstrip_by]. now rewrite Hc. }
  intros H. unfold strip_by. rewrite (L l H).
  rewrite (L (rev l)) by (apply Forall_rev, H). apply rev_involutive.
Qed.

(** [float] reads digits, a point and digits as the number they spell. *)
Lemma float_of_str_point a ds fs :
  Forall (fun c => is_ascii_digit c = true) (a :: ds) ->
  Forall (fun c => is_ascii_digit c = true) fs ->
  float_of_str (str ((a :: ds) ++ "."%char :: fs))
  = Ok (of_decimal false (digits_value ((a :: ds) ++ fs))
          (0 - Z.of_nat (length fs))).
Proof.
  intros Hds Hfs. unfold float_of_str. rewrite chars_str.
  pose proof (Forall_inv Hds) as Ha.
  assert (Hall : Forall (fun c => float_space c = false
                                  /\ Ascii.eqb c "_" = false)
                   ((a :: ds) ++ "."%char :: fs)).
  { apply Forall_app. split; [|constructor; [now split|]].
    - eapply Forall_impl; [exact Hds|]. intros c Hc.
      now destruct (digit_not_separator c Hc) as (_ & _ & ? & _ & _ & ? & _).
    - eapply Forall_impl; [exact Hfs|]. intros c Hc.
      now destruct (digit_not_separator c Hc) as (_ & _ & ? & _ & _ & ? & _). }
  rewrite strip_by_none
    by (eapply Forall_impl; [exact Hall|]; now intros c [? ?]).
  rewrite drop_underscores_id;
    [|eapply Forall_impl; [exact Hall|]; now intros c [? ?]|exact I].
  unfold parse_decimal.
  replace (parse_sign ((a :: ds) ++ "."%char :: fs))
    with (false, (a :: ds) ++ "."%char :: fs).
  2:{ cbn [app parse_sign].
      destruct (digit_not_separator a Ha) as (_ & _ & _ & -> & -> & _).
      reflexivity. }
  rewrite (span_app is_ascii_digit (a :: ds) ("."%char :: fs) Hds eq_refl).
  change (Ascii.eqb "." ".") with true. cbv iota.
  rewrite <- (app_nil_r fs) at 1.
  rewrite (span_app is_ascii_digit fs [] Hfs I).
  cbn [app parse_exponent]. reflexivity.
Qed.

(** [float] reads a run of digits as the integer they spell. *)
Lemma float_of_str_digits a ds :
  Forall (fun c => is_ascii_digit c = true) (a :: ds) ->
  float_of_str (str (a :: ds))
  = Ok (of_decimal false (digits_value (a :: ds)) 0).
Proof.
  intros Hds. unfold float_of_str. rewrite chars_str.
  pose proof (Forall_inv Hds) as Ha.
  rewrite strip_by_none
    by (eapply Forall_impl; [exact Hds|]; intros c Hc;
        now destruct (digit_not_separator c Hc) as (_ & _ & _ & _ & _ & ? & _)).
  rewrite drop_underscores_id;
    [|eapply Forall_impl; [exact Hds|]; intros c Hc;
      now destruct (digit_not_separator c Hc) as (_ & _ & ? & _)|exact I].
  unfold parse_decimal.
  replace (parse_sign (a :: ds)) with (false, a :: ds).
  2:{ cbn [parse_sign].
      destruct (digit_not_separator a Ha) as (_ & _ & _ & -> & -> & _).
      reflexivity. }
  rewrite <- (app_nil_r (a :: ds)) at 1.
  rewrite (span_app is_ascii_digit (a :: ds) [] Hds I).
  cbn [app parse_exponent]. rewrite app_nil_r. reflexivity.
Qed.

Lemma limpar_point_digits a ds fs :
  Forall (fun c => is_ascii_digit c = true) (a :: ds) ->
  Forall (fun c => is_ascii_digit c = true) fs ->
  limpar ((a :: ds) ++ "."%char :: fs) = (a :: ds) ++ fs.
Proof.
  intros Hds Hfs. rewrite (limpar_digits _ _ Hds). f_equal.
  change (limpar ("."%char :: fs)) with (limpar fs).
  rewrite <- (app_nil_r fs) at 1. rewrite (limpar_digits _ _ Hfs).
  now rewrite app_nil_r.
Qed.

(** X27. Under the Brazilian rule a number written in machine format, with
    a point before its decimals, loses its point: [converter_valor] reads
    digits, a point and [n] more digits as the integer that all the digits
    spell, which is 10 to the [n] times the number that [float] reads in
    the same text. *)
Theorem converter_valor_machine_decimal :
  forall a ds fs,
    Forall (fun c => is_ascii_digit c = true) (a :: ds) ->
    Forall (fun c => is_ascii_digit c = true) fs ->
    converter_valor (Some (str ((a :: ds) ++ "."%char :: fs)))
    = Ok (of_decimal false (digits_value ((a :: ds) ++ fs)) 0)
    /\ float_of_str (str ((a :: ds) ++ "."%char :: fs))
       = Ok (of_decimal false (digits_value ((a :: ds) ++ fs))
               (0 - Z.of_nat (length fs))).
Proof.
  intros a ds fs Hds Hfs. split; [|now apply float_of_str_point].
  rewrite converter_valor_numericConvert. f_equal.
  unfold numericConvert.
  rewrite <- (str_chars (texto_limpo _)), chars_texto_limpo, chars_str.
  rewrite (limpar_point_digits a ds fs Hds Hfs).
  assert (Hall : Forall (fun c => is_ascii_digit c = true) (a :: ds ++ fs)).
  { change (a :: ds ++ fs) with ((a :: ds) ++ fs). apply Forall_app.
    now split. }
  change ((a :: ds) ++ fs) with (a :: ds ++ fs).
  now rewrite (float_of_str_digits a (ds ++ fs) Hall).
Qed.

Lemma converter_valor_machine_decimal_witness :
  converter_valor (Some "1234.56") = Ok (of_Z 123456)
  /\ converter_valor (Some "0.01") = Ok (of_Z 1).
Proof.
  split.
  - destruct (converter_valor_machine_decimal "1"%char
                ["2"; "3"; "4"]%char ["5"; "6"]%char) as [H _];
      [repeat constructor..|].
    exact H.
  - destruct (converter_valor_machine_decimal "0"%char [] ["0"; "1"]%char)
      as [H _]; [repeat constructor..|].
    exact H.
Defined.

End MachineDecimal.

(* ===================================================================== *)
(** ** The diff report read the other way round *)
(* ===================================================================== *)

Section FloatOpposite.
Import PyStr Py PyFloat XmlParser Pandas.

Lemma binary_round_aux_opp s m e l :
  SFopp (binary_round_aux prec emax s m e l)
  = binary_round_aux prec emax (negb s) m e l.
Proof.
  unfold binary_round_aux.
  destruct (shr_fexp prec emax m e l) as [mrs' e'].
  destruct (shr_fexp prec emax _ e' loc_Exact) as [mrs'' e''].
  destruct (shr_m mrs'') as [|p|p]; [reflexivity| |reflexivity].
  destruct (e'' <=? _)%Z; reflexivity.
Qed.

Lemma binary_round_opp s m e :
  SFopp (binary_round prec emax s m e) = binary_round prec emax (negb s) m e.
Proof.
  unfold binary_round. destruct (shl_align _ _ _) as [mz ez].
  apply binary_round_aux_opp.
Qed.

Lemma binary_normalize_opp m e :
  m <> 0%Z ->
  SFopp (binary_normalize prec emax m e false)
  = binary_normalize prec emax (- m) e false.
Proof.
  intros H. destruct m as [|p|p]; [congruence| |]; cbn [binary_normalize Z.opp];
    apply binary_round_opp.
Qed.

Lemma neg_neg x : neg (neg x) = x.
Proof. destruct x as [[]|[]| |[] m e]; reflexivity. Qed.

Lemma neb_neg x : neb (neg x) zero = neb x zero.
Proof. destruct x as [[]|[]| |[] m e]; reflexivity. Qed.

Lemma is_nan_neg x : is_nan (neg x) = is_nan x.
Proof. destruct x as [[]|[]| |[] m e]; reflexivity. Qed.

(** A difference that is not zero is the opposite of the difference taken
    the other way round. *)
Lemma sub_opposite x y :
  neb (sub y x) zero = true -> sub x y = neg (sub y x).
Proof.
  unfold sub, neg.
  destruct x as [sx|sx| |sx mx ex], y as [sy|sy| |sy my ey];
    try (destruct sx, sy; cbn; intros H; try discriminate H; reflexivity);
    try (destruct sx; cbn; intros H; try discriminate H; reflexivity);
    try (destruct sy; cbn; intros H; try discriminate H; reflexivity);
    try (cbn; intros H; try discriminate H; reflexivity).
  unfold SFsub. rewrite (Z.min_comm ex ey).
  set (ez := Z.min ey ex).
  set (A := cond_Zopp sx (Zpos (fst (shl_align mx ex ez)))).
  set (B := cond_Zopp sy (Zpos (fst (shl_align my ey ez)))).
  intros H.
  assert (Hne : (B - A)%Z <> 0%Z).
  { intros E. rewrite E in H. discriminate H. }
  rewrite (binary_normalize_opp _ _ Hne). f_equal. lia.
Qed.

End FloatOpposite.

Section DiffOpposite.
Import PyStr Py PyFloat XmlParser Pandas DiffGenerator ReferenceTables.
Import ReferenceDiff.

Lemma wrap64_int64 n : int64 (wrap64 n).
Proof.
  unfold int64, wrap64.
  change (2 ^ 63)%Z with 9223372036854775808%Z.
  change (2 ^ 64)%Z with 18446744073709551616%Z.
  pose proof (Z.mod_pos_bound (n + 9223372036854775808)%Z
                18446744073709551616%Z ltac:(lia)). lia.
Qed.

Lemma wrap64_id n : int64 n -> wrap64 n = n.
Proof.
  unfold int64, wrap64.
  change (2 ^ 63)%Z with 9223372036854775808%Z.
  change (2 ^ 64)%Z with 18446744073709551616%Z.
  intros H. rewrite Z.mod_small by lia. lia.
Qed.

Lemma wrap64_opp_wrap64 n : wrap64 (- wrap64 n) = wrap64 (- n).
Proof.
  unfold wrap64.
  change (2 ^ 63)%Z with 9223372036854775808%Z.
  change (2 ^ 64)%Z with 18446744073709551616%Z.
  f_equal.
  rewrite (Z.mod_eq (n + 9223372036854775808)%Z 18446744073709551616%Z)
    by lia.
  set (q := ((n + 9223372036854775808) / 18446744073709551616)%Z).
  replace (- (n + 9223372036854775808 - 18446744073709551616 * q
              - 9223372036854775808) + 9223372036854775808)%Z
    with (- n + 9223372036854775808 + q * 18446744073709551616)%Z by lia.
  apply Z.mod_add. lia.
Qed.

Lemma wrap64_opp_zero n : int64 n -> wrap64 (- n) = 0%Z -> n = 0%Z.
Proof.
  unfold int64, wrap64.
  change (2 ^ 63)%Z with 9223372036854775808%Z.
  change (2 ^ 64)%Z with 18446744073709551616%Z.
  intros H E.
  destruct (Z.eq_dec n (-9223372036854775808)%Z) as [->|Hn];
    [vm_compute in E; discriminate E|].
  rewrite Z.mod_small in E by lia. lia.
Qed.

Lemma num_neg_nonzero d :
  num_int64 d -> num_nonzero d = true -> num_nonzero (num_neg d) = true.
Proof.
  destruct d as [x|n]; cbn [num_int64 num_nonzero num_neg].
  - intros _ H. now rewrite neb_neg.
  - intros Hr H. apply negb_true_iff, Z.eqb_neq in H.
    apply negb_true_iff, Z.eqb_neq. intros E. apply H.
    now apply wrap64_opp_zero.
Qed.

Lemma num_neg_neg d : num_int64 d -> num_neg (num_neg d) = d.
Proof.
  destruct d as [x|n]; cbn [num_int64 num_neg]; intros H.
  - now rewrite neg_neg.
  - f_equal. rewrite wrap64_opp_wrap64, Z.opp_involutive.
    now apply wrap64_id.
Qed.

Lemma num_sub_int64 a b : num_int64 (num_sub a b).
Proof. destruct a, b; cbn; try exact I. apply wrap64_int64. Qed.

Lemma num_sub_opposite a b :
  num_nonzero (num_sub b a) = true -> num_sub a b = num_neg (num_sub b a).
Proof.
  destruct a as [x|n], b as [y|m]; cbn [num_sub num_neg num_nonzero];
    intros H; try (f_equal; now apply sub_opposite).
  f_equal. rewrite wrap64_opp_wrap64. f_equal. lia.
Qed.

(** The delta of two scalars read the other way round is the opposite
    delta. *)
Lemma delta_opposite v1 v2 d :
  num_int64 v1 -> num_int64 v2 ->
  delta v1 v2 = Some d -> num_nonzero d = true ->
  delta v2 v1 = Some (num_neg d) /\ num_nonzero (num_neg d) = true.
Proof.
  intros R1 R2. unfold delta.
  destruct (isna v1) eqn:E1, (isna v2) eqn:E2; intros H Hnz;
    try discriminate H; injection H as <-.
  - split; [reflexivity|]. now apply num_neg_nonzero.
  - split.
    + now rewrite num_neg_neg.
    + apply num_neg_nonzero; [|exact Hnz].
      destruct v1; cbn; [exact I|apply wrap64_int64].
  - split.
    + f_equal. now apply num_sub_opposite.
    + apply num_neg_nonzero; [apply num_sub_int64|exact Hnz].
Qed.

Lemma loc_int64 df label col v :
  int64_cells df -> loc df label col = Ok v -> num_int64 v.
Proof.
  intros Hc. unfold loc.
  destruct (columns df !! col) as [c|] eqn:E; [|discriminate].
  destruct (positions (index df) label) as [|i [|j r]]; try discriminate.
  destruct c as [l|l|l]; cbn [cell]; try discriminate.
  - destruct (nth_error l i); cbn; [|discriminate].
    intros H. injection H as <-. exact I.
  - destruct (nth_error l i) as [n|] eqn:En; cbn; [|discriminate].
    intros H. injection H as <-. cbn.
    specialize (Hc col l E). rewrite List.Forall_forall in Hc.
    apply Hc. eapply nth_error_In. exact En.
Qed.

(** X28. The diff report read the other way round: when both reports are
    produced, every record of the report from the first table to the
    second has its opposite in the report from the second to the first,
    the same identifier and field with the difference negated. The
    columns of integers hold 64-bit integers. *)
Theorem generate_diff_report_opposite :
  forall df_v1 df_v2 recs12 recs21,
    int64_cells (set_index df_v1 "CNPJ_FUNDO") ->
    int64_cells (set_index df_v2 "CNPJ_FUNDO") ->
    generate_diff_report df_v1 df_v2 = Ok recs12 ->
    generate_diff_report df_v2 df_v1 = Ok recs21 ->
    forall r, In r recs12 -> In (oposto r) recs21.
Proof.
  intros df_v1 df_v2 recs12 recs21 C1 C2 H12 H21 r Hr.
  apply (generate_diff_report_In df_v1 df_v2 recs12 H12 r) in Hr.
  apply (generate_diff_report_In df_v2 df_v1 recs21 H21 (oposto r)).
  cbn [oposto CNPJ_FUNDO COLUNA DIFERENCA].
  destruct Hr as ((I1 & I2) & (N1 & N2) & v1 & v2 & L1 & L2 & Hd & Hnz).
  split; [now split|]. split; [now split|].
  exists v2, v1. split; [exact L2|]. split; [exact L1|].
  apply delta_opposite; try assumption.
  - exact (loc_int64 _ _ _ _ C1 L1).
  - exact (loc_int64 _ _ _ _ C2 L2).
Qed.

Lemma tabela_int64_cells rows :
  int64_cells (set_index (tabela rows) "CNPJ_FUNDO").
Proof.
  intros col v H. rewrite set_index_tabela in H. cbn [columns] in H.
  apply lookup_singleton_Some in H. destruct H as [_ H]. discriminate H.
Qed.

Lemma generate_diff_report_opposite_witness :
  In {| CNPJ_FUNDO := VStr "A"; COLUNA := "VALOR";
        DIFERENCA := NFloat (of_Z (-2)) |}
     [ {| CNPJ_FUNDO := VStr "A"; COLUNA := "VALOR";
          DIFERENCA := NFloat (of_Z (-2)) |} ].
Proof.
  exact (generate_diff_report_opposite
           (tabela [("A", of_Z 10)]) (tabela [("A", of_Z 12)])
           [ {| CNPJ_FUNDO := VStr "A"; COLUNA := "VALOR";
                DIFERENCA := NFloat (of_Z 2) |} ]
           [ {| CNPJ_FUNDO := VStr "A"; COLUNA := "VALOR";
                DIFERENCA := NFloat (of_Z (-2)) |} ]
           (tabela_int64_cells _) (tabela_int64_cells _)
           ltac:(vm_compute; reflexivity) ltac:(vm_compute; reflexivity)
           {| CNPJ_FUNDO := VStr "A"; COLUNA := "VALOR";
              DIFERENCA := NFloat (of_Z 2) |}
           (or_introl eq_refl)).
Defined.

End DiffOpposite.

(* ===================================================================== *)
(** ** Identifiers cleaned twice, and the cells that are a dash *)
(* ===================================================================== *)

Section CleanTwice.
Import PyStr Py PyFloat XmlParser Pandas DataCleaner.

Lemma clean_cnpj_digits s :
  length (chars (clean_cnpj s)) = 14%nat
  /\ forallb isdigit (chars (clean_cnpj s)) = true.
Proof.
  destruct (clean_cnpj_chars s) as (Hc & Hd & Hlen).
  cbv zeta in Hc. rewrite Hc. split.
  - rewrite length_app, repeat_length. lia.
  - rewrite forallb_app, forallb_repeat by reflexivity.
    apply forallb_forall. intros c Hin.
    rewrite Forall_forall in Hd. apply Hd. now apply list_elem_of_In.
Qed.

Lemma filter_filter (p : ascii -> bool) l :
  List.filter p (List.filter p l) = List.filter p l.
Proof.
  apply filter_all. apply forallb_forall. intros c Hc.
  now apply filter_In in Hc.
Qed.

(** X29. Cleaning an identifier twice is cleaning it once, for every text;
    and the result depends on the digits of the text only: the other
    characters may be removed beforehand. *)
Theorem clean_cnpj_idempotent :
  forall s,
    clean_cnpj (clean_cnpj s) = clean_cnpj s
    /\ clean_cnpj (str (List.filter isdigit (chars s))) = clean_cnpj s.
Proof.
  intros s. split.
  - destruct (clean_cnpj_digits s) as [Hlen Hall].
    unfold clean_cnpj at 1. rewrite (filter_all _ _ Hall).
    unfold slice_to. rewrite firstn_all2 by lia.
    rewrite zfill_digits
      by (apply Forall_forall; intros c Hc;
          rewrite forallb_forall in Hall; apply Hall;
          now apply list_elem_of_In).
    rewrite Hlen. cbn [Nat.sub repeat app]. apply str_chars.
  - unfold clean_cnpj. now rewrite chars_str, filter_filter.
Qed.

End CleanTwice.

Section OnlyDash.
Import PyStr Py PyFloat XmlParser Pandas DataCleaner.

Lemma only_dash_strip s : only_dash s = true <-> strip s = "-".
Proof.
  unfold only_dash, strip. split.
  - destruct (lstrip_by isspace (chars s)) as [|c r] eqn:E; [discriminate|].
    intros H. apply andb_prop in H. destruct H as [Hc Hr].
    apply Ascii.eqb_eq in Hc. subst c.
    unfold strip_by. rewrite E. cbn [rev].
    rewrite lstrip_by_app_l; [reflexivity|].
    apply Forall_rev, Forall_forall. intros c Hin.
    rewrite forallb_forall in Hr. apply Hr. now apply list_elem_of_In.
  - intros H. apply (f_equal chars) in H. rewrite chars_str in H.
    destruct (strip_by_split isspace (chars s))
      as (pre & post & Hl & Hpre & Hpost).
    rewrite H in Hl. change (chars "-") with ["-"%char] in Hl.
    rewrite Hl, lstrip_by_app_l by exact Hpre.
    cbn [app lstrip_by]. change (isspace "-") with false. cbv iota.
    rewrite Ascii.eqb_refl. cbn [andb].
    apply forallb_forall. intros c Hin.
    rewrite Forall_forall in Hpost. apply Hpost. now apply list_elem_of_In.
Qed.

(** X30. The dash replacement of [convert_numeric_columns] changes a cell
    only when the cell is a lone dash among blanks, that is when its
    trimmed text is "-": a listed column of text reaches [to_numeric] with
    these cells replaced by "0" and every other cell as it is, negative
    numbers and numbers in scientific notation included. *)
Theorem convert_column_replaces_lone_dashes :
  forall astype_str to_numeric_strings replace_dash df col v,
    columns df !! col = Some (Object v) ->
    columns (convert_column astype_str to_numeric_strings replace_dash
               df col) !! col
    = Some (to_numeric_strings
              (map (fun cell =>
                      if replace_dash
                         && bool_decide (strip (astype_str cell) = "-")
                      then "0" else astype_str cell) v)).
Proof.
  intros astype_str to_numeric_strings replace_dash df col v H.
  unfold convert_column. rewrite H.
  cbn [is_numeric_dtype cells set_column columns].
  rewrite lookup_insert_eq. do 2 f_equal.
  destruct replace_dash; cbn [andb]; [|reflexivity].
  rewrite map_map. apply map_ext. intros cell.
  destruct (only_dash (astype_str cell)) eqn:E.
  - apply only_dash_strip in E. now rewrite bool_decide_eq_true_2.
  - rewrite bool_decide_eq_false_2; [reflexivity|].
    intros Hs. apply only_dash_strip in Hs. congruence.
Qed.

Lemma convert_column_replaces_lone_dashes_witness :
  columns (convert_column (fun v => match v with VStr s => s | _ => "" end)
             (fun l => Object (map VStr l)) true
             {| index := [VInt 0; VInt 1; VInt 2];
                columns := {[ "VALOR" := Object [VStr " - "; VStr "-5";
                                                 VStr "1.23e-10"] ]} |}
             "VALOR") !! "VALOR"
  = Some (Object [VStr "0"; VStr "-5"; VStr "1.23e-10"]).
Proof.
  rewrite (convert_column_replaces_lone_dashes
             (fun v => match v with VStr s => s | _ => "" end)
             (fun l => Object (map VStr l)) true _ "VALOR"
             [VStr " - "; VStr "-5"; VStr "1.23e-10"]).
  - vm_compute. reflexivity.
  - apply lookup_singleton_eq.
Defined.

End OnlyDash.
